(** * RBAC and JWT authentication lifecycle of the Express/Prisma template

    A shallow embedding of the authorization core of the repository:
    - [utils/password.util.ts]      (password policy, Argon2 wrappers)
    - [config/jwt.config.ts]        (token issuing and verification)
    - [repositories/Auth.repository.ts], [repositories/Role.repository.ts]
    - [services/Auth.service.ts], [services/Role.service.ts]
    - [middleware/permissions.middleware.ts]
    - [models/Role.model.ts]        (role and permission constants)

    The Prisma client is modelled as an explicit database value threaded
    through a state-and-exception monad; a rejected promise keeps the writes
    done before the throw, as the source has no transaction around them. *)

From Stdlib Require Import String Ascii List ZArith NArith Bool Lia.
From Stdlib Require Import DecimalString.
Import ListNotations.
Open Scope string_scope.
Open Scope Z_scope.

(* ================================================================== *)
(** ** JavaScript values *)

(** A password is inspected character by character, so it is kept as the
    sequence of its UTF-16 code units, which is what [String.prototype.length]
    and a regular expression without the [u] flag see. *)
Definition codeunit := N.
Definition jsstring := list codeunit.

Definition units (s : string) : jsstring :=
  map N_of_ascii (list_ascii_of_string s).

(** Identifiers, e-mail addresses, tokens and messages are only compared and
    concatenated; they are kept as [string]. *)

(** The error classes of the [jsonwebtoken] package; [TokenExpiredError] and
    [NotBeforeError] extend [JsonWebTokenError]. *)
Inductive JwtError : Type :=
| JsonWebTokenError
| TokenExpiredError
| NotBeforeError.

(** What a rejected promise carries: [new Error(msg)] with the ad-hoc
    [statusCode] attached, a bare [new Error(msg)], a Prisma request error
    identified by its code, or an error object of the token package. *)
Inductive Thrown : Type :=
| HttpError (message : string) (statusCode : Z)
| PlainError (message : string)
| PrismaError (code : string)
| JwtThrown (e : JwtError).

(** [constants/index.ts] *)
Module HTTP_STATUS.
Definition OK := 200.
Definition CREATED := 201.
Definition NO_CONTENT := 204.
Definition BAD_REQUEST := 400.
Definition UNAUTHORIZED := 401.
Definition FORBIDDEN := 403.
Definition NOT_FOUND := 404.
Definition CONFLICT := 409.
Definition INTERNAL_SERVER_ERROR := 500.
End HTTP_STATUS.

Module HTTP_MESSAGES.
Definition UNAUTHORIZED := "Acceso no autorizado".
Definition FORBIDDEN := "Acceso prohibido".
Definition INTERNAL_ERROR := "Error interno del servidor".
End HTTP_MESSAGES.

Module PRISMA_ERROR_CODES.
Definition UNIQUE_CONSTRAINT := "P2002".
Definition RECORD_NOT_FOUND := "P2025".
Definition FOREIGN_KEY_CONSTRAINT := "P2003".
End PRISMA_ERROR_CODES.

(* ================================================================== *)
(** ** [utils/password.util.ts]: the password policy *)

Record PasswordValidation : Type := mkValidation {
  isValid : bool;
  error : option string
}.

Definition inRange (lo hi : N) (c : codeunit) : bool :=
  ((lo <=? c) && (c <=? hi))%N.

(** [/[A-Z]/], [/[a-z]/], [/[0-9]/] *)
Definition isUpper : codeunit -> bool := inRange 65 90.
Definition isLower : codeunit -> bool := inRange 97 122.
Definition isDigit : codeunit -> bool := inRange 48 57.

(** The class of the last regular expression, in the order of the source:
    ! @ # $ % ^ & * ( ) , . ? (double quote) : { } | < > *)
Definition specialChars : list codeunit :=
  [33; 64; 35; 36; 37; 94; 38; 42; 40; 41; 44; 46; 63; 34; 58; 123; 125;
   124; 60; 62]%N.

Definition isSpecial (c : codeunit) : bool :=
  existsb (N.eqb c) specialChars.

(** [re.test(password)] for a one-character class. *)
Definition test (cls : codeunit -> bool) (password : jsstring) : bool :=
  existsb cls password.

Definition showNat (n : nat) : string :=
  NilEmpty.string_of_uint (Nat.to_uint n).

Definition msgTooShort (minLength : nat) : string :=
  "Password must be at least " ++ showNat minLength ++ " characters long".
Definition msgNoUpper := "Password must contain at least one uppercase letter".
Definition msgNoLower := "Password must contain at least one lowercase letter".
Definition msgNoDigit := "Password must contain at least one number".
Definition msgNoSpecial :=
  "Password must contain at least one special character".

Definition invalid (msg : string) : PasswordValidation :=
  {| isValid := false; error := Some msg |}.

Definition validatePasswordStrength
    (password : jsstring) (minLength : nat) : PasswordValidation :=
  if (length password <? minLength)%nat then invalid (msgTooShort minLength)
  else if negb (test isUpper password) then invalid msgNoUpper
  else if negb (test isLower password) then invalid msgNoLower
  else if negb (test isDigit password) then invalid msgNoDigit
  else if negb (test isSpecial password) then invalid msgNoSpecial
  else {| isValid := true; error := None |}.

(** Every caller relies on the default [minLength = 8]. *)
Definition validatePasswordStrength8 (password : jsstring) :=
  validatePasswordStrength password 8.

(** The policy as the specification words it: an ordered list of five rules,
    each with its message; the verdict is the message of the first rule that
    the password breaks. *)
Record Rule : Type := mkRule {
  holds : jsstring -> bool;
  complaint : string
}.

Definition policy : list Rule :=
  [ mkRule (fun p => (8 <=? length p)%nat) (msgTooShort 8);
    mkRule (test isUpper) msgNoUpper;
    mkRule (test isLower) msgNoLower;
    mkRule (test isDigit) msgNoDigit;
    mkRule (test isSpecial) msgNoSpecial ].

Definition firstViolation (rules : list Rule) (p : jsstring) : option Rule :=
  find (fun r => negb (holds r p)) rules.

Definition spec_validateStrength (p : jsstring) : PasswordValidation :=
  match firstViolation policy p with
  | Some r => invalid (complaint r)
  | None => {| isValid := true; error := None |}
  end.


(* ================================================================== *)
(** ** The database behind the Prisma client *)

(** Modelled from the spec: [prisma/schema.prisma] is not among the sources.
    The rows carry the fields the repositories read and write; the
    constraints are those of the specification's data model: unique e-mail,
    unique role and permission names, a foreign key from a user to its role,
    a join row identified by its (role, permission) pair, auto-incremented
    numeric ids, and [isActive] defaulting to [true]. *)
Module User.
Record t : Type := mk {
  id : Z;
  email : string;
  password : string;
  name : option string;
  roleId : option Z;
  isActive : bool;
  refreshToken : option string;
  passwordResetToken : option string;
  passwordResetExpires : option Z
}.
End User.

Module Role.
Record t : Type := mk {
  id : Z;
  name : string;
  description : option string;
  isActive : bool
}.
End Role.

Module Permission.
Record t : Type := mk {
  id : Z;
  name : string;
  description : option string;
  isActive : bool
}.
End Permission.

Module RolePermission.
Record t : Type := mk {
  roleId : Z;
  permissionId : Z
}.
End RolePermission.

Record Db : Type := mkDb {
  user : list User.t;
  role : list Role.t;
  permission : list Permission.t;
  rolePermission : list RolePermission.t;
  (* AUTO_INCREMENT counters *)
  nextUserId : Z;
  nextRoleId : Z;
  nextPermissionId : Z
}.

Definition emptyDb : Db := mkDb [] [] [] [] 1 1 1.

(** ** Promises over the database *)

Inductive Settled (A : Type) : Type :=
| Fulfilled (a : A)
| Rejected (e : Thrown).
Arguments Fulfilled {A} a.
Arguments Rejected {A} e.

Definition Promise (A : Type) : Type := Db -> Settled A * Db.

Definition resolve {A} (a : A) : Promise A := fun d => (Fulfilled a, d).
Definition throw {A} (e : Thrown) : Promise A := fun d => (Rejected e, d).
Definition await {A B} (m : Promise A) (k : A -> Promise B) : Promise B :=
  fun d =>
    match m d with
    | (Fulfilled a, d') => k a d'
    | (Rejected e, d') => (Rejected e, d')
    end.
Definition tryCatch {A} (m : Promise A) (h : Thrown -> Promise A) : Promise A :=
  fun d =>
    match m d with
    | (Fulfilled a, d') => (Fulfilled a, d')
    | (Rejected e, d') => h e d'
    end.
Definition query {A} (f : Db -> A) : Promise A := fun d => (Fulfilled (f d), d).
Definition execute (f : Db -> Db) : Promise unit := fun d => (Fulfilled tt, f d).

Declare Scope promise_scope.
Delimit Scope promise_scope with promise.
Notation "x <- m ;; k" := (await m (fun x => k))
  (at level 61, m at next level, right associativity) : promise_scope.
Notation "m ;; k" := (await m (fun _ => k))
  (at level 61, right associativity) : promise_scope.
Open Scope promise_scope.

(** [Promise.all(xs.map(f))] over read-only checks. *)
Fixpoint promiseAll {A B} (f : A -> Promise B) (xs : list A)
  : Promise (list B) :=
  match xs with
  | [] => resolve []
  | x :: rest => b <- f x ;; bs <- promiseAll f rest ;; resolve (b :: bs)
  end.

(** JavaScript's [a || b] on an optional string: the empty string is falsy. *)
Definition orElse (a : option string) (b : string) : string :=
  match a with
  | Some s => if (s =? "")%string then b else s
  | None => b
  end.

(** [orderBy: { name: 'asc' }] *)
Fixpoint insertBy {A} (key : A -> string) (x : A) (l : list A) : list A :=
  match l with
  | [] => [x]
  | y :: rest =>
      if String.leb (key x) (key y) then x :: l else y :: insertBy key x rest
  end.
Definition orderBy {A} (key : A -> string) (l : list A) : list A :=
  fold_right (insertBy key) [] l.

Definition isSome {A} (o : option A) : bool :=
  match o with Some _ => true | None => false end.

(** *** Row lookups shared by the repositories *)

Definition userById (i : Z) (d : Db) : option User.t :=
  find (fun u => User.id u =? i) (user d).
Definition userByEmail (e : string) (d : Db) : option User.t :=
  find (fun u => User.email u =? e)%string (user d).
Definition roleById (i : Z) (d : Db) : option Role.t :=
  find (fun r => Role.id r =? i) (role d).
Definition roleByName (n : string) (d : Db) : option Role.t :=
  find (fun r => Role.name r =? n)%string (role d).
Definition permissionById (i : Z) (d : Db) : option Permission.t :=
  find (fun p => Permission.id p =? i) (permission d).
Definition permissionByName (n : string) (d : Db) : option Permission.t :=
  find (fun p => Permission.name p =? n)%string (permission d).

(** [include: { role: true }]: the row of the relation, whatever its
    [isActive] flag. *)
Record UserWithRole : Type := mkUserWithRole {
  row : User.t;
  itsRole : option Role.t
}.

Definition includeRole (d : Db) (u : User.t) : UserWithRole :=
  {| row := u;
     itsRole := match User.roleId u with
                | Some r => roleById r d
                | None => None
                end |}.

(** [db.user.update({ where: { id }, data })] *)
Definition updateUser (i : Z) (f : User.t -> User.t) : Promise User.t :=
  fun d =>
    match userById i d with
    | None => (Rejected (PrismaError PRISMA_ERROR_CODES.RECORD_NOT_FOUND), d)
    | Some u =>
        (Fulfilled (f u),
         mkDb (map (fun x => if User.id x =? i then f x else x) (user d))
              (role d) (permission d) (rolePermission d)
              (nextUserId d) (nextRoleId d) (nextPermissionId d))
    end.

(** [db.role.update({ where: { id }, data })] *)
Definition updateRoleRow (i : Z) (f : Role.t -> Role.t) : Promise Role.t :=
  fun d =>
    match roleById i d with
    | None => (Rejected (PrismaError PRISMA_ERROR_CODES.RECORD_NOT_FOUND), d)
    | Some r =>
        (Fulfilled (f r),
         mkDb (user d)
              (map (fun x => if Role.id x =? i then f x else x) (role d))
              (permission d) (rolePermission d)
              (nextUserId d) (nextRoleId d) (nextPermissionId d))
    end.

(** [db.permission.update({ where: { id }, data })] *)
Definition updatePermissionRow (i : Z) (f : Permission.t -> Permission.t)
  : Promise Permission.t :=
  fun d =>
    match permissionById i d with
    | None => (Rejected (PrismaError PRISMA_ERROR_CODES.RECORD_NOT_FOUND), d)
    | Some p =>
        (Fulfilled (f p),
         mkDb (user d) (role d)
              (map (fun x => if Permission.id x =? i then f x else x)
                   (permission d))
              (rolePermission d)
              (nextUserId d) (nextRoleId d) (nextPermissionId d))
    end.

(* ================================================================== *)
(** ** [models/Role.model.ts] *)

Module ROLE_NAMES.
Definition ADMIN := "admin".
Definition USER := "user".
End ROLE_NAMES.

Module PERMISSIONS.
Definition USERS_READ := "users.read".
Definition USERS_CREATE := "users.create".
Definition USERS_UPDATE := "users.update".
Definition USERS_DELETE := "users.delete".
Definition USERS_MANAGE := "users.manage".
Definition ROLES_READ := "roles.read".
Definition ROLES_CREATE := "roles.create".
Definition ROLES_UPDATE := "roles.update".
Definition ROLES_DELETE := "roles.delete".
Definition ROLES_MANAGE := "roles.manage".
Definition PERMISSIONS_READ := "permissions.read".
Definition PERMISSIONS_MANAGE := "permissions.manage".
Definition ADMIN_ACCESS := "admin.access".

(** [Object.values(PERMISSIONS)], in insertion order. *)
Definition values : list string :=
  [ USERS_READ; USERS_CREATE; USERS_UPDATE; USERS_DELETE; USERS_MANAGE;
    ROLES_READ; ROLES_CREATE; ROLES_UPDATE; ROLES_DELETE; ROLES_MANAGE;
    PERMISSIONS_READ; PERMISSIONS_MANAGE; ADMIN_ACCESS ].
End PERMISSIONS.

Module DEFAULT_ROLE_PERMISSIONS.
Definition ADMIN : list string :=
  [ PERMISSIONS.ADMIN_ACCESS; PERMISSIONS.USERS_MANAGE;
    PERMISSIONS.ROLES_MANAGE; PERMISSIONS.PERMISSIONS_MANAGE ].
Definition USER : list string := [ PERMISSIONS.USERS_READ ].
End DEFAULT_ROLE_PERMISSIONS.

Record CreateRoleInput : Type := mkCreateRoleInput {
  cr_name : string;
  cr_description : option string;
  cr_permissionIds : option (list Z)
}.

Record UpdateRoleInput : Type := mkUpdateRoleInput {
  ur_name : option string;
  ur_description : option string;
  ur_isActive : option bool;
  ur_permissionIds : option (list Z)
}.

Record CreatePermissionInput : Type := mkCreatePermissionInput {
  cp_name : string;
  cp_description : option string
}.

Record UpdatePermissionInput : Type := mkUpdatePermissionInput {
  up_name : option string;
  up_description : option string;
  up_isActive : option bool
}.

(** A field left [undefined] in [data] keeps the stored value. *)
Definition patch {A} (new : option A) (old : A) : A :=
  match new with Some v => v | None => old end.
Definition patchOpt {A} (new : option A) (old : option A) : option A :=
  match new with Some v => Some v | None => old end.

(* ================================================================== *)
(** ** [repositories/Role.repository.ts] *)

Fixpoint distinct (l : list Z) : bool :=
  match l with
  | [] => true
  | x :: rest => negb (existsb (Z.eqb x) rest) && distinct rest
  end.

Definition hasJoinRow (r p : Z) (d : Db) : bool :=
  existsb (fun rp => (RolePermission.roleId rp =? r)
                     && (RolePermission.permissionId rp =? p))
          (rolePermission d).

(** [db.rolePermission.deleteMany({ where: { roleId } })] *)
Definition deleteJoinRows (r : Z) : Promise unit :=
  execute (fun d =>
    mkDb (user d) (role d) (permission d)
         (filter (fun rp => negb (RolePermission.roleId rp =? r))
                 (rolePermission d))
         (nextUserId d) (nextRoleId d) (nextPermissionId d)).

(** [db.rolePermission.createMany({ data })], one INSERT statement. *)
Definition createJoinRows (r : Z) (permissionIds : list Z) : Promise unit :=
  fun d =>
    if negb (isSome (roleById r d))
       || negb (forallb (fun p => isSome (permissionById p d)) permissionIds)
    then (Rejected (PrismaError PRISMA_ERROR_CODES.FOREIGN_KEY_CONSTRAINT), d)
    else if negb (distinct permissionIds)
            || existsb (fun p => hasJoinRow r p d) permissionIds
    then (Rejected (PrismaError PRISMA_ERROR_CODES.UNIQUE_CONSTRAINT), d)
    else (Fulfilled tt,
          mkDb (user d) (role d) (permission d)
               (rolePermission d
                ++ map (fun p => RolePermission.mk r p) permissionIds)
               (nextUserId d) (nextRoleId d) (nextPermissionId d)).

Module RoleRepository.

Definition findAll : Promise (list Role.t) :=
  query (fun d => orderBy Role.name (filter Role.isActive (role d))).

Definition findById (id : Z) : Promise (option Role.t) :=
  query (roleById id).

Definition findByName (name : string) : Promise (option Role.t) :=
  query (roleByName name).

(** [findByIdWithPermissions]: the role with its join rows, each with its
    permission. *)
Definition findByIdWithPermissions (id : Z)
  : Promise (option (Role.t * list (RolePermission.t * option Permission.t))) :=
  query (fun d =>
    match roleById id d with
    | None => None
    | Some r =>
        Some (r, map (fun rp =>
                        (rp, permissionById (RolePermission.permissionId rp) d))
                     (filter (fun rp => RolePermission.roleId rp =? id)
                             (rolePermission d)))
    end).

(** [db.role.create] with the nested [permissions: { create: [...] }]; the
    nested write is part of the same transaction. *)
Definition create (data : CreateRoleInput) : Promise Role.t :=
  fun d =>
    let pids := match cr_permissionIds data with
                | Some l => l
                | None => []
                end in
    if isSome (roleByName (cr_name data) d)
    then (Rejected (PrismaError PRISMA_ERROR_CODES.UNIQUE_CONSTRAINT), d)
    else if negb (forallb (fun p => isSome (permissionById p d)) pids)
    then (Rejected (PrismaError PRISMA_ERROR_CODES.FOREIGN_KEY_CONSTRAINT), d)
    else if negb (distinct pids)
    then (Rejected (PrismaError PRISMA_ERROR_CODES.UNIQUE_CONSTRAINT), d)
    else
      let r := Role.mk (nextRoleId d) (cr_name data)
                       (cr_description data) true in
      (Fulfilled r,
       mkDb (user d) (role d ++ [r]) (permission d)
            (rolePermission d
             ++ map (fun p => RolePermission.mk (nextRoleId d) p) pids)
            (nextUserId d) (nextRoleId d + 1) (nextPermissionId d)).

Definition roleNameTaken (id : Z) (n : option string) (d : Db) : bool :=
  match n with
  | None => false
  | Some s =>
      existsb (fun r => (Role.name r =? s)%string && negb (Role.id r =? id))
              (role d)
  end.

Definition update (id : Z) (data : UpdateRoleInput) : Promise Role.t :=
  match ur_permissionIds data with
  | Some pids =>
      deleteJoinRows id ;;
      (if (0 <? length pids)%nat then createJoinRows id pids
       else resolve tt)
  | None => resolve tt
  end ;;
  found <- query (roleById id) ;;
  taken <- query (roleNameTaken id (ur_name data)) ;;
  if isSome found && taken
  then throw (PrismaError PRISMA_ERROR_CODES.UNIQUE_CONSTRAINT)
  else
    updateRoleRow id (fun r =>
      Role.mk (Role.id r)
              (patch (ur_name data) (Role.name r))
              (patchOpt (ur_description data) (Role.description r))
              (patch (ur_isActive data) (Role.isActive r))).

(** Soft delete. *)
Definition delete (id : Z) : Promise Role.t :=
  updateRoleRow id (fun r =>
    Role.mk (Role.id r) (Role.name r) (Role.description r) false).

Definition assignPermissions (roleId : Z) (permissionIds : list Z)
  : Promise unit :=
  deleteJoinRows roleId ;;
  if (0 <? length permissionIds)%nat
  then createJoinRows roleId permissionIds
  else resolve tt.

Definition getRolePermissions (roleId : Z)
  : Promise (list (option Permission.t)) :=
  query (fun d =>
    map (fun rp => permissionById (RolePermission.permissionId rp) d)
        (filter (fun rp => RolePermission.roleId rp =? roleId)
                (rolePermission d))).

(** The [where] clause of [hasPermission]: the join row belongs to the role
    and its permission has the given name and is active. *)
Definition grants (roleId : Z) (permissionName : string) (d : Db)
    (rp : RolePermission.t) : bool :=
  (RolePermission.roleId rp =? roleId)
  && match permissionById (RolePermission.permissionId rp) d with
     | Some p => (Permission.name p =? permissionName)%string
                 && Permission.isActive p
     | None => false
     end.

Definition hasPermission (roleId : Z) (permissionName : string)
  : Promise bool :=
  rolePermission <-
    query (fun d => find (grants roleId permissionName d) (rolePermission d)) ;;
  resolve (isSome rolePermission).

End RoleRepository.

Module PermissionRepository.

Definition findAll : Promise (list Permission.t) :=
  query (fun d =>
    orderBy Permission.name (filter Permission.isActive (permission d))).

Definition findById (id : Z) : Promise (option Permission.t) :=
  query (permissionById id).

Definition findByName (name : string) : Promise (option Permission.t) :=
  query (permissionByName name).

Definition insert (data : CreatePermissionInput) (d : Db) : Db :=
  mkDb (user d) (role d)
       (permission d
        ++ [Permission.mk (nextPermissionId d) (cp_name data)
                          (cp_description data) true])
       (rolePermission d)
       (nextUserId d) (nextRoleId d) (nextPermissionId d + 1).

Definition create (data : CreatePermissionInput) : Promise Permission.t :=
  fun d =>
    if isSome (permissionByName (cp_name data) d)
    then (Rejected (PrismaError PRISMA_ERROR_CODES.UNIQUE_CONSTRAINT), d)
    else (Fulfilled (Permission.mk (nextPermissionId d) (cp_name data)
                                   (cp_description data) true),
          insert data d).

Definition permissionNameTaken (id : Z) (n : option string) (d : Db) : bool :=
  match n with
  | None => false
  | Some s =>
      existsb (fun p => (Permission.name p =? s)%string
                        && negb (Permission.id p =? id))
              (permission d)
  end.

Definition update (id : Z) (data : UpdatePermissionInput)
  : Promise Permission.t :=
  found <- query (permissionById id) ;;
  taken <- query (permissionNameTaken id (up_name data)) ;;
  if isSome found && taken
  then throw (PrismaError PRISMA_ERROR_CODES.UNIQUE_CONSTRAINT)
  else
    updatePermissionRow id (fun p =>
      Permission.mk (Permission.id p)
                    (patch (up_name data) (Permission.name p))
                    (patchOpt (up_description data) (Permission.description p))
                    (patch (up_isActive data) (Permission.isActive p))).

Definition delete (id : Z) : Promise Permission.t :=
  updatePermissionRow id (fun p =>
    Permission.mk (Permission.id p) (Permission.name p)
                  (Permission.description p) false).

(** [createMany] with [skipDuplicates: true]: a row whose name is taken is
    skipped; the result is the number of rows inserted. *)
Fixpoint insertNew (ps : list CreatePermissionInput) (d : Db) : Z * Db :=
  match ps with
  | [] => (0, d)
  | p :: rest =>
      if isSome (permissionByName (cp_name p) d)
      then insertNew rest d
      else let '(n, d') := insertNew rest (insert p d) in (n + 1, d')
  end.

Definition createMany (ps : list CreatePermissionInput) : Promise Z :=
  fun d => let '(n, d') := insertNew ps d in (Fulfilled n, d').

End PermissionRepository.

(* ================================================================== *)
(** ** [services/Role.service.ts] *)

Module RoleService.

(** [new Map(pairs).get(key)]: a later pair overwrites an earlier one. *)
Definition mapGet (pairs : list (string * Z)) (key : string) : option Z :=
  option_map snd (find (fun kv => (fst kv =? key)%string) (rev pairs)).

(** [names.map(n => permissionMap.get(n)).filter(id => id !== undefined)] *)
Fixpoint definedIds (pairs : list (string * Z)) (names : list string)
  : list Z :=
  match names with
  | [] => []
  | n :: rest =>
      match mapGet pairs n with
      | Some i => i :: definedIds pairs rest
      | None => definedIds pairs rest
      end
  end.

Definition initializeDefaultRolesAndPermissions : Promise unit :=
  let permissionNames := PERMISSIONS.values in
  existingPermissions <- PermissionRepository.findAll ;;
  let existingPermissionNames := map Permission.name existingPermissions in
  let permissionsToCreate :=
    map (fun name => mkCreatePermissionInput name (Some ("Permission: " ++ name)))
        (filter (fun name =>
                   negb (existsb (String.eqb name) existingPermissionNames))
                permissionNames) in
  (if (0 <? length permissionsToCreate)%nat
   then PermissionRepository.createMany permissionsToCreate ;; resolve tt
   else resolve tt) ;;
  allPermissions <- PermissionRepository.findAll ;;
  let permissionMap :=
    map (fun p => (Permission.name p, Permission.id p)) allPermissions in
  adminRole <- RoleRepository.findByName ROLE_NAMES.ADMIN ;;
  match adminRole with
  | Some _ => resolve tt
  | None =>
      RoleRepository.create
        (mkCreateRoleInput ROLE_NAMES.ADMIN
           (Some "Administrator role with full access")
           (Some (definedIds permissionMap DEFAULT_ROLE_PERMISSIONS.ADMIN))) ;;
      resolve tt
  end ;;
  userRole <- RoleRepository.findByName ROLE_NAMES.USER ;;
  match userRole with
  | Some _ => resolve tt
  | None =>
      RoleRepository.create
        (mkCreateRoleInput ROLE_NAMES.USER
           (Some "Standard user role with basic permissions")
           (Some (definedIds permissionMap DEFAULT_ROLE_PERMISSIONS.USER))) ;;
      resolve tt
  end.

Definition getAllRoles : Promise (list Role.t) := RoleRepository.findAll.

Definition getRoleById (id : Z) : Promise Role.t :=
  role <- RoleRepository.findById id ;;
  match role with
  | None => throw (HttpError "Role not found" HTTP_STATUS.NOT_FOUND)
  | Some r => resolve r
  end.

Definition createRole (data : CreateRoleInput) : Promise Role.t :=
  existing <- RoleRepository.findByName (cr_name data) ;;
  match existing with
  | Some _ =>
      throw (HttpError "Role with this name already exists"
                       HTTP_STATUS.CONFLICT)
  | None => RoleRepository.create data
  end.

(** [if (data.name)]: an empty name is falsy and skips the check. *)
Definition updateRole (id : Z) (data : UpdateRoleInput) : Promise Role.t :=
  getRoleById id ;;
  match ur_name data with
  | Some n =>
      if (n =? "")%string then resolve tt
      else
        existing <- RoleRepository.findByName n ;;
        match existing with
        | Some e =>
            if negb (Role.id e =? id)
            then throw (HttpError "Role with this name already exists"
                                  HTTP_STATUS.CONFLICT)
            else resolve tt
        | None => resolve tt
        end
  | None => resolve tt
  end ;;
  RoleRepository.update id data.

Definition isSystemRole (r : Role.t) : bool :=
  (Role.name r =? ROLE_NAMES.ADMIN)%string
  || (Role.name r =? ROLE_NAMES.USER)%string.

Definition deleteRole (id : Z) : Promise Role.t :=
  getRoleById id ;;
  role <- RoleRepository.findById id ;;
  match role with
  | Some r =>
      if isSystemRole r
      then throw (HttpError "Cannot delete system roles"
                            HTTP_STATUS.BAD_REQUEST)
      else RoleRepository.delete id
  | None => RoleRepository.delete id
  end.

Definition userHasPermission (userId : Z) (permissionName : string)
  : Promise bool :=
  found <- query (fun d => option_map (includeRole d) (userById userId d)) ;;
  match found with
  | None => resolve false
  | Some u =>
      match itsRole u with
      | None => resolve false
      | Some r => RoleRepository.hasPermission (Role.id r) permissionName
      end
  end.

Definition getAllPermissions : Promise (list Permission.t) :=
  PermissionRepository.findAll.

Definition createPermission (data : CreatePermissionInput)
  : Promise Permission.t :=
  existing <- PermissionRepository.findByName (cp_name data) ;;
  match existing with
  | Some _ =>
      throw (HttpError "Permission with this name already exists"
                       HTTP_STATUS.CONFLICT)
  | None => PermissionRepository.create data
  end.

Definition updatePermission (id : Z) (data : UpdatePermissionInput)
  : Promise Permission.t :=
  PermissionRepository.findById id ;;
  match up_name data with
  | Some n =>
      if (n =? "")%string then resolve tt
      else
        existing <- PermissionRepository.findByName n ;;
        match existing with
        | Some e =>
            if negb (Permission.id e =? id)
            then throw (HttpError "Permission with this name already exists"
                                  HTTP_STATUS.CONFLICT)
            else resolve tt
        | None => resolve tt
        end
  | None => resolve tt
  end ;;
  PermissionRepository.update id data.

End RoleService.

(* ================================================================== *)
(** ** [middleware/permissions.middleware.ts] *)

(** [req.user], as the authentication middleware attaches it. *)
Record RequestUser : Type := mkRequestUser {
  ru_id : Z;
  ru_email : string;
  ru_role : option string;
  ru_roleId : option Z
}.

(** What a guard does with the request: call [next()] or answer with
    [res.status(s).json({ message, error })]. *)
Inductive Handled : Type :=
| Next
| Json (status : Z) (message : string) (error : string).

Definition authenticationRequired : Handled :=
  Json HTTP_STATUS.UNAUTHORIZED HTTP_MESSAGES.UNAUTHORIZED
       "Authentication required".

Definition checkFailed : Thrown -> Promise Handled :=
  fun _ => resolve (Json HTTP_STATUS.INTERNAL_SERVER_ERROR
                         HTTP_MESSAGES.INTERNAL_ERROR
                         "Error checking permissions").

(** [!user || !user.id]: the id [0] is falsy. *)
Definition identified (u : option RequestUser) : option RequestUser :=
  match u with
  | Some r => if ru_id r =? 0 then None else Some r
  | None => None
  end.

Definition requirePermission (permission : string) (reqUser : option RequestUser)
  : Promise Handled :=
  tryCatch
    (match identified reqUser with
     | None => resolve authenticationRequired
     | Some u =>
         hasPermission <- RoleService.userHasPermission (ru_id u) permission ;;
         if negb hasPermission
         then resolve (Json HTTP_STATUS.FORBIDDEN HTTP_MESSAGES.FORBIDDEN
                            ("Permission required: " ++ permission))
         else resolve Next
     end)
    checkFailed.

Definition permissionChecks (userId : Z) (permissions : list string)
  : Promise (list bool) :=
  promiseAll (RoleService.userHasPermission userId) permissions.

(** [permissionChecks.some((has) => has === true)] *)
Definition userHasAnyPermission (userId : Z) (permissions : list string)
  : Promise bool :=
  checks <- permissionChecks userId permissions ;;
  resolve (existsb (Bool.eqb true) checks).

(** [permissionChecks.every((has) => has === true)] *)
Definition userHasAllPermissions (userId : Z) (permissions : list string)
  : Promise bool :=
  checks <- permissionChecks userId permissions ;;
  resolve (forallb (Bool.eqb true) checks).

Definition requireAnyPermission (permissions : list string)
    (reqUser : option RequestUser) : Promise Handled :=
  tryCatch
    (match identified reqUser with
     | None => resolve authenticationRequired
     | Some u =>
         hasAnyPermission <- userHasAnyPermission (ru_id u) permissions ;;
         if negb hasAnyPermission
         then resolve (Json HTTP_STATUS.FORBIDDEN HTTP_MESSAGES.FORBIDDEN
                            ("One of these permissions required: "
                             ++ String.concat ", " permissions))
         else resolve Next
     end)
    checkFailed.

Definition requireAllPermissions (permissions : list string)
    (reqUser : option RequestUser) : Promise Handled :=
  tryCatch
    (match identified reqUser with
     | None => resolve authenticationRequired
     | Some u =>
         hasAllPermissions <- userHasAllPermissions (ru_id u) permissions ;;
         if negb hasAllPermissions
         then resolve (Json HTTP_STATUS.FORBIDDEN HTTP_MESSAGES.FORBIDDEN
                            ("All of these permissions required: "
                             ++ String.concat ", " permissions))
         else resolve Next
     end)
    checkFailed.

(* ================================================================== *)
(** ** [config/jwt.config.ts] *)

(** [Omit<JwtPayload, 'iat' | 'exp'>] *)
Module Claims.
Record t : Type := mk {
  userId : Z;
  email : string;
  role : option string
}.
End Claims.

Record JwtPayload : Type := mkJwtPayload {
  claims : Claims.t;
  iat : option Z;
  exp : option Z
}.

(** Modelled from the spec: the [jsonwebtoken] package is not part of the
    sources. Following section 4.2, a token is a signed, time-bound structure
    carrying the claims with issued-at and expiry: [jwt_encode] serialises a
    payload and signs it with [JWT_SECRET]; [jwt_decode] parses a string and
    checks its signature, giving [None] on a shape or signature failure.
    Neither reads the clock. *)
Class JsonWebToken : Type := {
  jwt_encode : JwtPayload -> string;
  jwt_decode : string -> option JwtPayload
}.

(** [process.env.JWT_ACCESS_EXPIRES_IN || '15m'] and
    [process.env.JWT_REFRESH_EXPIRES_IN || '7d'], in seconds. *)
Class JwtConfig : Type := {
  ACCESS_TOKEN_EXPIRES_IN : Z;
  REFRESH_TOKEN_EXPIRES_IN : Z
}.

Definition defaultJwtConfig : JwtConfig :=
  {| ACCESS_TOKEN_EXPIRES_IN := 15 * 60;
     REFRESH_TOKEN_EXPIRES_IN := 7 * 24 * 60 * 60 |}.


Definition instanceofTokenExpiredError (e : JwtError) : bool :=
  match e with TokenExpiredError => true | _ => false end.
Definition instanceofJsonWebTokenError (e : JwtError) : bool := true.

(** The clock of the package counts seconds: [Math.floor(Date.now() / 1000)]. *)
Definition seconds (now : Z) : Z := now / 1000.

Module Tokens.
Record t : Type := mk {
  accessToken : string;
  refreshToken : string
}.
End Tokens.

Section Jwt.
Context {jwt : JsonWebToken} {cfg : JwtConfig}.

(** Modelled from the spec: [jwt.sign(payload, JWT_SECRET, { expiresIn })]
    stamps issued-at and expiry per the configured lifetime and signs. *)
Definition jwt_sign (payload : Claims.t) (expiresIn : Z) (now : Z) : string :=
  jwt_encode {| claims := payload;
                iat := Some (seconds now);
                exp := Some (seconds now + expiresIn) |}.

(** Modelled from the spec: [jwt.verify(token, JWT_SECRET)] fails on a
    signature or shape failure, then on a token past its expiry. *)
Definition jwt_verify (token : string) (now : Z) : JwtError + JwtPayload :=
  match jwt_decode token with
  | None => inl JsonWebTokenError
  | Some p =>
      match exp p with
      | Some e => if e <=? seconds now then inl TokenExpiredError else inr p
      | None => inr p
      end
  end.

Definition generateAccessToken (payload : Claims.t) (now : Z) : string :=
  jwt_sign payload ACCESS_TOKEN_EXPIRES_IN now.

Definition generateRefreshToken (payload : Claims.t) (now : Z) : string :=
  jwt_sign payload REFRESH_TOKEN_EXPIRES_IN now.

Definition generateTokens (payload : Claims.t) (now : Z) : Tokens.t :=
  {| Tokens.accessToken := generateAccessToken payload now;
     Tokens.refreshToken := generateRefreshToken payload now |}.

(** [verifyToken]: the [catch] tests [TokenExpiredError] first, then its
    parent class. *)
Definition verifyToken (token : string) (now : Z) : Thrown + JwtPayload :=
  match jwt_verify token now with
  | inr payload => inr payload
  | inl e =>
      if instanceofTokenExpiredError e then inl (PlainError "Token expired")
      else if instanceofJsonWebTokenError e
      then inl (PlainError "Invalid token")
      else inl (JwtThrown e)
  end.

End Jwt.

(* ================================================================== *)
(** ** [utils/password.util.ts]: hashing *)

(** Modelled from the spec: the [argon2] package is not part of the sources.
    [argon2_hash] takes the random salt it draws as an argument;
    [argon2_verify] gives [None] where the package throws (malformed hash). *)
Class Argon2 : Type := {
  argon2_hash : jsstring -> string -> string;
  argon2_verify : string -> jsstring -> option bool
}.

Section PasswordHashing.
Context {argon2 : Argon2}.

Definition hashPassword (password : jsstring) (salt : string) : string :=
  argon2_hash password salt.

Definition comparePassword (password : jsstring) (hash : string) : bool :=
  match argon2_verify hash password with
  | Some b => b
  | None => false
  end.

End PasswordHashing.

(* ================================================================== *)
(** ** [repositories/Auth.repository.ts] *)

Record CreateUserData : Type := mkCreateUserData {
  cu_email : string;
  cu_password : string;
  cu_name : option string;
  cu_roleId : option Z
}.

Module AuthRepository.

Definition findByEmail (email : string) : Promise (option User.t) :=
  query (userByEmail email).

Definition findByEmailWithPassword (email : string)
  : Promise (option UserWithRole) :=
  query (fun d => option_map (includeRole d) (userByEmail email d)).

(** [data.roleId || 2]: a missing id, or the falsy [0], gives [2]. *)
Definition defaultRoleId (roleId : option Z) : Z :=
  match roleId with
  | Some r => if r =? 0 then 2 else r
  | None => 2
  end.

Definition create (data : CreateUserData) : Promise UserWithRole :=
  fun d =>
    let r := defaultRoleId (cu_roleId data) in
    if isSome (userByEmail (cu_email data) d)
    then (Rejected (PrismaError PRISMA_ERROR_CODES.UNIQUE_CONSTRAINT), d)
    else if negb (isSome (roleById r d))
    then (Rejected (PrismaError PRISMA_ERROR_CODES.FOREIGN_KEY_CONSTRAINT), d)
    else
      let u := User.mk (nextUserId d) (cu_email data) (cu_password data)
                       (cu_name data) (Some r) true None None None in
      (Fulfilled (includeRole d u),
       mkDb (user d ++ [u]) (role d) (permission d) (rolePermission d)
            (nextUserId d + 1) (nextRoleId d) (nextPermissionId d)).

Definition updateRefreshToken (userId : Z) (refreshToken : option string)
  : Promise User.t :=
  updateUser userId (fun u =>
    User.mk (User.id u) (User.email u) (User.password u) (User.name u)
            (User.roleId u) (User.isActive u) refreshToken
            (User.passwordResetToken u) (User.passwordResetExpires u)).

Definition updatePasswordResetToken
    (userId : Z) (token : option string) (expiresAt : option Z)
  : Promise User.t :=
  updateUser userId (fun u =>
    User.mk (User.id u) (User.email u) (User.password u) (User.name u)
            (User.roleId u) (User.isActive u) (User.refreshToken u)
            token expiresAt).

(** [passwordResetExpires: { gt: new Date() }] *)
Definition findByPasswordResetToken (token : string) (now : Z)
  : Promise (option User.t) :=
  query (fun d =>
    find (fun u =>
            match User.passwordResetToken u, User.passwordResetExpires u with
            | Some t, Some e => (t =? token)%string && (now <? e)
            | _, _ => false
            end)
         (user d)).

Definition updatePassword (userId : Z) (hashedPassword : string)
  : Promise User.t :=
  updateUser userId (fun u =>
    User.mk (User.id u) (User.email u) hashedPassword (User.name u)
            (User.roleId u) (User.isActive u) (User.refreshToken u)
            None None).

Definition emailExists (email : string) : Promise bool :=
  query (fun d => isSome (userByEmail email d)).

Definition findById (id : Z) : Promise (option UserWithRole) :=
  query (fun d => option_map (includeRole d) (userById id d)).

End AuthRepository.

(* ================================================================== *)
(** ** [services/Auth.service.ts] *)

Record RegisterInput : Type := mkRegisterInput {
  reg_email : string;
  reg_password : jsstring;
  reg_name : option string
}.

Record LoginInput : Type := mkLoginInput {
  login_email : string;
  login_password : jsstring
}.

Record ResetPasswordInput : Type := mkResetPasswordInput {
  reset_token : string;
  reset_password : jsstring
}.

Record ChangePasswordInput : Type := mkChangePasswordInput {
  currentPassword : jsstring;
  newPassword : jsstring
}.

Record UserView : Type := mkUserView {
  view_id : Z;
  view_email : string;
  view_name : option string;
  view_role : string
}.

Record AuthResponse : Type := mkAuthResponse {
  auth_user : UserView;
  auth_accessToken : string;
  auth_refreshToken : string
}.

Record Message : Type := mkMessage { message : string }.

(** [!s.trim()]: the string holds white space only. An e-mail address is kept
    as a string of code units below 256, where the white space of [trim] is
    TAB, LF, VT, FF, CR, SPACE and NBSP. *)
Definition isWhiteSpace (c : ascii) : bool :=
  let n := N_of_ascii c in
  (inRange 9 13 n || (n =? 32) || (n =? 160))%N.
Definition isBlank (s : string) : bool :=
  forallb isWhiteSpace (list_ascii_of_string s).

(** [user.role?.name || 'user'] *)
Definition roleNameOf (u : UserWithRole) : string :=
  orElse (option_map Role.name (itsRole u)) "user".

Definition forgotPasswordMessage : string :=
  "Si existe una cuenta con ese email, se ha enviado un enlace para restablecer la contraseña.".

Definition oneHour : Z := 60 * 60 * 1000.

(* ================================================================== *)
(** ** [Date]: the local wall clock *)

(** A [Date] is its time value, the milliseconds since the epoch, and
    [new Date()] is the current instant. [getHours] and [setHours] read and
    set the hour of the local wall clock of the host (ECMA-262,
    Date.prototype.getHours and Date.prototype.setHours). The zone of the host
    is its offset from UTC in milliseconds, [LocalTZA t isUTC]: at the UTC
    instant [t] when [isUTC] is true, at the local time value [t] otherwise.
    [TimeClip] is left out: it only bounds the time value by 8.64e15. *)
Class HostTimeZone := { LocalTZA : Z -> bool -> Z }.

Module JsDate.

Definition msPerSecond : Z := 1000.
Definition msPerMinute : Z := 60000.
Definition msPerHour : Z := 3600000.
Definition msPerDay : Z := 86400000.

Definition Day (t : Z) : Z := t / msPerDay.
Definition HourFromTime (t : Z) : Z := (t / msPerHour) mod 24.
Definition MinFromTime (t : Z) : Z := (t / msPerMinute) mod 60.
Definition SecFromTime (t : Z) : Z := (t / msPerSecond) mod 60.
Definition msFromTime (t : Z) : Z := t mod msPerSecond.

Definition MakeTime (hour min sec ms : Z) : Z :=
  hour * msPerHour + min * msPerMinute + sec * msPerSecond + ms.
Definition MakeDate (day time : Z) : Z := day * msPerDay + time.

Section Local.
Context {tz : HostTimeZone}.

Definition LocalTime (t : Z) : Z := t + LocalTZA t true.
Definition UTC (t : Z) : Z := t - LocalTZA t false.

Definition getHours (t : Z) : Z := HourFromTime (LocalTime t).

(** [setHours(hour)] with its one argument: the minutes, seconds and
    milliseconds are those of the local time; the result is the new time
    value. *)
Definition setHours (t : Z) (hour : Z) : Z :=
  let local := LocalTime t in
  UTC (MakeDate (Day local)
                (MakeTime hour (MinFromTime local) (SecFromTime local)
                          (msFromTime local))).

End Local.
End JsDate.

Module AuthService.
Section WithLibraries.
Context {jwt : JsonWebToken} {cfg : JwtConfig} {argon2 : Argon2}
        {tz : HostTimeZone}.

Definition badRequest {A} (msg : string) : Promise A :=
  throw (HttpError msg HTTP_STATUS.BAD_REQUEST).

(** [salt] is the salt Argon2 draws, [now] the reading of the clock. *)
Definition register (input : RegisterInput) (salt : string) (now : Z)
  : Promise AuthResponse :=
  if (reg_email input =? "")%string || isBlank (reg_email input)
  then badRequest "El email es requerido"
  else
    let passwordValidation := validatePasswordStrength8 (reg_password input) in
    if negb (isValid passwordValidation)
    then badRequest (orElse (error passwordValidation) "Contraseña inválida")
    else
      emailExists <- AuthRepository.emailExists (reg_email input) ;;
      if emailExists : bool
      then throw (HttpError "Ya existe un usuario con este email"
                            HTTP_STATUS.CONFLICT)
      else
        let hashedPassword := hashPassword (reg_password input) salt in
        created <- AuthRepository.create
                     (mkCreateUserData (reg_email input) hashedPassword
                                       (reg_name input) None) ;;
        let user := row created in
        userWithRole <- query (fun d =>
                          option_map (includeRole d)
                                     (userById (User.id user) d)) ;;
        let roleName :=
          orElse (match userWithRole with
                  | Some u => option_map Role.name (itsRole u)
                  | None => None
                  end) "user" in
        let tokens :=
          generateTokens
            (Claims.mk (User.id user) (User.email user) (Some roleName))
            now in
        AuthRepository.updateRefreshToken
          (User.id user) (Some (Tokens.refreshToken tokens)) ;;
        resolve
          {| auth_user := mkUserView (User.id user) (User.email user)
                                     (User.name user) roleName;
             auth_accessToken := Tokens.accessToken tokens;
             auth_refreshToken := Tokens.refreshToken tokens |}.

Definition login (input : LoginInput) (now : Z) : Promise AuthResponse :=
  if (login_email input =? "")%string
     || (length (login_password input) =? 0)%nat
  then badRequest "El email y la contraseña son requeridos"
  else
    found <- AuthRepository.findByEmailWithPassword (login_email input) ;;
    match found with
    | None =>
        throw (HttpError "Email o contraseña inválidos"
                         HTTP_STATUS.UNAUTHORIZED)
    | Some u =>
        let user := row u in
        if negb (User.isActive user)
        then throw (HttpError "La cuenta está desactivada"
                              HTTP_STATUS.FORBIDDEN)
        else if negb (comparePassword (login_password input)
                                      (User.password user))
        then throw (HttpError "Email o contraseña inválidos"
                              HTTP_STATUS.UNAUTHORIZED)
        else
          let roleName := roleNameOf u in
          let tokens :=
            generateTokens
              (Claims.mk (User.id user) (User.email user) (Some roleName))
              now in
          AuthRepository.updateRefreshToken
            (User.id user) (Some (Tokens.refreshToken tokens)) ;;
          resolve
            {| auth_user := mkUserView (User.id user) (User.email user)
                                       (User.name user) roleName;
               auth_accessToken := Tokens.accessToken tokens;
               auth_refreshToken := Tokens.refreshToken tokens |}
    end.

Definition refreshToken (presented : string) (now : Z) : Promise Tokens.t :=
  if (presented =? "")%string
  then badRequest "El token de refresco es requerido"
  else
    match verifyToken presented now with
    | inl _ =>
        throw (HttpError "Token de refresco inválido o expirado"
                         HTTP_STATUS.UNAUTHORIZED)
    | inr payload =>
        found <- AuthRepository.findById (Claims.userId (claims payload)) ;;
        match found with
        | None =>
            throw (HttpError "Usuario no encontrado" HTTP_STATUS.NOT_FOUND)
        | Some u =>
            let user := row u in
            if negb (User.isActive user)
            then throw (HttpError "La cuenta está desactivada"
                                  HTTP_STATUS.FORBIDDEN)
            else
              match User.refreshToken user with
              | Some stored =>
                  if (stored =? presented)%string
                  then
                    let roleName := roleNameOf u in
                    let tokens :=
                      generateTokens
                        (Claims.mk (User.id user) (User.email user)
                                   (Some roleName))
                        now in
                    AuthRepository.updateRefreshToken
                      (User.id user) (Some (Tokens.refreshToken tokens)) ;;
                    resolve tokens
                  else throw (HttpError "Token de refresco inválido"
                                        HTTP_STATUS.UNAUTHORIZED)
              | None =>
                  throw (HttpError "Token de refresco inválido"
                                   HTTP_STATUS.UNAUTHORIZED)
              end
        end
    end.

(** [const resetExpires = new Date();
     resetExpires.setHours(resetExpires.getHours() + 1)] *)
Definition resetExpires (now : Z) : Z :=
  JsDate.setHours now (JsDate.getHours now + 1).

(** [resetToken] is the value [generateResetToken()] draws. The
    [console.log] of the token is not modelled. *)
Definition forgotPassword (email : string) (resetToken : string) (now : Z)
  : Promise Message :=
  if (email =? "")%string
  then badRequest "El email es requerido"
  else
    found <- AuthRepository.findByEmail email ;;
    match found with
    | None => resolve {| message := forgotPasswordMessage |}
    | Some user =>
        AuthRepository.updatePasswordResetToken
          (User.id user) (Some resetToken) (Some (resetExpires now)) ;;
        resolve {| message := forgotPasswordMessage |}
    end.

Definition resetPassword (input : ResetPasswordInput) (salt : string)
    (now : Z) : Promise Message :=
  if (reset_token input =? "")%string
     || (length (reset_password input) =? 0)%nat
  then badRequest "El token y la contraseña son requeridos"
  else
    let passwordValidation :=
      validatePasswordStrength8 (reset_password input) in
    if negb (isValid passwordValidation)
    then badRequest (orElse (error passwordValidation) "Contraseña inválida")
    else
      found <- AuthRepository.findByPasswordResetToken
                 (reset_token input) now ;;
      match found with
      | None => badRequest "Token de restablecimiento inválido o expirado"
      | Some user =>
          let hashedPassword := hashPassword (reset_password input) salt in
          AuthRepository.updatePassword (User.id user) hashedPassword ;;
          AuthRepository.updateRefreshToken (User.id user) None ;;
          resolve
            {| message := "La contraseña ha sido restablecida exitosamente" |}
      end.

Definition changePassword (userId : Z) (input : ChangePasswordInput)
    (salt : string) : Promise Message :=
  if (length (currentPassword input) =? 0)%nat
     || (length (newPassword input) =? 0)%nat
  then badRequest "La contraseña actual y la nueva contraseña son requeridas"
  else
    let passwordValidation :=
      validatePasswordStrength8 (newPassword input) in
    if negb (isValid passwordValidation)
    then badRequest (orElse (error passwordValidation) "Contraseña inválida")
    else
      byId <- AuthRepository.findById userId ;;
      found <- AuthRepository.findByEmailWithPassword
                 (orElse (option_map (fun u => User.email (row u)) byId) "") ;;
      match found with
      | None =>
          throw (HttpError "Usuario no encontrado" HTTP_STATUS.NOT_FOUND)
      | Some u =>
          let user := row u in
          if negb (comparePassword (currentPassword input)
                                   (User.password user))
          then throw (HttpError "La contraseña actual es incorrecta"
                                HTTP_STATUS.UNAUTHORIZED)
          else
            let hashedPassword := hashPassword (newPassword input) salt in
            AuthRepository.updatePassword (User.id user) hashedPassword ;;
            AuthRepository.updateRefreshToken (User.id user) None ;;
            resolve
              {| message := "La contraseña ha sido cambiada exitosamente" |}
      end.

Definition logout (userId : Z) : Promise Message :=
  AuthRepository.updateRefreshToken userId None ;;
  resolve {| message := "Sesión cerrada exitosamente" |}.

End WithLibraries.
End AuthService.

(* ================================================================== *)
(** ** A reference instance of the token interface *)

(** A deterministic codec standing for HS256 signing under a fixed secret:
    as with the package, the token is a function of the claims, the issued-at
    second and the expiry second, and nothing else. The token spells out
    [userId.iat.exp.len(role).] followed by the role and the e-mail; a missing
    field is written [-]. *)
Module PlainCodec.

Definition showZ (z : Z) : string := NilEmpty.string_of_int (Z.to_int z).
Definition readZ (s : string) : option Z :=
  option_map Z.of_int (NilEmpty.int_of_string s).

Definition showOpt (o : option Z) : string :=
  match o with Some z => showZ z | None => "-" end.
Definition readOpt (s : string) : option (option Z) :=
  if (s =? "-")%string then Some None else option_map Some (readZ s).

(** The text before the first dot, and the text after it. *)
Fixpoint field (s : string) : option (string * string) :=
  match s with
  | EmptyString => None
  | String c rest =>
      if (c =? ".")%char then Some (EmptyString, rest)
      else match field rest with
           | Some (f, tl) => Some (String c f, tl)
           | None => None
           end
  end.

Definition encode (p : JwtPayload) : string :=
  showZ (Claims.userId (claims p)) ++ "." ++ showOpt (iat p) ++ "."
  ++ showOpt (exp p) ++ "."
  ++ showOpt (option_map (fun r => Z.of_nat (String.length r))
                         (Claims.role (claims p))) ++ "."
  ++ match Claims.role (claims p) with Some r => r | None => "" end
  ++ Claims.email (claims p).

Definition decode (s : string) : option JwtPayload :=
  match field s with
  | Some (f1, s1) =>
    match field s1 with
    | Some (f2, s2) =>
      match field s2 with
      | Some (f3, s3) =>
        match field s3 with
        | Some (f4, s4) =>
          match readZ f1, readOpt f2, readOpt f3, readOpt f4 with
          | Some uid, Some i, Some e, Some None =>
              Some (mkJwtPayload (Claims.mk uid s4 None) i e)
          | Some uid, Some i, Some e, Some (Some n) =>
              if (Z.to_nat n <=? String.length s4)%nat
              then Some (mkJwtPayload
                           (Claims.mk uid
                              (substring (Z.to_nat n)
                                 (String.length s4 - Z.to_nat n) s4)
                              (Some (substring 0 (Z.to_nat n) s4)))
                           i e)
              else None
          | _, _, _, _ => None
          end
        | None => None
        end
      | None => None
      end
    | None => None
    end
  | None => None
  end.

Definition jwt : JsonWebToken :=
  {| jwt_encode := encode; jwt_decode := decode |}.

End PlainCodec.

(* ================================================================== *)
(** ** Databases of the scenarios *)

Definition run {A} (m : Promise A) (d : Db) : Db := snd (m d).

(** A fresh database after [npm run init:roles]. *)
Definition seededDb : Db :=
  run RoleService.initializeDefaultRolesAndPermissions emptyDb.

(** A role created after the seed, given to one user, then deleted through
    the service. *)
Definition editorScenario : Promise Role.t :=
  created <- RoleService.createRole
               (mkCreateRoleInput "editor" None (Some [1])) ;;
  AuthRepository.create
    (mkCreateUserData "ed@example.com" "argon2-hash" None
                      (Some (Role.id created))) ;;
  RoleService.deleteRole (Role.id created).

Definition softDeletedDb : Db := run editorScenario seededDb.

(** The seeded database with a user holding the role "admin", created as the
    seed script creates the administrator. *)
Definition adminRoleId : Z :=
  match roleByName ROLE_NAMES.ADMIN seededDb with
  | Some r => Role.id r
  | None => 0
  end.

Definition adminDbFor (email hash : string) (name : option string) : Db :=
  run (AuthRepository.create
         (mkCreateUserData email hash name (Some adminRoleId)))
      seededDb.

Definition adminScenarioDb : Db :=
  adminDbFor "admin@example.com" "argon2-hash" (Some "Administrator").

(** Roles created through the service before the defaults are initialised:
    "admin" gets id 1, "editor" id 2, and the seed then adds "user" as id 3. *)
Definition rolesOutOfOrder : Promise unit :=
  RoleService.createRole (mkCreateRoleInput "admin" None None) ;;
  RoleService.createRole (mkCreateRoleInput "editor" None None) ;;
  RoleService.initializeDefaultRolesAndPermissions.

Definition misnumberedDb : Db := run rolesOutOfOrder emptyDb.

(** A reference instance of the hashing interface: the hash spells out the
    salt and the password. *)
Module PlainHash.

Definition text (p : jsstring) : string :=
  string_of_list_ascii (map ascii_of_N p).

Definition hash (p : jsstring) (salt : string) : string :=
  salt ++ "$" ++ text p.

Definition verify (h : string) (p : jsstring) : option bool :=
  match index 0 "$" h with
  | Some i =>
      Some (substring (S i) (String.length h - S i) h =? text p)%string
  | None => None
  end.

Definition argon2 : Argon2 :=
  {| argon2_hash := hash; argon2_verify := verify |}.

End PlainHash.

(** A session opened by registering on the seeded database. *)
Definition openedAt : Z := 1700000000000.

Definition registration : Settled AuthResponse * Db :=
  AuthService.register (jwt := PlainCodec.jwt) (cfg := defaultJwtConfig)
    (argon2 := PlainHash.argon2)
    (mkRegisterInput "a@x.com" (units "Str0ng!Pw") None) "salt" openedAt
    seededDb.

Definition sessionDb : Db := snd registration.

Definition sessionToken : string :=
  match fst registration with
  | Fulfilled r => auth_refreshToken r
  | Rejected _ => ""
  end.

(** The administrator's database after the permission "users.manage" (id 5)
    is soft-deleted. *)
Definition revokedDb : Db := run (PermissionRepository.delete 5) adminScenarioDb.

(** The row [RoleRepository.delete] leaves for a role. *)
Definition deactivated (r : Role.t) : Role.t :=
  Role.mk (Role.id r) (Role.name r) (Role.description r) false.

(** The row [RoleRepository.update] leaves for a role given a new name and
    nothing else. *)
Definition renamed (n : string) (r : Role.t) : Role.t :=
  Role.mk (Role.id r) n (Role.description r) (Role.isActive r).

(** The row [updateRefreshToken] writes. *)
Definition withRefreshToken (t : option string) (u : User.t) : User.t :=
  User.mk (User.id u) (User.email u) (User.password u) (User.name u)
          (User.roleId u) (User.isActive u) t
          (User.passwordResetToken u) (User.passwordResetExpires u).

(** The names a role grants: those of the active permissions its join rows
    point to, in the order of the join rows. *)
Definition grantedNames (roleId : Z) (d : Db) : list string :=
  flat_map
    (fun rp =>
       if RolePermission.roleId rp =? roleId
       then match permissionById (RolePermission.permissionId rp) d with
            | Some q => if Permission.isActive q then [Permission.name q]
                        else []
            | None => []
            end
       else [])
    (rolePermission d).

(* ================================================================== *)
(** ** [middleware/permissions.middleware.ts]: [requireRole] *)

Definition roleCheckFailed : Thrown -> Promise Handled :=
  fun _ => resolve (Json HTTP_STATUS.INTERNAL_SERVER_ERROR
                         HTTP_MESSAGES.INTERNAL_ERROR
                         "Error checking role").

(** [!user || !user.role]: a missing or empty role is falsy. The role is the
    one attached to the request; the database is not read. *)
Definition requireRole (roleName : string) (reqUser : option RequestUser)
  : Promise Handled :=
  tryCatch
    (match reqUser with
     | None => resolve authenticationRequired
     | Some u =>
         match ru_role u with
         | None => resolve authenticationRequired
         | Some r =>
             if (r =? "")%string then resolve authenticationRequired
             else if negb (r =? roleName)%string
             then resolve (Json HTTP_STATUS.FORBIDDEN HTTP_MESSAGES.FORBIDDEN
                                ("Role required: " ++ roleName))
             else resolve Next
         end
     end)
    roleCheckFailed.

(* ================================================================== *)
(** ** [middleware/auth.middleware.ts] *)

(** The [message] of an error object raised by the Prisma client or by the
    token package; these texts are not part of the sources and are taken as
    parameters. *)
Class LibraryTexts : Type := {
  prismaMessage : string -> string;
  jwtMessage : JwtError -> string
}.

(** [res.status(s).json({ success, message, error })] *)
Record ApiReply : Type := mkReply {
  reply_status : Z;
  reply_success : bool;
  reply_message : string;
  reply_error : string
}.

(** What [authenticate] does with a request: attach the user and call
    [next()], or answer. *)
Inductive Gate : Type :=
| Pass (u : RequestUser)
| Answer (r : ApiReply).

Definition unauthorized (err : string) : ApiReply :=
  mkReply HTTP_STATUS.UNAUTHORIZED false HTTP_MESSAGES.UNAUTHORIZED err.

(** [authHeader.startsWith('Bearer ')] and [authHeader.substring(7)]; the
    header is [None] when the request carries none. *)
Definition bearerToken (authorization : option string) : option string :=
  match authorization with
  | None => None
  | Some h =>
      if (h =? "")%string || negb (prefix "Bearer " h) then None
      else Some (substring 7 (String.length h - 7) h)
  end.

(** [user.role?.name || payload.role] *)
Definition roleOr (r : option Role.t) (fallback : option string)
  : option string :=
  match r with
  | Some x => if (Role.name x =? "")%string then fallback
              else Some (Role.name x)
  | None => fallback
  end.

Definition attached (u : UserWithRole) (payload : JwtPayload) : RequestUser :=
  {| ru_id := User.id (row u);
     ru_email := User.email (row u);
     ru_role := roleOr (itsRole u) (Claims.role (claims payload));
     ru_roleId := User.roleId (row u) |}.

Section AuthMiddleware.
Context {jwt : JsonWebToken} {texts : LibraryTexts}.

(** [error.message] *)
Definition thrownMessage (e : Thrown) : string :=
  match e with
  | HttpError m _ => m
  | PlainError m => m
  | PrismaError c => prismaMessage c
  | JwtThrown j => jwtMessage j
  end.

Definition authenticate (authorization : option string) (now : Z)
  : Promise Gate :=
  tryCatch
    (match bearerToken authorization with
     | None =>
         resolve (Answer (unauthorized
                            "Header de autorización faltante o inválido"))
     | Some token =>
         match verifyToken token now with
         | inl e => throw e
         | inr payload =>
             found <- query (fun d =>
                        option_map (includeRole d)
                          (userById (Claims.userId (claims payload)) d)) ;;
             match found with
             | None =>
                 resolve (Answer (unauthorized
                                    "Usuario no encontrado o inactivo"))
             | Some u =>
                 if negb (User.isActive (row u))
                 then resolve (Answer (unauthorized
                                         "Usuario no encontrado o inactivo"))
                 else resolve (Pass (attached u payload))
             end
         end
     end)
    (fun e => resolve (Answer (unauthorized (thrownMessage e)))).

(** [optionalAuthenticate] always calls [next()]; the result is the user it
    attached, if any. *)
Definition optionalAuthenticate (authorization : option string) (now : Z)
  : Promise (option RequestUser) :=
  tryCatch
    (match bearerToken authorization with
     | None => resolve None
     | Some token =>
         tryCatch
           (match verifyToken token now with
            | inl e => throw e
            | inr payload =>
                found <- query (fun d =>
                           option_map (includeRole d)
                             (userById (Claims.userId (claims payload)) d)) ;;
                match found with
                | None => resolve None
                | Some u =>
                    if User.isActive (row u)
                    then resolve (Some (attached u payload))
                    else resolve None
                end
            end)
           (fun _ => resolve None)
     end)
    (fun _ => resolve None).

End AuthMiddleware.

(* ================================================================== *)
(** ** [controllers/Auth.controller.ts] *)

(** [res.status(s).json(response)] with [response : ApiResponse<T>]. *)
Record HttpResponse (A : Type) : Type := mkHttpResponse {
  http_status : Z;
  http_success : bool;
  http_message : string;
  http_data : option A;
  http_error : option string
}.
Arguments mkHttpResponse {A}.
Arguments http_status {A}.
Arguments http_success {A}.
Arguments http_message {A}.
Arguments http_data {A}.
Arguments http_error {A}.

Definition failure {A} (code : Z) (msg err : string) : HttpResponse A :=
  mkHttpResponse code false msg None (Some err).

Definition badRequestMessage : string := "Solicitud incorrecta".

Module AuthController.
Section WithLibraries.
Context {jwt : JsonWebToken} {cfg : JwtConfig} {argon2 : Argon2}
        {texts : LibraryTexts}.

(** [error.statusCode || 500] *)
Definition statusOf (e : Thrown) : Z :=
  match e with
  | HttpError _ c => if c =? 0 then HTTP_STATUS.INTERNAL_SERVER_ERROR else c
  | _ => HTTP_STATUS.INTERNAL_SERVER_ERROR
  end.

(** Every thrown value of the model is an [Error] object. *)
Definition handleError {A} (e : Thrown) : Promise (HttpResponse A) :=
  resolve (failure (statusOf e) HTTP_MESSAGES.INTERNAL_ERROR (thrownMessage e)).

(** [req.body as RegisterInput] is a cast without a check: the model takes
    the bodies whose fields are strings, an absent field being the empty
    string. *)
Definition register (email : string) (password : jsstring) (name : string)
    (salt : string) (now : Z) : Promise (HttpResponse AuthResponse) :=
  tryCatch
    (if (email =? "")%string || (length password =? 0)%nat
     then resolve (failure HTTP_STATUS.BAD_REQUEST badRequestMessage
                           "El email y la contraseña son requeridos")
     else
       result <- AuthService.register
                   (mkRegisterInput email password
                      (if (name =? "")%string then None else Some name))
                   salt now ;;
       resolve (mkHttpResponse HTTP_STATUS.CREATED true
                  "Usuario registrado exitosamente" (Some result) None))
    handleError.

End WithLibraries.
End AuthController.

(** Reference texts for the library errors. *)
Definition plainTexts : LibraryTexts :=
  {| prismaMessage := fun c => "Prisma error " ++ c;
     jwtMessage := fun _ => "jwt error" |}.

(** Unique keys of the user table. *)
Definition userIdsUnique (d : Db) : Prop := NoDup (map User.id (user d)).

(** The session database with its user deactivated. *)
Definition deactivatedDb : Db :=
  run (updateUser 1 (fun u =>
         User.mk (User.id u) (User.email u) (User.password u) (User.name u)
                 (User.roleId u) false (User.refreshToken u)
                 (User.passwordResetToken u) (User.passwordResetExpires u)))
      sessionDb.

(** The row [logout] writes. *)
Definition loggedOut (uid : Z) (d : Db) : Db :=
  mkDb (map (fun x => if User.id x =? uid then withRefreshToken None x else x)
            (user d))
       (role d) (permission d) (rolePermission d)
       (nextUserId d) (nextRoleId d) (nextPermissionId d).

(** The database [db.user.update] leaves. *)
Definition usersUpdated (i : Z) (f : User.t -> User.t) (d : Db) : Db :=
  mkDb (map (fun x => if User.id x =? i then f x else x) (user d))
       (role d) (permission d) (rolePermission d)
       (nextUserId d) (nextRoleId d) (nextPermissionId d).

(** The rows [updatePasswordResetToken] and [updatePassword] write. *)
Definition withResetRequest (t : option string) (e : option Z) (u : User.t)
  : User.t :=
  User.mk (User.id u) (User.email u) (User.password u) (User.name u)
          (User.roleId u) (User.isActive u) (User.refreshToken u) t e.

Definition withPassword (h : string) (u : User.t) : User.t :=
  User.mk (User.id u) (User.email u) h (User.name u)
          (User.roleId u) (User.isActive u) (User.refreshToken u) None None.

(** The [where] clause of [findByPasswordResetToken]. *)
Definition holdsResetToken (t : string) (now : Z) (u : User.t) : bool :=
  match User.passwordResetToken u, User.passwordResetExpires u with
  | Some t', Some e => (t' =? t)%string && (now <? e)
  | _, _ => false
  end.

(** Reference zones. A host on a fixed offset from UTC; and a host in New
    York around the end of daylight saving time on 3 November 2024, at 06:00
    UTC, where the offset goes from four to five hours behind UTC. A local time
    that occurs twice is read with the offset before the change (ECMA-262,
    LocalTZA). *)
Definition fixedZone (offset : Z) : HostTimeZone :=
  {| LocalTZA := fun _ _ => offset |}.

Definition fallBack : Z := 1730613600000.

Definition newYorkZone : HostTimeZone :=
  {| LocalTZA := fun t isUTC =>
       if isUTC
       then if t <? fallBack then -4 * oneHour else -5 * oneHour
       else if t <? fallBack - 4 * oneHour
            then -4 * oneHour else -5 * oneHour |}.

(** The session database after a reset request for its user, on a host that
    keeps UTC. *)
Definition resetRequestedDb : Db :=
  run (AuthService.forgotPassword (tz := fixedZone 0)
         "a@x.com" "c0ffee" openedAt) sessionDb.

(** Whether the expiry of a payload lies after the current second. *)
Definition unexpired (payload : JwtPayload) (now : Z) : Prop :=
  forall e, exp payload = Some e -> seconds now < e.

(** The session database after its user has been given the role "admin", as
    the seed script does for an existing administrator. *)
Definition promotedDb : Db :=
  run (updateUser 1 (fun u =>
         User.mk (User.id u) (User.email u) (User.password u) (User.name u)
                 (Some 1) (User.isActive u) (User.refreshToken u)
                 (User.passwordResetToken u) (User.passwordResetExpires u)))
      sessionDb.

(** The databases [db.role.update] and [db.permission.update] leave. *)
Definition rolesUpdated (i : Z) (f : Role.t -> Role.t) (d : Db) : Db :=
  mkDb (user d)
       (map (fun x => if Role.id x =? i then f x else x) (role d))
       (permission d) (rolePermission d)
       (nextUserId d) (nextRoleId d) (nextPermissionId d).

Definition permissionsUpdated (i : Z) (f : Permission.t -> Permission.t)
    (d : Db) : Db :=
  mkDb (user d) (role d)
       (map (fun x => if Permission.id x =? i then f x else x) (permission d))
       (rolePermission d)
       (nextUserId d) (nextRoleId d) (nextPermissionId d).

Definition revoked (p : Permission.t) : Permission.t :=
  Permission.mk (Permission.id p) (Permission.name p)
                (Permission.description p) false.

(** The database [deleteMany({ where: { roleId } })] leaves. *)
Definition joinRowsDeleted (r : Z) (d : Db) : Db :=
  mkDb (user d) (role d) (permission d)
       (filter (fun rp => negb (RolePermission.roleId rp =? r))
               (rolePermission d))
       (nextUserId d) (nextRoleId d) (nextPermissionId d).

Definition joinRowsOf (r : Z) (d : Db) : list RolePermission.t :=
  filter (fun rp => RolePermission.roleId rp =? r) (rolePermission d).

(** The steps of [initializeDefaultRolesAndPermissions], named. *)
Definition permissionsToCreate (d : Db) : list CreatePermissionInput :=
  let existingPermissionNames :=
    map Permission.name
        (orderBy Permission.name (filter Permission.isActive (permission d))) in
  map (fun name => mkCreatePermissionInput name (Some ("Permission: " ++ name)))
      (filter (fun name =>
                 negb (existsb (String.eqb name) existingPermissionNames))
              PERMISSIONS.values).

Definition permissionMapOf (d : Db) : list (string * Z) :=
  map (fun p => (Permission.name p, Permission.id p))
      (orderBy Permission.name (filter Permission.isActive (permission d))).

Definition ensureRole (name description : string) (names : list string)
    (permissionMap : list (string * Z)) : Promise unit :=
  found <- RoleRepository.findByName name ;;
  match found with
  | Some _ => resolve tt
  | None =>
      RoleRepository.create
        (mkCreateRoleInput name (Some description)
           (Some (RoleService.definedIds permissionMap names))) ;;
      resolve tt
  end.

(** A database extends another when it has the same users and its roles,
    permissions and join rows are those of the other followed by new ones. *)
Definition extends (d' d : Db) : Prop :=
  user d' = user d
  /\ (exists rs, role d' = (role d ++ rs)%list)
  /\ (exists ps, permission d' = (permission d ++ ps)%list)
  /\ (exists rps, rolePermission d' = (rolePermission d ++ rps)%list).

(* ================================================================== *)
(** * Properties *)

(** ** Lookups *)

Lemma find_hit {A} (f : A -> bool) (l : list A) (x : A) :
  In x l -> f x = true -> exists y, find f l = Some y.
Proof.
  intros Hin Hf. destruct (find f l) as [y|] eqn:E.
  - now exists y.
  - rewrite (find_none f l E x Hin) in Hf. discriminate.
Qed.

Lemma find_miss {A} (f : A -> bool) (l : list A) :
  (forall x, In x l -> f x = false) -> find f l = None.
Proof.
  induction l as [|a l IH]; intros H; simpl; [reflexivity|].
  rewrite (H a (or_introl eq_refl)). apply IH.
  intros x Hx. apply H. now right.
Qed.

Lemma find_map_key {A} (key : A -> Z) (g : A -> A) (i : Z) (l : list A) :
  (forall x, key (g x) = key x) ->
  find (fun x => key x =? i) (map g l)
  = option_map g (find (fun x => key x =? i) l).
Proof.
  intros Hkey. induction l as [|a l IH]; simpl; [reflexivity|].
  rewrite Hkey. destruct (key a =? i); [reflexivity | exact IH].
Qed.

Lemma userByEmail_has_id (e : string) (d : Db) (u : User.t) :
  userByEmail e d = Some u -> exists v, userById (User.id u) d = Some v.
Proof.
  intros H. apply find_some in H as [Hin _].
  apply (find_hit _ _ u Hin). apply Z.eqb_refl.
Qed.

Lemma userById_id (i : Z) (d : Db) (u : User.t) :
  userById i d = Some u -> User.id u = i.
Proof.
  intros H. apply find_some in H as [_ H]. now apply Z.eqb_eq.
Qed.

Lemma roleById_id (i : Z) (d : Db) (r : Role.t) :
  roleById i d = Some r -> Role.id r = i.
Proof.
  intros H. apply find_some in H as [_ H]. now apply Z.eqb_eq.
Qed.

(** ** Password policy *)

Lemma isValid_invalid (msg : string) : isValid (invalid msg) = false.
Proof. reflexivity. Qed.

(** C9: [validatePasswordStrength], with the default minimum length 8, tries
    the five rules in the order length, uppercase, lowercase, digit, special
    character; its verdict is the message of the first rule the password
    breaks, and nothing else is reported; it answers valid exactly when the
    five rules all hold. *)
Theorem validatePasswordStrength_first_violation (p : jsstring) :
  validatePasswordStrength p 8 = spec_validateStrength p
  /\ error (validatePasswordStrength p 8)
     = option_map complaint (firstViolation policy p)
  /\ (isValid (validatePasswordStrength p 8) = true
      <-> forall r, In r policy -> holds r p = true).
Proof.
  unfold validatePasswordStrength, spec_validateStrength, firstViolation,
    policy.
  cbn [find holds complaint].
  rewrite Nat.ltb_antisym.
  destruct (8 <=? length p)%nat eqn:E1; cbn [negb].
  2:{ repeat split; try reflexivity.
      - discriminate.
      - intros H. specialize (H _ (or_introl eq_refl)). cbn [holds] in H. congruence. }
  destruct (test isUpper p) eqn:E2; cbn [negb].
  2:{ repeat split; try reflexivity.
      - discriminate.
      - intros H. specialize (H _ (or_intror (or_introl eq_refl))).
        cbn [holds] in H. congruence. }
  destruct (test isLower p) eqn:E3; cbn [negb].
  2:{ repeat split; try reflexivity.
      - discriminate.
      - intros H.
        specialize (H _ (or_intror (or_intror (or_introl eq_refl)))).
        cbn [holds] in H. congruence. }
  destruct (test isDigit p) eqn:E4; cbn [negb].
  2:{ repeat split; try reflexivity.
      - discriminate.
      - intros H.
        specialize
          (H _ (or_intror (or_intror (or_intror (or_introl eq_refl))))).
        cbn [holds] in H. congruence. }
  destruct (test isSpecial p) eqn:E5; cbn [negb].
  2:{ repeat split; try reflexivity.
      - discriminate.
      - intros H.
        specialize
          (H _ (or_intror
                  (or_intror (or_intror (or_intror (or_introl eq_refl)))))).
        cbn [holds] in H. congruence. }
  repeat split; try reflexivity.
  intros _ r Hr. cbn in Hr.
  repeat (destruct Hr as [<-|Hr]; [cbn [holds]; assumption|]).
  contradiction.
Qed.

(** ** Changing a password *)

(** C6: when the new password fails the strength policy, [changePassword]
    is rejected with status 400 and the database it leaves is the one it
    was given, so the stored hash, the refresh token and the reset-token
    fields of every user are untouched. *)
Theorem changePassword_weak_password_no_mutation
    {argon2 : Argon2} (d : Db) (userId : Z) (input : ChangePasswordInput)
    (salt : string) :
  isValid (validatePasswordStrength8 (newPassword input)) = false ->
  exists msg,
    AuthService.changePassword userId input salt d
    = (Rejected (HttpError msg HTTP_STATUS.BAD_REQUEST), d).
Proof.
  intros Hweak. unfold AuthService.changePassword.
  destruct ((length (currentPassword input) =? 0)%nat
            || (length (newPassword input) =? 0)%nat).
  - eexists. reflexivity.
  - rewrite Hweak. cbn [negb]. eexists. reflexivity.
Qed.

Lemma changePassword_weak_password_no_mutation_witness :
  exists msg,
    AuthService.changePassword (argon2 := PlainHash.argon2) 1
      (mkChangePasswordInput (units "Str0ng!Pw") (units "abc")) "salt"
      sessionDb
    = (Rejected (HttpError msg HTTP_STATUS.BAD_REQUEST), sessionDb).
Proof.
  apply (changePassword_weak_password_no_mutation (argon2 := PlainHash.argon2)).
  reflexivity.
Defined.

(** ** Forgotten password *)

Section ForgottenPassword.
Context {tz : HostTimeZone}.

(** C5: for an address [e1] of an existing user and an address [e2] of no
    user, both non-empty, [forgotPassword] succeeds on both and the two
    responses are the same value: the message does not tell whether the
    account exists. *)
Theorem forgotPassword_same_message
    (d : Db) (e1 e2 : string) (token1 token2 : string) (now1 now2 : Z)
    (u : User.t) :
  userByEmail e1 d = Some u ->
  userByEmail e2 d = None ->
  e1 <> "" -> e2 <> "" ->
  exists d1,
    AuthService.forgotPassword e1 token1 now1 d
    = (Fulfilled {| message := forgotPasswordMessage |}, d1)
    /\ AuthService.forgotPassword e2 token2 now2 d
       = (Fulfilled {| message := forgotPasswordMessage |}, d).
Proof.
  intros H1 H2 N1 N2. unfold AuthService.forgotPassword.
  apply String.eqb_neq in N1, N2. rewrite N1, N2.
  unfold await, AuthRepository.findByEmail, query. rewrite H1, H2.
  destruct (userByEmail_has_id _ _ _ H1) as [v Hv].
  unfold AuthRepository.updatePasswordResetToken, updateUser. rewrite Hv.
  eexists. split; reflexivity.
Qed.

End ForgottenPassword.

Lemma forgotPassword_same_message_witness :
  exists d1,
    AuthService.forgotPassword (tz := fixedZone 0)
      "a@x.com" "c0ffee" openedAt sessionDb
    = (Fulfilled {| message := forgotPasswordMessage |}, d1)
    /\ AuthService.forgotPassword (tz := fixedZone 0)
         "nobody@x.com" "c0ffee" openedAt sessionDb
       = (Fulfilled {| message := forgotPasswordMessage |}, sessionDb).
Proof.
  eapply (forgotPassword_same_message (tz := fixedZone 0)
            sessionDb "a@x.com" "nobody@x.com").
  - vm_compute. reflexivity.
  - vm_compute. reflexivity.
  - discriminate.
  - discriminate.
Defined.

(** ** System roles *)

Lemma updateRoleRow_found (i : Z) (f : Role.t -> Role.t) (d : Db)
    (r : Role.t) :
  roleById i d = Some r ->
  updateRoleRow i f d = (Fulfilled (f r), rolesUpdated i f d).
Proof. intros Hr. unfold updateRoleRow. now rewrite Hr. Qed.

Lemma deleteRole_run (d : Db) (id : Z) (r : Role.t) :
  roleById id d = Some r ->
  RoleService.isSystemRole r = false ->
  RoleService.deleteRole id d
  = (Fulfilled (deactivated r), rolesUpdated id deactivated d).
Proof.
  intros Hr Hsys.
  unfold RoleService.deleteRole, RoleService.getRoleById,
    RoleRepository.findById, await, query.
  rewrite Hr. cbn [resolve]. rewrite Hr, Hsys.
  unfold RoleRepository.delete.
  now rewrite (updateRoleRow_found id _ d r Hr).
Qed.

Lemma not_system_role (r : Role.t) :
  Role.name r <> ROLE_NAMES.ADMIN -> Role.name r <> ROLE_NAMES.USER ->
  RoleService.isSystemRole r = false.
Proof.
  intros Ha Hu. unfold RoleService.isSystemRole.
  apply String.eqb_neq in Ha, Hu. now rewrite Ha, Hu.
Qed.

Lemma roleById_rolesUpdated (i j : Z) (f : Role.t -> Role.t) (d : Db) :
  (forall x, Role.id (f x) = Role.id x) ->
  roleById j (rolesUpdated i f d)
  = option_map (fun x => if Role.id x =? i then f x else x) (roleById j d).
Proof.
  intros Hf. unfold roleById, rolesUpdated. cbn [role].
  apply (find_map_key Role.id). intros x.
  destruct (Role.id x =? i); [apply Hf | reflexivity].
Qed.

Lemma roleNameTaken_free (id : Z) (n : string) (d : Db) :
  roleByName n d = None ->
  RoleRepository.roleNameTaken id (Some n) d = false.
Proof.
  intros Hn. unfold RoleRepository.roleNameTaken.
  destruct (existsb _ (role d)) eqn:E; [|reflexivity].
  apply existsb_exists in E as [x [Hin Hx]].
  apply andb_prop in Hx as [Hx _].
  unfold roleByName in Hn. rewrite (find_none _ _ Hn x Hin) in Hx.
  discriminate.
Qed.

(** C3: [deleteRole] on the id of a role named "admin" or "user" is rejected
    with status 400 and leaves the database as it was, whoever asks; but the
    guard is in [deleteRole] only, and the role can be deleted all the same.
    [updateRole] with [isActive: false] succeeds on it and leaves exactly the
    database the soft delete [RoleRepository.delete] leaves, with the row
    inactive; and once [updateRole] has given it a name that is free,
    [deleteRole] itself succeeds on the same row. *)
Theorem system_role_guard_in_deleteRole_only (d : Db) (id : Z) (r : Role.t)
    (n : string) :
  roleById id d = Some r ->
  Role.name r = ROLE_NAMES.ADMIN \/ Role.name r = ROLE_NAMES.USER ->
  n <> "" -> n <> ROLE_NAMES.ADMIN -> n <> ROLE_NAMES.USER ->
  roleByName n d = None ->
  RoleService.deleteRole id d
  = (Rejected (HttpError "Cannot delete system roles" HTTP_STATUS.BAD_REQUEST),
     d)
  /\ RoleService.updateRole id
       (mkUpdateRoleInput None None (Some false) None) d
     = (Fulfilled (deactivated r), rolesUpdated id deactivated d)
  /\ RoleRepository.delete id d
     = (Fulfilled (deactivated r), rolesUpdated id deactivated d)
  /\ roleById id (rolesUpdated id deactivated d) = Some (deactivated r)
  /\ RoleService.updateRole id (mkUpdateRoleInput (Some n) None None None) d
     = (Fulfilled (renamed n r), rolesUpdated id (renamed n) d)
  /\ RoleService.deleteRole id (rolesUpdated id (renamed n) d)
     = (Fulfilled (deactivated (renamed n r)),
        rolesUpdated id deactivated (rolesUpdated id (renamed n) d)).
Proof.
  intros Hr Hname Hn Hna Hnu Hfree.
  assert (Hid : (Role.id r =? id) = true).
  { apply Z.eqb_eq. exact (roleById_id _ _ _ Hr). }
  split; [|split; [|split; [|split; [|split]]]].
  - unfold RoleService.deleteRole, RoleService.getRoleById,
      RoleRepository.findById, await, query.
    rewrite Hr. cbn [resolve]. rewrite Hr.
    assert (Hsys : RoleService.isSystemRole r = true).
    { unfold RoleService.isSystemRole.
      destruct Hname as [-> | ->]; reflexivity. }
    rewrite Hsys. reflexivity.
  - unfold RoleService.updateRole, RoleService.getRoleById,
      RoleRepository.findById, RoleRepository.update, await, query.
    cbn [ur_name ur_permissionIds ur_isActive ur_description resolve
         RoleRepository.roleNameTaken].
    rewrite Hr. cbn [resolve isSome andb]. rewrite Hr. cbn [isSome andb].
    unfold updateRoleRow. rewrite Hr. reflexivity.
  - unfold RoleRepository.delete. now apply updateRoleRow_found.
  - rewrite roleById_rolesUpdated by reflexivity. rewrite Hr.
    cbn [option_map]. now rewrite Hid.
  - unfold RoleService.updateRole, RoleService.getRoleById,
      RoleRepository.findById, RoleRepository.findByName,
      RoleRepository.update, await, query.
    cbn [ur_name ur_permissionIds ur_isActive ur_description].
    apply String.eqb_neq in Hn. rewrite Hn.
    rewrite Hr. cbn [resolve]. rewrite Hfree. cbn [resolve]. rewrite Hr.
    rewrite (roleNameTaken_free id n d Hfree). cbn [isSome andb].
    unfold updateRoleRow. rewrite Hr. reflexivity.
  - apply deleteRole_run.
    + rewrite roleById_rolesUpdated by reflexivity. rewrite Hr.
      cbn [option_map]. now rewrite Hid.
    + apply not_system_role; assumption.
Qed.

Lemma system_role_guard_in_deleteRole_only_witness :
  let admin :=
    Role.mk 1 "admin" (Some "Administrator role with full access") true in
  RoleService.deleteRole 1 seededDb
  = (Rejected (HttpError "Cannot delete system roles" HTTP_STATUS.BAD_REQUEST),
     seededDb)
  /\ RoleService.updateRole 1
       (mkUpdateRoleInput None None (Some false) None) seededDb
     = (Fulfilled (deactivated admin), rolesUpdated 1 deactivated seededDb)
  /\ RoleRepository.delete 1 seededDb
     = (Fulfilled (deactivated admin), rolesUpdated 1 deactivated seededDb)
  /\ roleById 1 (rolesUpdated 1 deactivated seededDb)
     = Some (deactivated admin)
  /\ RoleService.updateRole 1
       (mkUpdateRoleInput (Some "retired") None None None) seededDb
     = (Fulfilled (renamed "retired" admin),
        rolesUpdated 1 (renamed "retired") seededDb)
  /\ RoleService.deleteRole 1 (rolesUpdated 1 (renamed "retired") seededDb)
     = (Fulfilled (deactivated (renamed "retired" admin)),
        rolesUpdated 1 deactivated
          (rolesUpdated 1 (renamed "retired") seededDb)).
Proof.
  intros admin.
  apply (system_role_guard_in_deleteRole_only seededDb 1 admin "retired").
  - vm_compute. reflexivity.
  - left. reflexivity.
  - discriminate.
  - discriminate.
  - discriminate.
  - vm_compute. reflexivity.
Defined.

(** ** Soft deletion of a role *)

Lemma roleById_after_delete (id j : Z) (d : Db) :
  find (fun x => Role.id x =? j)
       (map (fun x => if Role.id x =? id then deactivated x else x) (role d))
  = option_map (fun x => if Role.id x =? id then deactivated x else x)
               (roleById j d).
Proof.
  apply (find_map_key Role.id). intros x.
  destruct (Role.id x =? id); reflexivity.
Qed.

(** C10: [deleteRole] on a role that is neither "admin" nor "user" succeeds
    and only clears the [isActive] flag of that role: the row stays, every
    other role, every join row, every permission and every user (hence every
    assignment of the role) is unchanged, and [userHasPermission] answers
    after the deletion what it answered before, for every user and name. *)
Theorem deleteRole_is_soft_delete (d : Db) (id : Z) (r : Role.t) :
  roleById id d = Some r ->
  Role.name r <> ROLE_NAMES.ADMIN ->
  Role.name r <> ROLE_NAMES.USER ->
  exists d',
    RoleService.deleteRole id d = (Fulfilled (deactivated r), d')
    /\ roleById id d' = Some (deactivated r)
    /\ (forall j, j <> id -> roleById j d' = roleById j d)
    /\ rolePermission d' = rolePermission d
    /\ permission d' = permission d
    /\ user d' = user d
    /\ (forall u p,
          fst (RoleService.userHasPermission u p d')
          = fst (RoleService.userHasPermission u p d)).
Proof.
  intros Hr Hadmin Huser.
  assert (Hsys : RoleService.isSystemRole r = false).
  { unfold RoleService.isSystemRole.
    apply String.eqb_neq in Hadmin, Huser. now rewrite Hadmin, Huser. }
  eexists. split.
  { unfold RoleService.deleteRole, RoleService.getRoleById,
      RoleRepository.findById, await, query.
    rewrite Hr. cbn [resolve]. rewrite Hr, Hsys.
    unfold RoleRepository.delete, updateRoleRow. rewrite Hr.
    reflexivity. }
  assert (Hid : Role.id r = id) by now apply roleById_id in Hr.
  split; [|split; [|split; [|split; [|split]]]]; try reflexivity.
  - unfold roleById at 1. cbn [role]. rewrite roleById_after_delete, Hr.
    cbn [option_map]. rewrite Hid, Z.eqb_refl. reflexivity.
  - intros j Hj. unfold roleById at 1. cbn [role].
    rewrite roleById_after_delete.
    destruct (roleById j d) as [x|] eqn:Ex; [|reflexivity].
    cbn [option_map]. apply roleById_id in Ex. rewrite Ex.
    apply Z.eqb_neq in Hj. now rewrite Hj.
  - intros u p.
    unfold RoleService.userHasPermission, await, query, userById.
    cbn [user].
    destruct (find (fun x => User.id x =? u) (user d)) as [usr|];
      [|reflexivity].
    cbn [option_map]. unfold includeRole. cbn [itsRole].
    destruct (User.roleId usr) as [rid|]; [|reflexivity].
    unfold roleById at 1. cbn [role]. rewrite roleById_after_delete.
    destruct (roleById rid d) as [x|]; [|reflexivity].
    cbn [option_map].
    replace (Role.id (if Role.id x =? id then deactivated x else x))
      with (Role.id x) by (destruct (Role.id x =? id); reflexivity).
    reflexivity.
Qed.

Lemma deleteRole_is_soft_delete_witness :
  exists d',
    RoleService.deleteRole 2 misnumberedDb
    = (Fulfilled (Role.mk 2 "editor" None false), d')
    /\ roleById 2 d' = Some (Role.mk 2 "editor" None false)
    /\ (forall j, j <> 2 -> roleById j d' = roleById j misnumberedDb)
    /\ rolePermission d' = rolePermission misnumberedDb
    /\ permission d' = permission misnumberedDb
    /\ user d' = user misnumberedDb
    /\ (forall u p,
          fst (RoleService.userHasPermission u p d')
          = fst (RoleService.userHasPermission u p misnumberedDb)).
Proof.
  apply (deleteRole_is_soft_delete misnumberedDb 2 (Role.mk 2 "editor" None true)).
  - vm_compute. reflexivity.
  - discriminate.
  - discriminate.
Defined.

(** ** Fail-closed permission resolution *)

(** The failing input of C1: in [softDeletedDb] user 1 holds the role
    "editor", which has been soft-deleted (its [isActive] flag is false), and
    [userHasPermission] still answers true for "users.read". *)
Lemma userHasPermission_ignores_inactive_role :
  option_map User.roleId (userById 1 softDeletedDb) = Some (Some 3)
  /\ option_map Role.isActive (roleById 3 softDeletedDb) = Some false
  /\ RoleService.userHasPermission 1 "users.read" softDeletedDb
     = (Fulfilled true, softDeletedDb).
Proof. vm_compute. repeat split. Qed.

(** The three denials that hold: [userHasPermission u p] answers false
    whenever the user does not exist, has no role, or every permission named
    [p] is inactive (in particular when none exists). *)
Lemma userHasPermission_fail_closed (d : Db) (u : Z) (p : string) :
  userById u d = None
  \/ (exists usr, userById u d = Some usr
                  /\ itsRole (includeRole d usr) = None)
  \/ (forall q, In q (permission d) -> Permission.name q = p ->
                Permission.isActive q = false) ->
  RoleService.userHasPermission u p d = (Fulfilled false, d).
Proof.
  intros H. unfold RoleService.userHasPermission, await, query.
  destruct (userById u d) as [usr|] eqn:Eu; [|reflexivity].
  cbn [option_map].
  destruct (itsRole (includeRole d usr)) as [r|] eqn:Er; [|reflexivity].
  destruct H as [H | [[usr' [Hu Hnone]] | Hperm]].
  - discriminate.
  - injection Hu as <-. congruence.
  - unfold RoleRepository.hasPermission, await, query, resolve.
    replace (find (RoleRepository.grants (Role.id r) p d) (rolePermission d))
      with (@None RolePermission.t); [reflexivity|].
    symmetry. apply find_miss. intros rp _.
    unfold RoleRepository.grants.
    destruct (permissionById (RolePermission.permissionId rp) d) as [q|] eqn:Eq;
      [|apply andb_false_r].
    apply find_some in Eq as [Hin _].
    destruct (Permission.name q =? p)%string eqn:En.
    + apply String.eqb_eq in En. rewrite (Hperm q Hin En).
      apply andb_false_r.
    + apply andb_false_r.
Qed.

Lemma userHasPermission_fail_closed_witness :
  RoleService.userHasPermission 1 "users.manage" revokedDb
  = (Fulfilled false, revokedDb).
Proof.
  apply userHasPermission_fail_closed. right. right.
  intros q Hin Hname. vm_compute in Hin.
  repeat (destruct Hin as [<- | Hin]; [first [reflexivity | discriminate Hname]|]).
  contradiction.
Defined.

(** C1: [userHasPermission] does not fail closed on an inactive role. For a
    user whose role is inactive (soft-deleted) while a join row links that
    role to an active permission named [p], it answers true: the [isActive]
    flag of the role is read nowhere on the way, only that of the
    permission. *)
Theorem userHasPermission_inactive_role_grants (d : Db) (u : Z) (p : string)
    (usr : User.t) (r : Role.t) (rp : RolePermission.t) (q : Permission.t) :
  userById u d = Some usr ->
  itsRole (includeRole d usr) = Some r ->
  Role.isActive r = false ->
  In rp (rolePermission d) ->
  RolePermission.roleId rp = Role.id r ->
  permissionById (RolePermission.permissionId rp) d = Some q ->
  Permission.name q = p ->
  Permission.isActive q = true ->
  RoleService.userHasPermission u p d = (Fulfilled true, d).
Proof.
  intros Hu Hr _ Hin Hrole Hq Hname Hactive.
  unfold RoleService.userHasPermission, await, query.
  rewrite Hu. cbn [option_map]. rewrite Hr.
  unfold RoleRepository.hasPermission, await, query, resolve.
  destruct (find_hit (RoleRepository.grants (Role.id r) p d)
              (rolePermission d) rp Hin) as [y Hy].
  - unfold RoleRepository.grants. rewrite Hq, Hname, Hactive, Hrole.
    now rewrite Z.eqb_refl, String.eqb_refl.
  - rewrite Hy. reflexivity.
Qed.

Lemma userHasPermission_inactive_role_grants_witness :
  RoleService.userHasPermission 1 "users.read" softDeletedDb
  = (Fulfilled true, softDeletedDb).
Proof.
  apply (userHasPermission_inactive_role_grants softDeletedDb 1 "users.read"
           (User.mk 1 "ed@example.com" "argon2-hash" None (Some 3) true
                    None None None)
           (Role.mk 3 "editor" None false)
           (RolePermission.mk 3 1)
           (Permission.mk 1 "users.read" (Some "Permission: users.read")
                          true)).
  - vm_compute. reflexivity.
  - vm_compute. reflexivity.
  - reflexivity.
  - vm_compute. do 5 right. left. reflexivity.
  - reflexivity.
  - vm_compute. reflexivity.
  - reflexivity.
  - reflexivity.
Defined.

(** ** ANY and ALL over permission names *)

Lemma userHasPermission_total (u : Z) (p : string) (d : Db) :
  exists b, RoleService.userHasPermission u p d = (Fulfilled b, d).
Proof.
  unfold RoleService.userHasPermission, await, query.
  destruct (userById u d) as [usr|]; [|now exists false].
  cbn [option_map].
  destruct (itsRole (includeRole d usr)) as [r|]; [|now exists false].
  eexists. reflexivity.
Qed.

(** What a single check answers, as a boolean. *)
Lemma permissionChecks_pointwise (u : Z) (ps : list string) (d : Db) :
  exists bs,
    permissionChecks u ps d = (Fulfilled bs, d)
    /\ Forall2 (fun p b => RoleService.userHasPermission u p d = (Fulfilled b, d))
               ps bs.
Proof.
  induction ps as [|p ps [bs [Hbs Hall]]].
  - exists []. split; [reflexivity | constructor].
  - destruct (userHasPermission_total u p d) as [b Hb].
    exists (b :: bs). split.
    + unfold permissionChecks in *. cbn [promiseAll]. unfold await at 1.
      rewrite Hb. unfold await at 1. rewrite Hbs. reflexivity.
    + now constructor.
Qed.

(** The ANY check is the disjunction of the single checks, and the ALL check
    their conjunction. *)
Lemma any_all_are_or_and (u : Z) (ps : list string) (d : Db) :
  exists bs,
    Forall2 (fun p b => RoleService.userHasPermission u p d = (Fulfilled b, d))
            ps bs
    /\ userHasAnyPermission u ps d = (Fulfilled (existsb (fun b => b) bs), d)
    /\ userHasAllPermissions u ps d = (Fulfilled (forallb (fun b => b) bs), d).
Proof.
  destruct (permissionChecks_pointwise u ps d) as [bs [Hbs Hall]].
  exists bs. split; [exact Hall|].
  unfold userHasAnyPermission, userHasAllPermissions, await. rewrite Hbs.
  unfold resolve. split; do 2 f_equal.
  - clear. induction bs as [|[] bs IH]; simpl; congruence.
  - clear. induction bs as [|[] bs IH]; simpl; congruence.
Qed.

(** [hasPermission] is literal membership of the name among the names the
    role grants. *)
Lemma hasPermission_literal (roleId : Z) (p : string) (d : Db) :
  RoleRepository.hasPermission roleId p d
  = (Fulfilled (existsb (fun n => (n =? p)%string) (grantedNames roleId d)), d).
Proof.
  unfold RoleRepository.hasPermission, await, query, resolve, grantedNames.
  do 2 f_equal.
  induction (rolePermission d) as [|rp l IH]; [reflexivity|].
  cbn [find flat_map]. rewrite existsb_app, <- IH.
  unfold RoleRepository.grants at 1.
  destruct (RolePermission.roleId rp =? roleId); [|reflexivity].
  destruct (permissionById (RolePermission.permissionId rp) d) as [q|];
    [|reflexivity].
  destruct (Permission.isActive q).
  - cbn [existsb andb]. rewrite andb_true_r, orb_false_r.
    destruct (Permission.name q =? p)%string; reflexivity.
  - rewrite andb_false_r. reflexivity.
Qed.

(** Counterexample to C4 as stated: for the user holding the seeded role
    "admin", the ANY check over "users.create" and "nonexistent.perm" does not
    answer true. *)
Lemma admin_any_check_not_true :
  fst (userHasAnyPermission 1 ["users.create"; "nonexistent.perm"]
         adminScenarioDb)
  <> Fulfilled true.
Proof. vm_compute. discriminate. Qed.

(** C4, amended: whatever the e-mail, hash and name of the user created on
    the seeded database with the role "admin", that user (id 1) holds the
    role "admin", which grants exactly admin.access, users.manage,
    roles.manage and permissions.manage; a single check for that user is true
    exactly for one of these four literal names; hence both the ANY check and
    the ALL check over "users.create" and "nonexistent.perm" answer false
    ("users.manage" does not stand for "users.create"), and the guard built
    on the ANY check answers 403. *)
Theorem admin_scenario_flat_names
    (email hash : string) (name : option string) :
  let d := adminDbFor email hash name in
  option_map roleNameOf (option_map (includeRole d) (userById 1 d))
  = Some "admin"
  /\ grantedNames adminRoleId d = DEFAULT_ROLE_PERMISSIONS.ADMIN
  /\ (forall p,
        RoleService.userHasPermission 1 p d
        = (Fulfilled (existsb (fun n => (n =? p)%string)
                              DEFAULT_ROLE_PERMISSIONS.ADMIN), d))
  /\ userHasAnyPermission 1 ["users.create"; "nonexistent.perm"] d
     = (Fulfilled false, d)
  /\ userHasAllPermissions 1 ["users.create"; "nonexistent.perm"] d
     = (Fulfilled false, d)
  /\ fst (requireAnyPermission ["users.create"; "nonexistent.perm"]
            (Some (mkRequestUser 1 email (Some "admin") (Some 1))) d)
     = Fulfilled
         (Json HTTP_STATUS.FORBIDDEN HTTP_MESSAGES.FORBIDDEN
            "One of these permissions required: users.create, nonexistent.perm").
Proof.
  intros d.
  assert (Hgrant : grantedNames adminRoleId d = DEFAULT_ROLE_PERMISSIONS.ADMIN)
    by (vm_compute; reflexivity).
  assert (Hsingle : forall p,
             RoleService.userHasPermission 1 p d
             = (Fulfilled (existsb (fun n => (n =? p)%string)
                                   DEFAULT_ROLE_PERMISSIONS.ADMIN), d)).
  { intros p. unfold RoleService.userHasPermission, await, query.
    destruct (option_map (includeRole d) (userById 1 d)) as [u|] eqn:Eu;
      vm_compute in Eu; [|discriminate].
    injection Eu as <-. cbn [itsRole Role.id].
    rewrite hasPermission_literal.
    change (grantedNames 1 d) with (grantedNames adminRoleId d).
    now rewrite Hgrant. }
  assert (Hany : userHasAnyPermission 1 ["users.create"; "nonexistent.perm"] d
                 = (Fulfilled false, d)).
  { unfold userHasAnyPermission, permissionChecks. cbn [promiseAll].
    unfold await. rewrite !Hsingle. reflexivity. }
  split; [vm_compute; reflexivity|].
  split; [exact Hgrant|]. split; [exact Hsingle|]. split; [exact Hany|].
  split.
  - unfold userHasAllPermissions, permissionChecks. cbn [promiseAll].
    unfold await. rewrite !Hsingle. reflexivity.
  - unfold requireAnyPermission, tryCatch. cbn [identified ru_id Z.eqb].
    unfold await at 1. rewrite Hany. reflexivity.
Qed.

(** ** Token verification *)

Section TokenService.
Context {jwt : JsonWebToken}.

(** C7: [verifyToken] fails with the error "Token expired" exactly when the
    token parses and carries a valid signature but its expiry is not after
    the current second, and with the different error "Invalid token"
    exactly on a signature or shape failure; it fails in no other way, so a
    caller tells the two kinds apart by the error it catches. *)
Theorem verifyToken_error_kinds (token : string) (now : Z) :
  (verifyToken token now = inl (PlainError "Token expired")
   <-> exists p e, jwt_decode token = Some p /\ exp p = Some e
                   /\ e <= seconds now)
  /\ (verifyToken token now = inl (PlainError "Invalid token")
      <-> jwt_decode token = None)
  /\ (forall err, verifyToken token now = inl err ->
                  err = PlainError "Token expired"
                  \/ err = PlainError "Invalid token")
  /\ PlainError "Token expired" <> PlainError "Invalid token".
Proof.
  unfold verifyToken, jwt_verify.
  destruct (jwt_decode token) as [p|] eqn:Ed.
  - destruct (exp p) as [e|] eqn:Ee.
    + destruct (e <=? seconds now) eqn:El; cbn.
      * apply Z.leb_le in El. repeat split; try discriminate.
        -- intros _. exists p, e. now repeat split.
        -- intros err [= <-]. now left.
      * apply Z.leb_gt in El. repeat split; try discriminate.
        intros [q [e' [[= <-] [He' Hle]]]]. rewrite Ee in He'.
        injection He' as <-. lia.
    + cbn. repeat split; try discriminate.
      intros [q [e' [[= <-] [He' _]]]]. congruence.
  - cbn. repeat split; try discriminate.
    + intros [q [e' [Hq _]]]. discriminate.
    + intros err [= <-]. now right.
Qed.

End TokenService.

(** ** Refresh-token rotation *)

Section Rotation.
Context {jwt : JsonWebToken} {cfg : JwtConfig}.

Lemma verifyToken_accepts (token : string) (now : Z) (p : JwtPayload) :
  verifyToken token now = inr p -> jwt_decode token = Some p.
Proof.
  unfold verifyToken, jwt_verify.
  destruct (jwt_decode token) as [q|]; [|discriminate].
  destruct (exp q) as [e|]; [destruct (e <=? seconds now)|]; cbn;
    congruence.
Qed.

Lemma verifyToken_later (token : string) (now : Z) (p : JwtPayload) :
  jwt_decode token = Some p ->
  (exists e, verifyToken token now = inl e) \/ verifyToken token now = inr p.
Proof.
  intros Hd. unfold verifyToken, jwt_verify. rewrite Hd.
  destruct (exp p) as [e|]; [destruct (e <=? seconds now)|]; cbn;
    eauto.
Qed.

(** What a successful refresh has read and written. *)
Lemma refreshToken_success (d : Db) (rt1 : string) (now : Z)
    (pair : Tokens.t) (d' : Db) :
  AuthService.refreshToken rt1 now d = (Fulfilled pair, d') ->
  exists payload u,
    rt1 <> ""
    /\ jwt_decode rt1 = Some payload
    /\ userById (Claims.userId (claims payload)) d = Some u
    /\ User.isActive u = true
    /\ User.refreshToken u = Some rt1
    /\ pair = generateTokens
                (Claims.mk (User.id u) (User.email u)
                           (Some (roleNameOf (includeRole d u))))
                now
    /\ d' = mkDb (map (fun x => if User.id x =? User.id u
                                then withRefreshToken
                                       (Some (Tokens.refreshToken pair)) x
                                else x)
                      (user d))
                 (role d) (permission d) (rolePermission d)
                 (nextUserId d) (nextRoleId d) (nextPermissionId d).
Proof.
  unfold AuthService.refreshToken. intros H.
  destruct (rt1 =? "")%string eqn:E0; [discriminate|].
  destruct (verifyToken rt1 now) as [e|payload] eqn:Ev; [discriminate|].
  unfold await, AuthRepository.findById, query in H.
  destruct (userById (Claims.userId (claims payload)) d) as [u|] eqn:Eu;
    [|discriminate].
  cbn [option_map row includeRole] in H.
  destruct (User.isActive u) eqn:Ea; [|discriminate].
  cbn [negb] in H.
  destruct (User.refreshToken u) as [stored|] eqn:Es; [|discriminate].
  destruct (stored =? rt1)%string eqn:Eq; [|discriminate].
  apply String.eqb_eq in Eq. subst stored.
  unfold AuthRepository.updateRefreshToken, updateUser in H.
  assert (Hid : User.id u = Claims.userId (claims payload))
    by now apply userById_id in Eu.
  rewrite Hid, Eu in H. cbn [resolve] in H.
  injection H as Hpair Hd'.
  exists payload, u. apply String.eqb_neq in E0.
  apply verifyToken_accepts in Ev.
  repeat split; auto.
  - rewrite <- Hpair, Hid. reflexivity.
  - rewrite <- Hd', <- Hpair, Hid. reflexivity.
Qed.

(** C2, amended: when [refreshToken rt1] succeeds with a pair containing
    [rt2], the stored refresh token of the user named by [rt1] is [rt2];
    and provided [rt2] differs from [rt1], presenting [rt1] again, at any
    later reading of the clock, is rejected with status 401 and changes
    nothing. *)
Theorem refreshToken_rotation (d : Db) (rt1 : string) (now : Z)
    (pair : Tokens.t) (d' : Db) :
  AuthService.refreshToken rt1 now d = (Fulfilled pair, d') ->
  (exists payload u,
      jwt_decode rt1 = Some payload
      /\ userById (Claims.userId (claims payload)) d' = Some u
      /\ User.refreshToken u = Some (Tokens.refreshToken pair))
  /\ (Tokens.refreshToken pair <> rt1 ->
      forall now', exists msg,
        AuthService.refreshToken rt1 now' d'
        = (Rejected (HttpError msg HTTP_STATUS.UNAUTHORIZED), d')).
Proof.
  intros H.
  destruct (refreshToken_success _ _ _ _ _ H)
    as [payload [u [Hne [Hdec [Hu [Hact [Hstored [_ Hd']]]]]]]].
  assert (Hid : User.id u = Claims.userId (claims payload))
    by now apply userById_id in Hu.
  assert (Hu' : userById (Claims.userId (claims payload)) d'
                = Some (withRefreshToken
                          (Some (Tokens.refreshToken pair)) u)).
  { rewrite Hd'. unfold userById. cbn [user].
    rewrite (find_map_key User.id).
    - fold (userById (Claims.userId (claims payload)) d). rewrite Hu.
      cbn [option_map]. now rewrite Z.eqb_refl.
    - intros x. destruct (User.id x =? User.id u); reflexivity. }
  split.
  - exists payload, (withRefreshToken (Some (Tokens.refreshToken pair)) u).
    repeat split; auto.
  - intros Hnew now'. unfold AuthService.refreshToken.
    apply String.eqb_neq in Hne. rewrite Hne.
    destruct (verifyToken_later rt1 now' payload Hdec) as [[e ->] | ->].
    + eexists. reflexivity.
    + unfold await, AuthRepository.findById, query. rewrite Hu'.
      cbn [option_map row includeRole withRefreshToken User.isActive
           User.refreshToken].
      rewrite Hact. cbn [negb].
      apply String.eqb_neq in Hnew. rewrite Hnew.
      eexists. reflexivity.
Qed.

End Rotation.

(** The session token is presented five seconds after the registration, and
    then once more. *)
Lemma refreshToken_rotation_witness :
  let first :=
    AuthService.refreshToken (jwt := PlainCodec.jwt) (cfg := defaultJwtConfig)
      sessionToken (openedAt + 5000) sessionDb in
  exists pair msg,
    first = (Fulfilled pair, snd first)
    /\ option_map User.refreshToken (userById 1 (snd first))
       = Some (Some (Tokens.refreshToken pair))
    /\ AuthService.refreshToken (jwt := PlainCodec.jwt)
         (cfg := defaultJwtConfig) sessionToken (openedAt + 6000) (snd first)
       = (Rejected (HttpError msg HTTP_STATUS.UNAUTHORIZED), snd first).
Proof.
  intros first.
  assert (Hfirst : exists pair, first = (Fulfilled pair, snd first)).
  { eexists. vm_compute. reflexivity. }
  destruct Hfirst as [pair Hfirst].
  destruct (refreshToken_rotation (jwt := PlainCodec.jwt)
              (cfg := defaultJwtConfig) _ _ _ _ _ Hfirst) as [_ Hreplay].
  assert (Hnew : Tokens.refreshToken pair <> sessionToken).
  { assert (Hp : fst first = Fulfilled pair) by now rewrite Hfirst.
    vm_compute in Hp. injection Hp as <-. vm_compute. discriminate. }
  destruct (Hreplay Hnew (openedAt + 6000)) as [msg Hmsg].
  exists pair, msg. repeat split; auto.
  assert (Hp : fst first = Fulfilled pair) by now rewrite Hfirst.
  vm_compute in Hp. injection Hp as <-. vm_compute. reflexivity.
Defined.

Lemma plainCodec_reads_session_token :
  PlainCodec.decode sessionToken
  = Some (mkJwtPayload (Claims.mk 1 "a@x.com" (Some "user"))
                       (Some 1700000000) (Some 1700604800))
  /\ PlainCodec.encode
       (mkJwtPayload (Claims.mk 1 "a@x.com" (Some "user"))
                     (Some 1700000000) (Some 1700604800))
     = sessionToken.
Proof. vm_compute. split; reflexivity. Qed.

(** Counterexample to C2 as stated: the session token is presented within the
    second in which it was issued. The refresh succeeds, the pair it produces
    contains the very same refresh token, and presenting the token once more
    succeeds again instead of being rejected with 401. *)
Lemma refreshToken_same_second_replay :
  let refresh :=
    AuthService.refreshToken (jwt := PlainCodec.jwt) (cfg := defaultJwtConfig)
      sessionToken in
  let first := refresh (openedAt + 400) sessionDb in
  let second := refresh (openedAt + 800) (snd first) in
  fst first
  = Fulfilled (Tokens.mk "1.1700000000.1700000900.4.usera@x.com" sessionToken)
  /\ option_map User.refreshToken (userById 1 (snd first))
     = Some (Some sessionToken)
  /\ fst second
     = Fulfilled (Tokens.mk "1.1700000000.1700000900.4.usera@x.com"
                            sessionToken).
Proof. vm_compute. repeat split. Qed.

(** ** The role of a registered user *)

Lemma create_without_role_uses_id_2 (e p : string) (n : option string)
    (d d' : Db) (u : UserWithRole) :
  AuthRepository.create (mkCreateUserData e p n None) d = (Fulfilled u, d') ->
  User.roleId (row u) = Some 2.
Proof.
  unfold AuthRepository.create. cbn [cu_roleId cu_email AuthRepository.defaultRoleId].
  destruct (isSome (userByEmail e d)); [discriminate|].
  destruct (negb (isSome (roleById 2 d))); [discriminate|].
  intros [= <- _]. reflexivity.
Qed.

Section Registration.
Context {jwt : JsonWebToken} {cfg : JwtConfig} {argon2 : Argon2}.

(** On a database seeded from empty the role with id 2 is "user", and a
    registered user gets it. *)
Lemma register_on_seeded_db (salt : string) (now : Z) :
  exists resp d',
    AuthService.register
      (mkRegisterInput "a@x.com" (units "Str0ng!Pw") None) salt now seededDb
    = (Fulfilled resp, d')
    /\ view_role (auth_user resp) = ROLE_NAMES.USER
    /\ option_map User.roleId (userById (view_id (auth_user resp)) d')
       = Some (Some 2).
Proof. do 2 eexists. split; [|split]; vm_compute; reflexivity. Qed.

(** C8, the code at the failing input: in [misnumberedDb] the role "user"
    has id 3 and id 2 is the role "editor"; every [register] that succeeds
    there stores role id 2 for the new user and reports the role "editor",
    not "user". *)
Theorem register_default_role_is_id_2
    (input : RegisterInput) (salt : string) (now : Z)
    (resp : AuthResponse) (d' : Db) :
  AuthService.register input salt now misnumberedDb = (Fulfilled resp, d') ->
  view_role (auth_user resp) = "editor"
  /\ option_map User.roleId (userById (view_id (auth_user resp)) d')
     = Some (Some 2)
  /\ option_map Role.name (roleById 2 d') = Some "editor"
  /\ option_map Role.id (roleByName ROLE_NAMES.USER d') = Some 3.
Proof.
  unfold AuthService.register. intros H.
  destruct ((reg_email input =? "")%string || isBlank (reg_email input));
    [discriminate|].
  destruct (isValid (validatePasswordStrength8 (reg_password input)));
    [|discriminate].
  vm_compute in H. injection H as <- <-.
  repeat split.
Qed.

End Registration.

Lemma register_default_role_is_id_2_witness :
  exists resp d',
    AuthService.register (jwt := PlainCodec.jwt) (cfg := defaultJwtConfig)
      (argon2 := PlainHash.argon2)
      (mkRegisterInput "a@x.com" (units "Str0ng!Pw") None) "salt" openedAt
      misnumberedDb
    = (Fulfilled resp, d')
    /\ view_role (auth_user resp) = "editor"
    /\ option_map User.roleId (userById (view_id (auth_user resp)) d')
       = Some (Some 2)
    /\ option_map Role.name (roleById 2 d') = Some "editor"
    /\ option_map Role.id (roleByName ROLE_NAMES.USER d') = Some 3.
Proof.
  do 2 eexists. split.
  - vm_compute. reflexivity.
  - apply (register_default_role_is_id_2 (jwt := PlainCodec.jwt)
             (cfg := defaultJwtConfig) (argon2 := PlainHash.argon2)
             (mkRegisterInput "a@x.com" (units "Str0ng!Pw") None)
             "salt" openedAt).
    vm_compute. reflexivity.
Defined.

(* ================================================================== *)
(** * Further properties of the services, guards and controller *)

(** ** Lists and keys *)

Lemma find_map_stable {A} (f : A -> bool) (g : A -> A) (l : list A) :
  (forall x, f (g x) = f x) ->
  find f (map g l) = option_map g (find f l).
Proof.
  intros Hf. induction l as [|a l IH]; simpl; [reflexivity|].
  rewrite Hf. destruct (f a); [reflexivity | exact IH].
Qed.

Lemma find_unique_key {A} (key : A -> Z) (l : list A) (u : A) :
  NoDup (map key l) -> In u l ->
  find (fun x => key x =? key u) l = Some u.
Proof.
  induction l as [|a l IH]; intros Hnd Hin; [contradiction|].
  simpl in Hnd. inversion Hnd as [|k ks Hnotin Hnd']; subst.
  simpl. destruct Hin as [-> | Hin].
  - now rewrite Z.eqb_refl.
  - destruct (key a =? key u) eqn:E.
    + apply Z.eqb_eq in E. exfalso. apply Hnotin. rewrite E.
      now apply in_map.
    + now apply IH.
Qed.

Lemma userByEmail_row_of_id (d : Db) (e : string) (u : User.t) :
  userIdsUnique d -> userByEmail e d = Some u ->
  userById (User.id u) d = Some u.
Proof.
  intros Hu He. apply find_some in He as [Hin _].
  now apply find_unique_key.
Qed.

Lemma userByEmail_email (e : string) (d : Db) (u : User.t) :
  userByEmail e d = Some u -> User.email u = e.
Proof.
  intros H. apply find_some in H as [_ H]. now apply String.eqb_eq.
Qed.

Lemma map_update_id (i : Z) (f : User.t -> User.t) (l : list User.t) :
  (forall x, User.id (f x) = User.id x) ->
  map User.id (map (fun x => if User.id x =? i then f x else x) l)
  = map User.id l.
Proof.
  intros Hf. rewrite map_map. apply map_ext. intros x.
  destruct (User.id x =? i); [apply Hf | reflexivity].
Qed.

(** ** Login *)

Section Login.
Context {jwt : JsonWebToken} {cfg : JwtConfig} {argon2 : Argon2}.

(** What a successful login has read and written. *)
Lemma login_success (d : Db) (e : string) (p : jsstring) (now : Z)
    (resp : AuthResponse) (d' : Db) :
  AuthService.login (mkLoginInput e p) now d = (Fulfilled resp, d') ->
  exists u,
    userByEmail e d = Some u
    /\ User.isActive u = true
    /\ comparePassword p (User.password u) = true
    /\ resp = (let roleName := roleNameOf (includeRole d u) in
               let tokens :=
                 generateTokens
                   (Claims.mk (User.id u) (User.email u) (Some roleName)) now in
               {| auth_user := mkUserView (User.id u) (User.email u)
                                          (User.name u) roleName;
                  auth_accessToken := Tokens.accessToken tokens;
                  auth_refreshToken := Tokens.refreshToken tokens |})
    /\ d' = mkDb (map (fun x => if User.id x =? User.id u
                                then withRefreshToken
                                       (Some (auth_refreshToken resp)) x
                                else x)
                      (user d))
                 (role d) (permission d) (rolePermission d)
                 (nextUserId d) (nextRoleId d) (nextPermissionId d).
Proof.
  unfold AuthService.login. cbn [login_email login_password]. intros H.
  destruct ((e =? "")%string || (length p =? 0)%nat); [discriminate|].
  unfold await, AuthRepository.findByEmailWithPassword, query in H.
  destruct (userByEmail e d) as [u|] eqn:Eu; [|discriminate].
  cbn [option_map row includeRole] in H.
  destruct (User.isActive u) eqn:Ea; [|discriminate]. cbn [negb] in H.
  destruct (comparePassword p (User.password u)) eqn:Ep; [|discriminate].
  cbn [negb] in H.
  unfold AuthRepository.updateRefreshToken, updateUser in H.
  destruct (userByEmail_has_id _ _ _ Eu) as [v Hv]. rewrite Hv in H.
  cbn [resolve] in H. injection H as Hresp Hd'.
  exists u. repeat split; auto.
  rewrite <- Hd', <- Hresp. reflexivity.
Qed.

(** X1: with a non-empty e-mail and password, a login for an address that
    belongs to no user and a login with a wrong password for an active user
    are rejected with the same error (status 401, the same message), and
    neither changes the database. *)
Theorem login_uniform_failure (d : Db) (e1 e2 : string) (p1 p2 : jsstring)
    (now : Z) (u : User.t) :
  e1 <> "" -> e2 <> "" -> p1 <> [] -> p2 <> [] ->
  userByEmail e1 d = None ->
  userByEmail e2 d = Some u ->
  User.isActive u = true ->
  comparePassword p2 (User.password u) = false ->
  AuthService.login (mkLoginInput e1 p1) now d
  = (Rejected (HttpError "Email o contraseña inválidos"
                         HTTP_STATUS.UNAUTHORIZED), d)
  /\ AuthService.login (mkLoginInput e2 p2) now d
     = (Rejected (HttpError "Email o contraseña inválidos"
                            HTTP_STATUS.UNAUTHORIZED), d).
Proof.
  intros N1 N2 P1 P2 H1 H2 Ha Hp.
  unfold AuthService.login. cbn [login_email login_password].
  apply String.eqb_neq in N1, N2. rewrite N1, N2.
  destruct p1 as [|c1 p1]; [contradiction|].
  destruct p2 as [|c2 p2]; [contradiction|].
  cbn [length Nat.eqb orb].
  unfold await, AuthRepository.findByEmailWithPassword, query.
  rewrite H1, H2. cbn [option_map row includeRole].
  rewrite Ha, Hp. split; reflexivity.
Qed.

(** X2: a login for a deactivated account is rejected with status 403 before
    the password is compared: the answer is the same whatever the password,
    right or wrong. *)
Theorem login_inactive_before_password (d : Db) (e : string) (p : jsstring)
    (now : Z) (u : User.t) :
  e <> "" -> p <> [] ->
  userByEmail e d = Some u ->
  User.isActive u = false ->
  AuthService.login (mkLoginInput e p) now d
  = (Rejected (HttpError "La cuenta está desactivada" HTTP_STATUS.FORBIDDEN),
     d).
Proof.
  intros N P H Ha.
  unfold AuthService.login. cbn [login_email login_password].
  apply String.eqb_neq in N. rewrite N.
  destruct p as [|c p]; [contradiction|]. cbn [length Nat.eqb orb].
  unfold await, AuthRepository.findByEmailWithPassword, query.
  rewrite H. cbn [option_map row includeRole]. rewrite Ha. reflexivity.
Qed.

(** X3: after a successful login on a table with unique user ids, the row of
    the user holds the refresh token the response carries; and, when the
    token package reads back that token, presenting it before its expiry
    second succeeds. *)
Theorem login_then_refresh (d : Db) (e : string) (p : jsstring) (now now' : Z)
    (resp : AuthResponse) (d' : Db) :
  userIdsUnique d ->
  AuthService.login (mkLoginInput e p) now d = (Fulfilled resp, d') ->
  auth_refreshToken resp <> "" ->
  jwt_decode (auth_refreshToken resp)
  = Some (mkJwtPayload
            (Claims.mk (view_id (auth_user resp)) (view_email (auth_user resp))
                       (Some (view_role (auth_user resp))))
            (Some (seconds now))
            (Some (seconds now + REFRESH_TOKEN_EXPIRES_IN))) ->
  seconds now' < seconds now + REFRESH_TOKEN_EXPIRES_IN ->
  (exists u, userById (view_id (auth_user resp)) d' = Some u
             /\ User.refreshToken u = Some (auth_refreshToken resp))
  /\ exists pair d'',
       AuthService.refreshToken (auth_refreshToken resp) now' d'
       = (Fulfilled pair, d'').
Proof.
  intros Huniq H Hne Hdec Hfresh.
  destruct (login_success _ _ _ _ _ _ H) as [u [Hu [Hact [_ [Hresp Hd']]]]].
  assert (Hid : view_id (auth_user resp) = User.id u) by now rewrite Hresp.
  pose proof (userByEmail_row_of_id _ _ _ Huniq Hu) as Hrow.
  assert (Hu' : userById (User.id u) d'
                = Some (withRefreshToken (Some (auth_refreshToken resp)) u)).
  { rewrite Hd'. unfold userById. cbn [user].
    rewrite (find_map_key User.id).
    - fold (userById (User.id u) d). rewrite Hrow. cbn [option_map].
      now rewrite Z.eqb_refl.
    - intros x. destruct (User.id x =? User.id u); reflexivity. }
  split.
  - rewrite Hid. eexists. split; [exact Hu' | reflexivity].
  - unfold AuthService.refreshToken.
    apply String.eqb_neq in Hne. rewrite Hne.
    unfold verifyToken, jwt_verify. rewrite Hdec. cbn [exp].
    apply Z.leb_gt in Hfresh. rewrite Hfresh.
    cbn [claims Claims.userId]. rewrite Hid.
    unfold await, AuthRepository.findById, query. rewrite Hu'.
    cbn [option_map row includeRole withRefreshToken User.isActive
         User.refreshToken].
    rewrite Hact. cbn [negb]. rewrite String.eqb_refl.
    unfold AuthRepository.updateRefreshToken, updateUser.
    change (User.id (withRefreshToken (Some (auth_refreshToken resp)) u))
      with (User.id u).
    rewrite Hu'. do 2 eexists. reflexivity.
Qed.

End Login.

Lemma login_uniform_failure_witness :
  let login := AuthService.login (jwt := PlainCodec.jwt)
                 (cfg := defaultJwtConfig) (argon2 := PlainHash.argon2) in
  login (mkLoginInput "nobody@x.com" (units "Str0ng!Pw")) openedAt sessionDb
  = (Rejected (HttpError "Email o contraseña inválidos"
                         HTTP_STATUS.UNAUTHORIZED), sessionDb)
  /\ login (mkLoginInput "a@x.com" (units "Wr0ng!Pass")) openedAt sessionDb
     = (Rejected (HttpError "Email o contraseña inválidos"
                            HTTP_STATUS.UNAUTHORIZED), sessionDb).
Proof.
  refine (login_uniform_failure (jwt := PlainCodec.jwt)
            (cfg := defaultJwtConfig) (argon2 := PlainHash.argon2)
            sessionDb "nobody@x.com" "a@x.com" (units "Str0ng!Pw")
            (units "Wr0ng!Pass") openedAt
            (User.mk 1 "a@x.com" "salt$Str0ng!Pw" None (Some 2) true
                     (Some sessionToken) None None)
            _ _ _ _ _ _ _ _);
    try discriminate; vm_compute; reflexivity.
Defined.

Lemma login_inactive_before_password_witness :
  AuthService.login (jwt := PlainCodec.jwt) (cfg := defaultJwtConfig)
    (argon2 := PlainHash.argon2)
    (mkLoginInput "a@x.com" (units "Str0ng!Pw")) openedAt deactivatedDb
  = (Rejected (HttpError "La cuenta está desactivada" HTTP_STATUS.FORBIDDEN),
     deactivatedDb).
Proof.
  refine (login_inactive_before_password (jwt := PlainCodec.jwt)
            (cfg := defaultJwtConfig) (argon2 := PlainHash.argon2)
            deactivatedDb "a@x.com" (units "Str0ng!Pw") openedAt
            (User.mk 1 "a@x.com" "salt$Str0ng!Pw" None (Some 2) false
                     (Some sessionToken) None None)
            _ _ _ _);
    try discriminate; vm_compute; reflexivity.
Defined.

Lemma sessionDb_ids_unique : userIdsUnique sessionDb.
Proof.
  unfold userIdsUnique. vm_compute.
  constructor; [intros [] | constructor].
Defined.

Lemma login_then_refresh_witness :
  let logged :=
    AuthService.login (jwt := PlainCodec.jwt) (cfg := defaultJwtConfig)
      (argon2 := PlainHash.argon2)
      (mkLoginInput "a@x.com" (units "Str0ng!Pw")) (openedAt + 5000)
      sessionDb in
  exists resp,
    fst logged = Fulfilled resp
    /\ (exists u, userById (view_id (auth_user resp)) (snd logged) = Some u
                  /\ User.refreshToken u = Some (auth_refreshToken resp))
    /\ exists pair d'',
         AuthService.refreshToken (jwt := PlainCodec.jwt)
           (cfg := defaultJwtConfig) (auth_refreshToken resp)
           (openedAt + 9000) (snd logged)
         = (Fulfilled pair, d'').
Proof.
  intros logged.
  assert (H : exists resp, logged = (Fulfilled resp, snd logged)
                           /\ fst logged = Fulfilled resp).
  { eexists. split; vm_compute; reflexivity. }
  destruct H as [resp [H Hfst]]. exists resp. split; [exact Hfst|].
  assert (Hresp : resp =
    {| auth_user := mkUserView 1 "a@x.com" None "user";
       auth_accessToken := "1.1700000005.1700000905.4.usera@x.com";
       auth_refreshToken := "1.1700000005.1700604805.4.usera@x.com" |}).
  { vm_compute in Hfst. now injection Hfst as <-. }
  apply (login_then_refresh (jwt := PlainCodec.jwt) (cfg := defaultJwtConfig)
           (argon2 := PlainHash.argon2)
           sessionDb "a@x.com" (units "Str0ng!Pw") (openedAt + 5000)
           (openedAt + 9000) resp (snd logged)).
  - exact sessionDb_ids_unique.
  - exact H.
  - rewrite Hresp. discriminate.
  - rewrite Hresp. vm_compute. reflexivity.
  - vm_compute. reflexivity.
Defined.

(** ** Logout *)

Section Logout.
Context {jwt : JsonWebToken} {cfg : JwtConfig}.

Lemma loggedOut_twice (uid : Z) (d : Db) :
  loggedOut uid (loggedOut uid d) = loggedOut uid d.
Proof.
  unfold loggedOut. cbn [user role permission rolePermission nextUserId
                         nextRoleId nextPermissionId].
  f_equal. rewrite map_map. apply map_ext. intros x.
  destruct (User.id x =? uid) eqn:E; [|now rewrite E].
  change (User.id (withRefreshToken None x)) with (User.id x).
  now rewrite E.
Qed.

(** X4: [logout] of an existing user succeeds and clears the stored refresh
    token of that user, leaving every other user as it was; calling it again
    succeeds and changes nothing more. *)
Theorem logout_idempotent (d : Db) (uid : Z) (u : User.t) :
  userById uid d = Some u ->
  AuthService.logout uid d
  = (Fulfilled {| message := "Sesión cerrada exitosamente" |},
     loggedOut uid d)
  /\ AuthService.logout uid (loggedOut uid d)
     = (Fulfilled {| message := "Sesión cerrada exitosamente" |},
        loggedOut uid d)
  /\ (exists v, userById uid (loggedOut uid d) = Some v
                /\ User.refreshToken v = None)
  /\ forall j, j <> uid -> userById j (loggedOut uid d) = userById j d.
Proof.
  intros Hu.
  assert (Hfind : forall j,
            userById j (loggedOut uid d)
            = option_map (fun x => if User.id x =? uid
                                   then withRefreshToken None x else x)
                         (userById j d)).
  { intros j. unfold userById, loggedOut. cbn [user].
    apply (find_map_key User.id). intros x.
    destruct (User.id x =? uid); reflexivity. }
  assert (Hfirst : AuthService.logout uid d
                   = (Fulfilled {| message := "Sesión cerrada exitosamente" |},
                      loggedOut uid d)).
  { unfold AuthService.logout, await, AuthRepository.updateRefreshToken,
      updateUser. rewrite Hu. reflexivity. }
  assert (Hu' : userById uid (loggedOut uid d)
                = Some (withRefreshToken None u)).
  { rewrite Hfind, Hu. cbn [option_map].
    apply userById_id in Hu. now rewrite Hu, Z.eqb_refl. }
  repeat split.
  - exact Hfirst.
  - unfold AuthService.logout, await, AuthRepository.updateRefreshToken,
      updateUser. rewrite Hu'.
    transitivity (Fulfilled {| message := "Sesión cerrada exitosamente" |},
                  loggedOut uid (loggedOut uid d));
      [reflexivity | f_equal; apply loggedOut_twice].
  - eexists. split; [exact Hu' | reflexivity].
  - intros j Hj. rewrite Hfind.
    destruct (userById j d) as [x|] eqn:Ex; [|reflexivity].
    cbn [option_map]. apply userById_id in Ex. rewrite Ex.
    apply Z.eqb_neq in Hj. now rewrite Hj.
Qed.

(** X5: once [logout] has run for a user, no token that names that user is
    accepted by [refreshToken], at any time: the call is rejected with status
    400, 401 or 403 and changes nothing. *)
Theorem logout_revokes_refresh (d : Db) (uid : Z) (u : User.t)
    (token : string) (now : Z) (payload : JwtPayload) :
  userById uid d = Some u ->
  jwt_decode token = Some payload ->
  Claims.userId (claims payload) = uid ->
  exists msg code,
    AuthService.refreshToken token now (loggedOut uid d)
    = (Rejected (HttpError msg code), loggedOut uid d)
    /\ (code = HTTP_STATUS.BAD_REQUEST \/ code = HTTP_STATUS.UNAUTHORIZED
        \/ code = HTTP_STATUS.FORBIDDEN).
Proof.
  intros Hu Hdec Hid.
  assert (Hu' : userById uid (loggedOut uid d)
                = Some (withRefreshToken None u)).
  { unfold userById, loggedOut. cbn [user].
    rewrite (find_map_key User.id).
    - fold (userById uid d). rewrite Hu. cbn [option_map].
      apply userById_id in Hu. now rewrite Hu, Z.eqb_refl.
    - intros x. destruct (User.id x =? uid); reflexivity. }
  unfold AuthService.refreshToken.
  destruct (token =? "")%string.
  { do 2 eexists. split; [reflexivity | now left]. }
  unfold verifyToken, jwt_verify. rewrite Hdec.
  assert (Hrest :
    exists msg code,
      (found <- AuthRepository.findById (Claims.userId (claims payload)) ;;
       match found with
       | None => throw (HttpError "Usuario no encontrado" HTTP_STATUS.NOT_FOUND)
       | Some u0 =>
           let user := row u0 in
           if negb (User.isActive user)
           then throw (HttpError "La cuenta está desactivada"
                                 HTTP_STATUS.FORBIDDEN)
           else
             match User.refreshToken user with
             | Some stored =>
                 if (stored =? token)%string
                 then
                   let roleName := roleNameOf u0 in
                   let tokens :=
                     generateTokens
                       (Claims.mk (User.id user) (User.email user)
                                  (Some roleName)) now in
                   AuthRepository.updateRefreshToken
                     (User.id user) (Some (Tokens.refreshToken tokens)) ;;
                   resolve tokens
                 else throw (HttpError "Token de refresco inválido"
                                       HTTP_STATUS.UNAUTHORIZED)
             | None => throw (HttpError "Token de refresco inválido"
                                        HTTP_STATUS.UNAUTHORIZED)
             end
       end) (loggedOut uid d)
      = (Rejected (HttpError msg code), loggedOut uid d)
      /\ (code = HTTP_STATUS.BAD_REQUEST \/ code = HTTP_STATUS.UNAUTHORIZED
          \/ code = HTTP_STATUS.FORBIDDEN)).
  { unfold await, AuthRepository.findById, query. rewrite Hid, Hu'.
    cbn [option_map row includeRole withRefreshToken User.isActive
         User.refreshToken].
    destruct (User.isActive u); cbn [negb];
      do 2 eexists; (split; [reflexivity | auto]). }
  destruct (exp payload) as [e|]; [destruct (e <=? seconds now)|]; cbn.
  - do 2 eexists. split; [reflexivity | auto].
  - exact Hrest.
  - exact Hrest.
Qed.

End Logout.

Lemma logout_idempotent_witness :
  AuthService.logout 1 sessionDb
  = (Fulfilled {| message := "Sesión cerrada exitosamente" |},
     loggedOut 1 sessionDb)
  /\ AuthService.logout 1 (loggedOut 1 sessionDb)
     = (Fulfilled {| message := "Sesión cerrada exitosamente" |},
        loggedOut 1 sessionDb)
  /\ (exists v, userById 1 (loggedOut 1 sessionDb) = Some v
                /\ User.refreshToken v = None)
  /\ forall j, j <> 1 -> userById j (loggedOut 1 sessionDb)
                         = userById j sessionDb.
Proof.
  apply (logout_idempotent sessionDb 1
           (User.mk 1 "a@x.com" "salt$Str0ng!Pw" None (Some 2) true
                    (Some sessionToken) None None)).
  vm_compute. reflexivity.
Defined.

Lemma logout_revokes_refresh_witness :
  exists msg code,
    AuthService.refreshToken (jwt := PlainCodec.jwt) (cfg := defaultJwtConfig)
      sessionToken (openedAt + 5000) (loggedOut 1 sessionDb)
    = (Rejected (HttpError msg code), loggedOut 1 sessionDb)
    /\ (code = HTTP_STATUS.BAD_REQUEST \/ code = HTTP_STATUS.UNAUTHORIZED
        \/ code = HTTP_STATUS.FORBIDDEN).
Proof.
  apply (logout_revokes_refresh (jwt := PlainCodec.jwt)
           (cfg := defaultJwtConfig) sessionDb 1
           (User.mk 1 "a@x.com" "salt$Str0ng!Pw" None (Some 2) true
                    (Some sessionToken) None None)
           sessionToken (openedAt + 5000)
           (mkJwtPayload (Claims.mk 1 "a@x.com" (Some "user"))
                         (Some 1700000000) (Some 1700604800)));
    vm_compute; reflexivity.
Defined.

(** ** Row updates *)

Lemma updateUser_found (i : Z) (f : User.t -> User.t) (d : Db) (w : User.t) :
  (forall x, User.id (f x) = User.id x) ->
  userById i d = Some w ->
  updateUser i f d = (Fulfilled (f w), usersUpdated i f d)
  /\ userById i (usersUpdated i f d) = Some (f w)
  /\ (forall j, j <> i -> userById j (usersUpdated i f d) = userById j d).
Proof.
  intros Hf Hw.
  assert (Hfind : forall j,
            userById j (usersUpdated i f d)
            = option_map (fun x => if User.id x =? i then f x else x)
                         (userById j d)).
  { intros j. unfold userById, usersUpdated. cbn [user].
    apply (find_map_key User.id). intros x.
    destruct (User.id x =? i); [apply Hf | reflexivity]. }
  repeat split.
  - unfold updateUser. now rewrite Hw.
  - rewrite Hfind, Hw. cbn [option_map].
    apply userById_id in Hw. now rewrite Hw, Z.eqb_refl.
  - intros j Hj. rewrite Hfind.
    destruct (userById j d) as [x|] eqn:Ex; [|reflexivity].
    cbn [option_map]. apply userById_id in Ex. rewrite Ex.
    apply Z.eqb_neq in Hj. now rewrite Hj.
Qed.

Lemma find_app {A} (f : A -> bool) (l l' : list A) :
  find f (l ++ l')
  = match find f l with Some x => Some x | None => find f l' end.
Proof.
  induction l as [|a l IH]; simpl; [reflexivity|].
  destruct (f a); [reflexivity | exact IH].
Qed.

Lemma valid_password_not_empty (p : jsstring) :
  isValid (validatePasswordStrength8 p) = true ->
  (length p =? 0)%nat = false.
Proof.
  unfold validatePasswordStrength8, validatePasswordStrength.
  destruct (length p <? 8)%nat eqn:E; [discriminate|]. intros _.
  apply Nat.ltb_ge in E. apply Nat.eqb_neq. lia.
Qed.

(** ** Password reset *)

(** ** The hour after now, on the local clock *)

Section LocalClock.
Context {tz : HostTimeZone}.

(** Setting the hour to the next one moves the local time by one hour. *)
Lemma setHours_next_hour (now : Z) :
  JsDate.setHours now (JsDate.getHours now + 1)
  = JsDate.UTC (JsDate.LocalTime now + JsDate.msPerHour).
Proof.
  unfold JsDate.setHours, JsDate.getHours. f_equal.
  generalize (JsDate.LocalTime now). intros l.
  unfold JsDate.MakeDate, JsDate.MakeTime, JsDate.Day, JsDate.HourFromTime,
    JsDate.MinFromTime, JsDate.SecFromTime, JsDate.msFromTime,
    JsDate.msPerDay, JsDate.msPerHour, JsDate.msPerMinute, JsDate.msPerSecond.
  Z.div_mod_to_equations. lia.
Qed.

(** When the offset of the zone is the same at both ends, the instant is one
    hour later. *)
Lemma resetExpires_steady_offset (now : Z) :
  LocalTZA (JsDate.LocalTime now + JsDate.msPerHour) false
  = LocalTZA now true ->
  AuthService.resetExpires now = now + oneHour.
Proof.
  intros H. unfold AuthService.resetExpires. rewrite setHours_next_hour.
  unfold JsDate.UTC. rewrite H. unfold JsDate.LocalTime, JsDate.msPerHour,
    oneHour. lia.
Qed.

End LocalClock.

(** Half an hour before the clocks of New York go back, the instant whose
    local reading is one hour later lies two hours ahead. *)
Lemma resetExpires_when_clocks_go_back :
  AuthService.resetExpires (tz := newYorkZone) (fallBack - 1800000)
  = fallBack - 1800000 + 2 * oneHour.
Proof. vm_compute. reflexivity. Qed.

Lemma reset_token_found (t : string) (ex now' : Z) (i : Z)
    (l : list User.t) :
  (forall v, In v l -> User.passwordResetToken v <> Some t) ->
  (exists x, In x l /\ User.id x = i) ->
  now' < ex ->
  exists v,
    find (holdsResetToken t now')
         (map (fun x => if User.id x =? i
                        then withResetRequest (Some t) (Some (ex)) x
                        else x) l)
    = Some v
    /\ User.id v = i.
Proof.
  intros Hfree [x [Hin Hid]] Hfresh.
  induction l as [|a l IH]; [contradiction|].
  cbn [map find]. destruct (User.id a =? i) eqn:Ea.
  - exists (withResetRequest (Some t) (Some (ex)) a).
    unfold holdsResetToken. cbn [withResetRequest User.passwordResetToken
                                 User.passwordResetExpires].
    rewrite String.eqb_refl. apply Z.ltb_lt in Hfresh. rewrite Hfresh.
    split; [reflexivity | now apply Z.eqb_eq in Ea].
  - assert (Hnot : holdsResetToken t now' a = false).
    { unfold holdsResetToken.
      destruct (User.passwordResetToken a) as [t'|] eqn:Et; [|reflexivity].
      destruct (User.passwordResetExpires a); [|reflexivity].
      destruct (t' =? t)%string eqn:E; [|reflexivity].
      apply String.eqb_eq in E. subst t'.
      exfalso. apply (Hfree a (or_introl eq_refl)). exact Et. }
    rewrite Hnot. apply IH.
    + intros v Hv. apply Hfree. now right.
    + destruct Hin as [-> | Hin]; [|exact Hin].
      rewrite Hid, Z.eqb_refl in Ea. discriminate.
Qed.

Lemma reset_token_expired (t : string) (ex now' : Z) (i : Z)
    (l : list User.t) :
  (forall v, In v l -> User.passwordResetToken v <> Some t) ->
  ex <= now' ->
  find (holdsResetToken t now')
       (map (fun x => if User.id x =? i
                      then withResetRequest (Some t) (Some (ex)) x
                      else x) l)
  = None.
Proof.
  intros Hfree Hlate. apply find_miss. intros v Hv.
  apply in_map_iff in Hv as [x [<- Hx]].
  destruct (User.id x =? i).
  - unfold holdsResetToken. cbn [withResetRequest User.passwordResetToken
                                 User.passwordResetExpires].
    apply Z.ltb_ge in Hlate. rewrite Hlate. apply andb_false_r.
  - unfold holdsResetToken.
    destruct (User.passwordResetToken x) as [t'|] eqn:Et; [|reflexivity].
    destruct (User.passwordResetExpires x); [|reflexivity].
    destruct (t' =? t)%string eqn:E; [|reflexivity].
    apply String.eqb_eq in E. subst t'.
    exfalso. apply (Hfree x Hx). exact Et.
Qed.

Section PasswordReset.
Context {argon2 : Argon2} {tz : HostTimeZone}.

(** What [resetPassword] does once the token has led to a row. *)
Lemma resetPassword_found (d : Db) (t : string) (pw : jsstring)
    (salt : string) (now : Z) (v w : User.t) :
  t <> "" ->
  isValid (validatePasswordStrength8 pw) = true ->
  find (holdsResetToken t now) (user d) = Some v ->
  userById (User.id v) d = Some w ->
  AuthService.resetPassword (mkResetPasswordInput t pw) salt now d
  = (Fulfilled
       {| message := "La contraseña ha sido restablecida exitosamente" |},
     usersUpdated (User.id v) (withRefreshToken None)
       (usersUpdated (User.id v) (withPassword (hashPassword pw salt)) d))
  /\ userById (User.id v)
       (usersUpdated (User.id v) (withRefreshToken None)
          (usersUpdated (User.id v) (withPassword (hashPassword pw salt)) d))
     = Some (withRefreshToken None (withPassword (hashPassword pw salt) w)).
Proof.
  intros Ht Hvalid Hfind Hw.
  destruct (updateUser_found (User.id v) (withPassword (hashPassword pw salt))
              d w (fun _ => eq_refl) Hw) as [H1 [H1' _]].
  destruct (updateUser_found (User.id v) (withRefreshToken None) _ _
              (fun _ => eq_refl) H1') as [H2 [H2' _]].
  split; [|exact H2'].
  unfold AuthService.resetPassword. cbn [reset_token reset_password].
  apply String.eqb_neq in Ht. rewrite Ht.
  rewrite (valid_password_not_empty _ Hvalid), Hvalid. cbn [orb negb].
  unfold await at 1. unfold AuthRepository.findByPasswordResetToken, query.
  change (find _ (user d)) with (find (holdsResetToken t now) (user d)).
  rewrite Hfind.
  unfold await at 1.
  change (AuthRepository.updatePassword (User.id v) (hashPassword pw salt) d)
    with (updateUser (User.id v) (withPassword (hashPassword pw salt)) d).
  rewrite H1. unfold await at 1.
  change (AuthRepository.updateRefreshToken (User.id v) None)
    with (updateUser (User.id v) (withRefreshToken None)).
  rewrite H2. reflexivity.
Qed.

(** X6: [forgotPassword] for an existing user, with a reset token no row
    held before, stores as expiry the instant at which the local clock of the
    host reads one hour more than now; that is one hour from now when the
    offset of the zone is the same at both ends. Before that instant
    [resetPassword] with the token and a strong password succeeds, and then
    the user's row holds the new hash, no reset token and no refresh token;
    from that instant on it is rejected with status 400 and changes nothing,
    though the token string is the right one. *)
Theorem forgot_then_reset (d : Db) (e t : string) (pw : jsstring)
    (salt : string) (now now' : Z) (u : User.t) :
  e <> "" -> t <> "" ->
  userByEmail e d = Some u ->
  (forall v, In v (user d) -> User.passwordResetToken v <> Some t) ->
  isValid (validatePasswordStrength8 pw) = true ->
  exists d1 w,
    AuthService.forgotPassword e t now d
    = (Fulfilled {| message := forgotPasswordMessage |}, d1)
    /\ userById (User.id u) d1 = Some w
    /\ User.passwordResetToken w = Some t
    /\ User.passwordResetExpires w = Some (AuthService.resetExpires now)
    /\ AuthService.resetExpires now
       = JsDate.UTC (JsDate.LocalTime now + JsDate.msPerHour)
    /\ (LocalTZA (JsDate.LocalTime now + JsDate.msPerHour) false
        = LocalTZA now true ->
        AuthService.resetExpires now = now + oneHour)
    /\ (now' < AuthService.resetExpires now ->
        exists d2 v,
          AuthService.resetPassword (mkResetPasswordInput t pw) salt now' d1
          = (Fulfilled
               {| message :=
                    "La contraseña ha sido restablecida exitosamente" |}, d2)
          /\ userById (User.id u) d2 = Some v
          /\ User.password v = hashPassword pw salt
          /\ User.refreshToken v = None
          /\ User.passwordResetToken v = None
          /\ User.passwordResetExpires v = None)
    /\ (AuthService.resetExpires now <= now' ->
        AuthService.resetPassword (mkResetPasswordInput t pw) salt now' d1
        = (Rejected (HttpError "Token de restablecimiento inválido o expirado"
                               HTTP_STATUS.BAD_REQUEST), d1)).
Proof.
  intros He Ht Hu Hfree Hvalid.
  set (ex := AuthService.resetExpires now).
  destruct (userByEmail_has_id _ _ _ Hu) as [w Hw].
  destruct (updateUser_found (User.id u)
              (withResetRequest (Some t) (Some ex)) d w
              (fun _ => eq_refl) Hw) as [H1 [H1' _]].
  exists (usersUpdated (User.id u) (withResetRequest (Some t) (Some ex)) d).
  exists (withResetRequest (Some t) (Some ex) w).
  split; [|split; [exact H1'|split; [reflexivity|split; [reflexivity|]]]].
  2: split; [|split; [|split]].
  - unfold AuthService.forgotPassword.
    apply String.eqb_neq in He. rewrite He.
    unfold await at 1. unfold AuthRepository.findByEmail, query. rewrite Hu.
    unfold await. fold ex.
    change (AuthRepository.updatePasswordResetToken (User.id u) (Some t)
              (Some ex) d)
      with (updateUser (User.id u) (withResetRequest (Some t) (Some ex)) d).
    rewrite H1. reflexivity.
  - unfold AuthService.resetExpires. apply setHours_next_hour.
  - apply resetExpires_steady_offset.
  - intros Hfresh.
    destruct (reset_token_found t ex now' (User.id u) (user d) Hfree)
      as [v [Hv Hid]]; [|exact Hfresh|].
    { apply find_some in Hu as [Hin _]. now exists u. }
    assert (H1v : userById (User.id v)
                    (usersUpdated (User.id u)
                       (withResetRequest (Some t) (Some ex)) d)
                  = Some (withResetRequest (Some t) (Some ex) w))
      by (rewrite Hid; exact H1').
    destruct (resetPassword_found
                (usersUpdated (User.id u)
                   (withResetRequest (Some t) (Some ex)) d)
                t pw salt now' v _ Ht Hvalid Hv H1v) as [Hrun Hrow].
    rewrite Hid in Hrun, Hrow.
    do 2 eexists. split; [exact Hrun|].
    split; [exact Hrow|]. repeat split.
  - intros Hlate.
    unfold AuthService.resetPassword. cbn [reset_token reset_password].
    apply String.eqb_neq in Ht. rewrite Ht.
    rewrite (valid_password_not_empty _ Hvalid), Hvalid. cbn [orb negb].
    unfold await, AuthRepository.findByPasswordResetToken, query.
    change (find _ (user (usersUpdated (User.id u)
                           (withResetRequest (Some t) (Some ex)) d)))
      with (find (holdsResetToken t now')
                 (map (fun x => if User.id x =? User.id u
                                then withResetRequest (Some t) (Some ex) x
                                else x) (user d))).
    rewrite (reset_token_expired t ex now' (User.id u) (user d) Hfree Hlate).
    reflexivity.
Qed.

(** X7: a reset token is single-use. When [resetPassword] has succeeded with
    a token that at most one user id held, any later [resetPassword] with the
    same token, whatever the password and the time, is rejected with status
    400 and changes nothing. *)
Theorem resetPassword_single_use (d d' : Db) (t : string) (pw pw' : jsstring)
    (salt salt' : string) (now now' : Z) (m : Message) :
  (forall v w, In v (user d) -> In w (user d) ->
               User.passwordResetToken v = Some t ->
               User.passwordResetToken w = Some t ->
               User.id v = User.id w) ->
  AuthService.resetPassword (mkResetPasswordInput t pw) salt now d
  = (Fulfilled m, d') ->
  exists msg,
    AuthService.resetPassword (mkResetPasswordInput t pw') salt' now' d'
    = (Rejected (HttpError msg HTTP_STATUS.BAD_REQUEST), d').
Proof.
  intros Hone H.
  unfold AuthService.resetPassword in H. cbn [reset_token reset_password] in H.
  destruct ((t =? "")%string || (length pw =? 0)%nat) eqn:E0; [discriminate|].
  destruct (isValid (validatePasswordStrength8 pw)) eqn:Hvalid;
    [|discriminate].
  cbn [negb] in H. unfold await at 1 in H.
  unfold AuthRepository.findByPasswordResetToken, query in H.
  change (find _ (user d)) with (find (holdsResetToken t now) (user d)) in H.
  destruct (find (holdsResetToken t now) (user d)) as [v|] eqn:Hfind;
    [|discriminate].
  pose proof (find_some _ _ Hfind) as [Hin Hholds].
  destruct (find_hit (fun x => User.id x =? User.id v) (user d) v Hin
              (Z.eqb_refl _)) as [w Hw].
  fold (userById (User.id v) d) in Hw.
  apply orb_false_iff in E0 as [Et _]. apply String.eqb_neq in Et.
  destruct (resetPassword_found d t pw salt now v w Et Hvalid Hfind Hw)
    as [Hrun _].
  unfold AuthService.resetPassword in Hrun.
  cbn [reset_token reset_password] in Hrun.
  apply String.eqb_neq in Et. rewrite Et in Hrun.
  rewrite (valid_password_not_empty _ Hvalid), Hvalid in Hrun.
  cbn [orb negb] in Hrun. unfold await at 1 in Hrun.
  unfold AuthRepository.findByPasswordResetToken, query in Hrun.
  change (find _ (user d)) with (find (holdsResetToken t now) (user d))
    in Hrun.
  rewrite Hfind in Hrun. rewrite Hrun in H. injection H as _ <-.
  assert (Htoken : User.passwordResetToken v = Some t).
  { unfold holdsResetToken in Hholds.
    destruct (User.passwordResetToken v) as [t'|]; [|discriminate].
    destruct (User.passwordResetExpires v); [|discriminate].
    apply andb_true_iff in Hholds as [Heq _].
    apply String.eqb_eq in Heq. now subst. }
  unfold AuthService.resetPassword. cbn [reset_token reset_password].
  destruct ((t =? "")%string || (length pw' =? 0)%nat);
    [eexists; reflexivity|].
  destruct (isValid (validatePasswordStrength8 pw'));
    [|eexists; reflexivity].
  cbn [negb]. unfold await, AuthRepository.findByPasswordResetToken, query.
  match goal with
  | |- context [find ?f ?l] =>
      replace (find f l) with (@None User.t); [eexists; reflexivity|]
  end.
  symmetry. apply find_miss. intros x Hx.
  unfold usersUpdated in Hx. cbn [user] in Hx.
  apply in_map_iff in Hx as [y [<- Hy]].
  apply in_map_iff in Hy as [z [<- Hz]].
  destruct (User.id z =? User.id v) eqn:Ez.
  - change (User.id (withPassword (hashPassword pw salt) z))
      with (User.id z). rewrite Ez. reflexivity.
  - rewrite Ez.
    destruct (User.passwordResetToken z) as [t'|] eqn:Etz; [|reflexivity].
    destruct (User.passwordResetExpires z); [|reflexivity].
    destruct (t' =? t)%string eqn:E; [|reflexivity].
    apply String.eqb_eq in E. subst t'.
    rewrite (Hone z v Hz Hin Etz Htoken), Z.eqb_refl in Ez. discriminate.
Qed.

End PasswordReset.

Lemma forgot_then_reset_witness :
  exists d1,
    AuthService.forgotPassword (tz := fixedZone 0)
      "a@x.com" "c0ffee" openedAt sessionDb
    = (Fulfilled {| message := forgotPasswordMessage |}, d1)
    /\ (exists w, userById 1 d1 = Some w
                  /\ User.passwordResetExpires w = Some (openedAt + oneHour))
    /\ (exists d2 v,
          AuthService.resetPassword (argon2 := PlainHash.argon2)
            (mkResetPasswordInput "c0ffee" (units "N3w!Passw")) "pepper"
            (openedAt + 60000) d1
          = (Fulfilled
               {| message :=
                    "La contraseña ha sido restablecida exitosamente" |}, d2)
          /\ userById 1 d2 = Some v
          /\ User.password v = "pepper$N3w!Passw"
          /\ User.refreshToken v = None
          /\ User.passwordResetToken v = None
          /\ User.passwordResetExpires v = None).
Proof.
  destruct (forgot_then_reset (argon2 := PlainHash.argon2)
              (tz := fixedZone 0) sessionDb
              "a@x.com" "c0ffee" (units "N3w!Passw") "pepper" openedAt
              (openedAt + 60000)
              (User.mk 1 "a@x.com" "salt$Str0ng!Pw" None (Some 2) true
                       (Some sessionToken) None None))
    as [d1 [w [H1 [Hw [_ [Hex [_ [Hsteady [Hfresh _]]]]]]]]].
  - discriminate.
  - discriminate.
  - vm_compute. reflexivity.
  - intros v Hin. vm_compute in Hin. destruct Hin as [<- | []]. discriminate.
  - vm_compute. reflexivity.
  - exists d1. split; [exact H1|]. split.
    + exists w. split; [exact Hw|]. rewrite Hex. apply f_equal.
      apply Hsteady. reflexivity.
    + apply Hfresh. vm_compute. reflexivity.
Defined.

Lemma resetPassword_single_use_witness :
  let first :=
    AuthService.resetPassword (argon2 := PlainHash.argon2)
      (mkResetPasswordInput "c0ffee" (units "N3w!Passw")) "pepper"
      (openedAt + 60000) resetRequestedDb in
  exists msg,
    AuthService.resetPassword (argon2 := PlainHash.argon2)
      (mkResetPasswordInput "c0ffee" (units "An0ther!Pw")) "pepper"
      (openedAt + 61000) (snd first)
    = (Rejected (HttpError msg HTTP_STATUS.BAD_REQUEST), snd first).
Proof.
  intros first.
  apply (resetPassword_single_use (argon2 := PlainHash.argon2)
           resetRequestedDb (snd first) "c0ffee" (units "N3w!Passw")
           (units "An0ther!Pw") "pepper" "pepper" (openedAt + 60000)
           (openedAt + 61000)
           {| message := "La contraseña ha sido restablecida exitosamente" |}).
  - intros v w Hv Hw _ _. vm_compute in Hv, Hw.
    destruct Hv as [<- | []]. destruct Hw as [<- | []]. reflexivity.
  - vm_compute. reflexivity.
Defined.

(** ** Changing a password, continued *)

Section ChangePassword.
Context {jwt : JsonWebToken} {cfg : JwtConfig} {argon2 : Argon2}.

(** X8: for an existing user whose e-mail address leads back to the same row
    and a strong new password, [changePassword] with a wrong current password
    is rejected with status 401 and changes nothing; with the right one it
    succeeds, and then the row holds the hash of the new password, no refresh
    token and no reset token, every other user being unchanged. *)
Theorem changePassword_outcomes (d : Db) (uid : Z) (cur new : jsstring)
    (salt : string) (u : User.t) :
  userById uid d = Some u ->
  userByEmail (User.email u) d = Some u ->
  cur <> [] ->
  isValid (validatePasswordStrength8 new) = true ->
  (comparePassword cur (User.password u) = false ->
   AuthService.changePassword uid (mkChangePasswordInput cur new) salt d
   = (Rejected (HttpError "La contraseña actual es incorrecta"
                          HTTP_STATUS.UNAUTHORIZED), d))
  /\ (comparePassword cur (User.password u) = true ->
      exists d' v,
        AuthService.changePassword uid (mkChangePasswordInput cur new) salt d
        = (Fulfilled {| message := "La contraseña ha sido cambiada exitosamente" |},
           d')
        /\ userById uid d' = Some v
        /\ User.password v = hashPassword new salt
        /\ User.refreshToken v = None
        /\ User.passwordResetToken v = None
        /\ User.passwordResetExpires v = None
        /\ forall j, j <> uid -> userById j d' = userById j d).
Proof.
  intros Hu Hemail Hcur Hvalid.
  assert (Hid : User.id u = uid) by now apply userById_id in Hu.
  assert (Hor : orElse (Some (User.email u)) "" = User.email u).
  { unfold orElse. destruct (User.email u =? "")%string eqn:E;
      [now apply String.eqb_eq in E | reflexivity]. }
  assert (Hpre :
    forall k : Promise Message,
      (if (length cur =? 0)%nat || (length new =? 0)%nat
       then AuthService.badRequest
              "La contraseña actual y la nueva contraseña son requeridas"
       else if negb (isValid (validatePasswordStrength8 new))
            then AuthService.badRequest
                   (orElse (error (validatePasswordStrength8 new))
                           "Contraseña inválida")
            else k) d = k d).
  { intros k. destruct cur as [|c cur']; [contradiction|].
    cbn [length Nat.eqb orb].
    rewrite (valid_password_not_empty _ Hvalid), Hvalid. reflexivity. }
  destruct (updateUser_found uid (withPassword (hashPassword new salt)) d u
              (fun _ => eq_refl) Hu) as [H1 [H1' H1o]].
  destruct (updateUser_found uid (withRefreshToken None) _ _
              (fun _ => eq_refl) H1') as [H2 [H2' H2o]].
  split; intros Hcmp.
  - unfold AuthService.changePassword. cbn [currentPassword newPassword].
    rewrite Hpre.
    unfold await, AuthRepository.findById,
      AuthRepository.findByEmailWithPassword, query.
    rewrite Hu. cbn [option_map row includeRole]. rewrite Hor, Hemail.
    cbn [option_map row includeRole]. rewrite Hcmp. reflexivity.
  - exists (usersUpdated uid (withRefreshToken None)
              (usersUpdated uid (withPassword (hashPassword new salt)) d)).
    exists (withRefreshToken None (withPassword (hashPassword new salt) u)).
    split; [|split; [exact H2'|]].
    + unfold AuthService.changePassword. cbn [currentPassword newPassword].
      rewrite Hpre.
      unfold await at 1. unfold AuthRepository.findById, query.
      unfold await at 1.
      unfold AuthRepository.findByEmailWithPassword, query.
      rewrite Hu. cbn [option_map row includeRole]. rewrite Hor, Hemail.
      cbn [option_map row includeRole]. rewrite Hcmp. cbn [negb].
      rewrite Hid. unfold await at 1.
      change (AuthRepository.updatePassword uid (hashPassword new salt) d)
        with (updateUser uid (withPassword (hashPassword new salt)) d).
      rewrite H1. unfold await at 1.
      change (AuthRepository.updateRefreshToken uid None)
        with (updateUser uid (withRefreshToken None)).
      rewrite H2. reflexivity.
    + repeat split. intros j Hj. rewrite (H2o j Hj). now apply H1o.
Qed.

End ChangePassword.

Lemma changePassword_outcomes_witness :
  AuthService.changePassword (argon2 := PlainHash.argon2) 1
    (mkChangePasswordInput (units "Wr0ng!Pass") (units "N3w!Passw")) "pepper"
    sessionDb
  = (Rejected (HttpError "La contraseña actual es incorrecta"
                         HTTP_STATUS.UNAUTHORIZED), sessionDb)
  /\ exists d' v,
       AuthService.changePassword (argon2 := PlainHash.argon2) 1
         (mkChangePasswordInput (units "Str0ng!Pw") (units "N3w!Passw"))
         "pepper" sessionDb
       = (Fulfilled {| message := "La contraseña ha sido cambiada exitosamente" |},
          d')
       /\ userById 1 d' = Some v
       /\ User.password v = "pepper$N3w!Passw"
       /\ User.refreshToken v = None
       /\ User.passwordResetToken v = None
       /\ User.passwordResetExpires v = None
       /\ forall j, j <> 1 -> userById j d' = userById j sessionDb.
Proof.
  split.
  - apply (changePassword_outcomes (argon2 := PlainHash.argon2) sessionDb 1
             (units "Wr0ng!Pass") (units "N3w!Passw") "pepper"
             (User.mk 1 "a@x.com" "salt$Str0ng!Pw" None (Some 2) true
                      (Some sessionToken) None None));
      try discriminate; vm_compute; reflexivity.
  - apply (changePassword_outcomes (argon2 := PlainHash.argon2) sessionDb 1
             (units "Str0ng!Pw") (units "N3w!Passw") "pepper"
             (User.mk 1 "a@x.com" "salt$Str0ng!Pw" None (Some 2) true
                      (Some sessionToken) None None));
      try discriminate; vm_compute; reflexivity.
Defined.

(** ** Registration, continued *)

Section Register.
Context {jwt : JsonWebToken} {cfg : JwtConfig} {argon2 : Argon2}.

(** The row [AuthRepository.create] inserts for a registration. *)
Lemma register_success (d : Db) (e : string) (pw : jsstring)
    (name : option string) (salt : string) (now : Z)
    (resp : AuthResponse) (d' : Db) :
  AuthService.register (mkRegisterInput e pw name) salt now d
  = (Fulfilled resp, d') ->
  e <> ""
  /\ isValid (validatePasswordStrength8 pw) = true
  /\ userByEmail e d = None
  /\ view_id (auth_user resp) = nextUserId d
  /\ view_email (auth_user resp) = e
  /\ user d'
     = map (fun x => if User.id x =? nextUserId d
                     then withRefreshToken (Some (auth_refreshToken resp)) x
                     else x)
           (user d ++ [User.mk (nextUserId d) e (hashPassword pw salt) name
                               (Some 2) true None None None])
  /\ role d' = role d /\ permission d' = permission d
  /\ rolePermission d' = rolePermission d.
Proof.
  unfold AuthService.register. cbn [reg_email reg_password reg_name].
  intros H.
  destruct ((e =? "")%string || isBlank e) eqn:E0; [discriminate|].
  apply orb_false_iff in E0 as [E0 _]. apply String.eqb_neq in E0.
  destruct (isValid (validatePasswordStrength8 pw)) eqn:Hvalid;
    [|discriminate].
  cbn [negb] in H. unfold await at 1 in H.
  unfold AuthRepository.emailExists, query in H.
  destruct (userByEmail e d) as [x|] eqn:Ee; [discriminate|].
  cbn [isSome] in H. unfold await at 1 in H.
  unfold AuthRepository.create in H.
  cbn [cu_email cu_password cu_name cu_roleId AuthRepository.defaultRoleId]
    in H.
  rewrite Ee in H. cbn [isSome] in H.
  destruct (roleById 2 d) as [r2|] eqn:Er; [|discriminate].
  cbn [isSome negb] in H.
  set (u := User.mk (nextUserId d) e (hashPassword pw salt) name (Some 2)
                    true None None None) in *.
  set (d1 := mkDb (user d ++ [u]) (role d) (permission d) (rolePermission d)
                  (nextUserId d + 1) (nextRoleId d) (nextPermissionId d))
    in *.
  cbn [row includeRole] in H. unfold await at 1 in H. unfold query in H.
  assert (Hin : exists w, userById (User.id u) d1 = Some w).
  { apply (find_hit _ _ u); [|apply Z.eqb_refl].
    unfold d1. cbn [user]. apply in_or_app. right. now left. }
  destruct Hin as [w Hw].
  unfold await at 1 in H.
  unfold AuthRepository.updateRefreshToken, updateUser in H.
  rewrite Hw in H. cbn [resolve] in H.
  injection H as Hresp Hd'.
  repeat split; auto; try (rewrite <- Hresp; reflexivity);
    try (rewrite <- Hd'; reflexivity).
  rewrite <- Hd', <- Hresp. reflexivity.
Qed.

(** X9: registering an address that already belongs to a user, with a strong
    password, is rejected with status 409 and changes nothing. *)
Theorem register_duplicate_email (d : Db) (e : string) (pw : jsstring)
    (name : option string) (salt : string) (now : Z) (u : User.t) :
  userByEmail e d = Some u ->
  e <> "" -> isBlank e = false ->
  isValid (validatePasswordStrength8 pw) = true ->
  AuthService.register (mkRegisterInput e pw name) salt now d
  = (Rejected (HttpError "Ya existe un usuario con este email"
                         HTTP_STATUS.CONFLICT), d).
Proof.
  intros Hu He Hb Hvalid.
  unfold AuthService.register. cbn [reg_email reg_password reg_name].
  apply String.eqb_neq in He. rewrite He, Hb, Hvalid. cbn [orb negb].
  unfold await, AuthRepository.emailExists, query. rewrite Hu. reflexivity.
Qed.

(** X10: after a successful registration, a login with the same address and
    password succeeds whenever Argon2 verifies the password against the hash
    it produced; a login with a password it does not verify is rejected with
    the generic 401; and registering the same address again is rejected with
    status 409. *)
Theorem register_then_login (d : Db) (e : string) (pw : jsstring)
    (name : option string) (salt : string) (now now' : Z)
    (resp : AuthResponse) (d' : Db) :
  AuthService.register (mkRegisterInput e pw name) salt now d
  = (Fulfilled resp, d') ->
  argon2_verify (argon2_hash pw salt) pw = Some true ->
  (exists resp' d'',
      AuthService.login (mkLoginInput e pw) now' d' = (Fulfilled resp', d'')
      /\ view_id (auth_user resp') = view_id (auth_user resp)
      /\ view_email (auth_user resp') = e)
  /\ (forall pw', pw' <> [] ->
        comparePassword pw' (hashPassword pw salt) = false ->
        AuthService.login (mkLoginInput e pw') now' d'
        = (Rejected (HttpError "Email o contraseña inválidos"
                               HTTP_STATUS.UNAUTHORIZED), d'))
  /\ (forall pw2 name2 salt2,
        isBlank e = false ->
        isValid (validatePasswordStrength8 pw2) = true ->
        AuthService.register (mkRegisterInput e pw2 name2) salt2 now' d'
        = (Rejected (HttpError "Ya existe un usuario con este email"
                               HTTP_STATUS.CONFLICT), d')).
Proof.
  intros H Hverify.
  destruct (register_success _ _ _ _ _ _ _ _ H)
    as [He [Hvalid [Hnew [Hid [_ [Husers _]]]]]].
  set (u := User.mk (nextUserId d) e (hashPassword pw salt) name (Some 2)
                    true None None None) in *.
  assert (Hu' : userByEmail e d'
                = Some (withRefreshToken (Some (auth_refreshToken resp)) u)).
  { unfold userByEmail. rewrite Husers.
    rewrite (find_map_stable
               (fun x => (User.email x =? e)%string)
               (fun x => if User.id x =? nextUserId d
                         then withRefreshToken
                                (Some (auth_refreshToken resp)) x
                         else x)).
    - rewrite find_app. fold (userByEmail e d). rewrite Hnew.
      cbn [find u User.email]. rewrite String.eqb_refl.
      cbn [option_map User.id]. now rewrite Z.eqb_refl.
    - intros x. destruct (User.id x =? nextUserId d); reflexivity. }
  split; [|split].
  - unfold AuthService.login. cbn [login_email login_password].
    apply String.eqb_neq in He. rewrite He.
    rewrite (valid_password_not_empty _ Hvalid). cbn [orb].
    unfold await at 1.
    unfold AuthRepository.findByEmailWithPassword, query. rewrite Hu'.
    cbn [option_map row includeRole withRefreshToken User.isActive
         User.password u negb].
    unfold comparePassword, hashPassword. rewrite Hverify. cbn [negb].
    destruct (userByEmail_has_id _ _ _ Hu') as [w Hw].
    unfold await, AuthRepository.updateRefreshToken, updateUser.
    cbn [User.id withRefreshToken] in *. cbn [User.id u] in *.
    rewrite Hw. do 2 eexists. split; [reflexivity|].
    cbn [auth_user view_id view_email User.email User.id].
    split; [now rewrite Hid | reflexivity].
  - intros pw' Hne Hcmp.
    unfold AuthService.login. cbn [login_email login_password].
    apply String.eqb_neq in He. rewrite He.
    destruct pw' as [|c pw']; [contradiction|]. cbn [length Nat.eqb orb].
    unfold await, AuthRepository.findByEmailWithPassword, query. rewrite Hu'.
    cbn [option_map row includeRole withRefreshToken User.isActive
         User.password u negb].
    rewrite Hcmp. reflexivity.
  - intros pw2 name2 salt2 Hb Hv2.
    now apply (register_duplicate_email d' e pw2 name2 salt2 now' _ Hu').
Qed.

End Register.

Lemma register_duplicate_email_witness :
  AuthService.register (jwt := PlainCodec.jwt) (cfg := defaultJwtConfig)
    (argon2 := PlainHash.argon2)
    (mkRegisterInput "a@x.com" (units "An0ther!Pw") None) "pepper"
    (openedAt + 5000) sessionDb
  = (Rejected (HttpError "Ya existe un usuario con este email"
                         HTTP_STATUS.CONFLICT), sessionDb).
Proof.
  apply (register_duplicate_email (jwt := PlainCodec.jwt)
           (cfg := defaultJwtConfig) (argon2 := PlainHash.argon2)
           sessionDb "a@x.com" (units "An0ther!Pw") None "pepper"
           (openedAt + 5000)
           (User.mk 1 "a@x.com" "salt$Str0ng!Pw" None (Some 2) true
                    (Some sessionToken) None None));
    try discriminate; vm_compute; reflexivity.
Defined.

Lemma register_then_login_witness :
  exists resp' d'',
    AuthService.login (jwt := PlainCodec.jwt) (cfg := defaultJwtConfig)
      (argon2 := PlainHash.argon2)
      (mkLoginInput "a@x.com" (units "Str0ng!Pw")) (openedAt + 5000)
      sessionDb
    = (Fulfilled resp', d'')
    /\ view_id (auth_user resp') = 1
    /\ view_email (auth_user resp') = "a@x.com".
Proof.
  destruct (register_then_login (jwt := PlainCodec.jwt)
              (cfg := defaultJwtConfig) (argon2 := PlainHash.argon2)
              seededDb "a@x.com" (units "Str0ng!Pw") None "salt" openedAt
              (openedAt + 5000)
              {| auth_user := mkUserView 1 "a@x.com" None "user";
                 auth_accessToken := "1.1700000000.1700000900.4.usera@x.com";
                 auth_refreshToken := sessionToken |}
              sessionDb) as [Hlogin _].
  - vm_compute. reflexivity.
  - vm_compute. reflexivity.
  - exact Hlogin.
Defined.

(** ** Permission guards *)

Lemma checks_some_true (R : string -> bool -> Prop) (ps : list string)
    (bs : list bool) :
  (forall p b b', R p b -> R p b' -> b = b') ->
  Forall2 R ps bs ->
  (existsb (fun b => b) bs = true <-> exists p, In p ps /\ R p true)
  /\ (forallb (fun b => b) bs = true <-> forall p, In p ps -> R p true).
Proof.
  intros Hfun Hall. induction Hall as [|p b ps bs Hpb Hall [IHe IHa]].
  - split; split; try discriminate; try reflexivity.
    + intros [p [[] _]].
    + intros _ p [].
  - cbn [existsb forallb]. split; split.
    + intros H. apply orb_true_iff in H as [-> | H].
      * exists p. split; [now left | exact Hpb].
      * apply IHe in H as [q [Hq Hr]]. exists q. split; [now right | exact Hr].
    + intros [q [[<- | Hq] Hr]].
      * rewrite (Hfun _ _ _ Hpb Hr). reflexivity.
      * apply orb_true_iff. right. apply IHe. now exists q.
    + intros H. apply andb_true_iff in H as [-> H].
      intros q [<- | Hq]; [exact Hpb | now apply IHa].
    + intros H. apply andb_true_iff. split.
      * apply (Hfun p b true Hpb). apply H. now left.
      * apply IHa. intros q Hq. apply H. now right.
Qed.

(** X11: a permission guard lets a request through exactly when the request
    carries a user with a non-zero id and the check succeeds: the single
    check for [requirePermission], at least one of the listed names for
    [requireAnyPermission], every listed name for [requireAllPermissions]. *)
Theorem guards_decide (d : Db) (reqUser : option RequestUser) (p : string)
    (ps : list string) :
  let granted u q :=
    RoleService.userHasPermission (ru_id u) q d = (Fulfilled true, d) in
  (requirePermission p reqUser d = (Fulfilled Next, d)
   <-> exists u, identified reqUser = Some u /\ granted u p)
  /\ (requireAnyPermission ps reqUser d = (Fulfilled Next, d)
      <-> exists u, identified reqUser = Some u
                    /\ exists q, In q ps /\ granted u q)
  /\ (requireAllPermissions ps reqUser d = (Fulfilled Next, d)
      <-> exists u, identified reqUser = Some u
                    /\ forall q, In q ps -> granted u q).
Proof.
  intros granted.
  unfold requirePermission, requireAnyPermission, requireAllPermissions,
    tryCatch.
  destruct (identified reqUser) as [u|] eqn:Eu.
  2:{ repeat split; try discriminate; intros [u [Hu _]]; discriminate. }
  split; [|split].
  - unfold await. destruct (userHasPermission_total (ru_id u) p d) as [b Hb].
    rewrite Hb. destruct b; cbn [negb resolve]; split.
    + intros _. exists u. now split.
    + reflexivity.
    + discriminate.
    + intros [v [[= <-] Hv]]. unfold granted in Hv. congruence.
  - destruct (any_all_are_or_and (ru_id u) ps d) as [bs [Hall [Hany _]]].
    destruct (checks_some_true
                (fun q b => RoleService.userHasPermission (ru_id u) q d
                            = (Fulfilled b, d)) ps bs) as [Hsome _];
      [congruence | exact Hall |].
    unfold await. rewrite Hany.
    destruct (existsb (fun b => b) bs); cbn [negb resolve]; split.
    + intros _. exists u. split; [reflexivity|]. now apply Hsome.
    + reflexivity.
    + discriminate.
    + intros [v [[= <-] Hv]]. apply Hsome in Hv. discriminate.
  - destruct (any_all_are_or_and (ru_id u) ps d) as [bs [Hall [_ Hevery]]].
    destruct (checks_some_true
                (fun q b => RoleService.userHasPermission (ru_id u) q d
                            = (Fulfilled b, d)) ps bs) as [_ Hforall];
      [congruence | exact Hall |].
    unfold await. rewrite Hevery.
    destruct (forallb (fun b => b) bs); cbn [negb resolve]; split.
    + intros _. exists u. split; [reflexivity|]. now apply Hforall.
    + reflexivity.
    + discriminate.
    + intros [v [[= <-] Hv]]. apply Hforall in Hv. discriminate.
Qed.

(** X12: with an empty list of names, [requireAnyPermission] answers 403 to
    every identified user, and [requireAllPermissions] lets every identified
    user through. *)
Theorem guards_on_empty_list (d : Db) (reqUser : option RequestUser)
    (u : RequestUser) :
  identified reqUser = Some u ->
  requireAnyPermission [] reqUser d
  = (Fulfilled (Json HTTP_STATUS.FORBIDDEN HTTP_MESSAGES.FORBIDDEN
                     "One of these permissions required: "), d)
  /\ requireAllPermissions [] reqUser d = (Fulfilled Next, d).
Proof.
  intros Hu. unfold requireAnyPermission, requireAllPermissions, tryCatch.
  rewrite Hu. split; reflexivity.
Qed.

Lemma guards_on_empty_list_witness :
  requireAnyPermission []
    (Some (mkRequestUser 1 "admin@example.com" (Some "admin") (Some 1)))
    adminScenarioDb
  = (Fulfilled (Json HTTP_STATUS.FORBIDDEN HTTP_MESSAGES.FORBIDDEN
                     "One of these permissions required: "), adminScenarioDb)
  /\ requireAllPermissions []
       (Some (mkRequestUser 1 "admin@example.com" (Some "admin") (Some 1)))
       adminScenarioDb
     = (Fulfilled Next, adminScenarioDb).
Proof.
  apply (guards_on_empty_list adminScenarioDb _
           (mkRequestUser 1 "admin@example.com" (Some "admin") (Some 1))).
  reflexivity.
Defined.

(** ** The authentication middleware *)

Lemma substring_all (s : string) : substring 0 (String.length s) s = s.
Proof. induction s as [|c s IH]; simpl; [reflexivity | now rewrite IH]. Qed.

Lemma bearerToken_of_header (token : string) :
  bearerToken (Some ("Bearer " ++ token)) = Some token.
Proof.
  unfold bearerToken. cbn.
  replace (prefix "" token) with true by (destruct token; reflexivity).
  cbn [negb]. now rewrite Nat.sub_0_r, substring_all.
Qed.

Section Authenticate.
Context {jwt : JsonWebToken} {cfg : JwtConfig} {argon2 : Argon2}
        {texts : LibraryTexts}.

Lemma verifyToken_ok_iff (token : string) (now : Z) (payload : JwtPayload) :
  verifyToken token now = inr payload
  <-> jwt_decode token = Some payload /\ unexpired payload now.
Proof.
  unfold verifyToken, jwt_verify, unexpired.
  destruct (jwt_decode token) as [q|]; [|split; [discriminate | intros [[=] _]]].
  destruct (exp q) as [e|] eqn:Ee.
  - destruct (e <=? seconds now) eqn:El; cbn.
    + apply Z.leb_le in El. split; [discriminate|].
      intros [[= <-] H]. specialize (H e Ee). lia.
    + apply Z.leb_gt in El. split.
      * intros [= <-]. split; [reflexivity|]. intros e' He'.
        rewrite Ee in He'. injection He' as <-. exact El.
      * now intros [[= <-] _].
  - split.
    + intros [= <-]. split; [reflexivity|]. intros e' He'. congruence.
    + now intros [[= <-] _].
Qed.

(** X13: [authenticate] lets a request through exactly when its header is
    [Bearer] followed by a token that decodes, is not expired, and names a
    user who exists in the database now and is active; the identity it
    attaches is read from that row. It never changes the database. *)
Theorem authenticate_passes_iff (d : Db) (authorization : option string)
    (now : Z) (ru : RequestUser) :
  (forall g d', authenticate authorization now d = (g, d') -> d' = d)
  /\ (authenticate authorization now d = (Fulfilled (Pass ru), d)
      <-> exists token payload u,
            bearerToken authorization = Some token
            /\ jwt_decode token = Some payload
            /\ unexpired payload now
            /\ userById (Claims.userId (claims payload)) d = Some u
            /\ User.isActive u = true
            /\ ru = attached (includeRole d u) payload).
Proof.
  unfold authenticate, tryCatch.
  destruct (bearerToken authorization) as [token|] eqn:Eb.
  2:{ split.
      - intros g d' [= _ <-]. reflexivity.
      - split; [discriminate|]. intros [t [p [u [H _]]]]. discriminate. }
  destruct (verifyToken token now) as [e|payload] eqn:Ev.
  { split.
    - intros g d' [= _ <-]. reflexivity.
    - split; [discriminate|].
      intros [t [p [u [[= <-] [Hd [Hu _]]]]]].
      assert (Hok : verifyToken token now = inr p)
        by (apply verifyToken_ok_iff; now split).
      congruence. }
  apply verifyToken_ok_iff in Ev as [Hdec Hfresh].
  unfold await, query.
  destruct (userById (Claims.userId (claims payload)) d) as [u|] eqn:Eu;
    cbn [option_map].
  2:{ split.
      - intros g d' [= _ <-]. reflexivity.
      - split; [discriminate|].
        intros [t [p [u [[= <-] [Hd [_ [Hu _]]]]]]]. congruence. }
  cbn [row includeRole].
  destruct (User.isActive u) eqn:Ea; cbn [negb resolve].
  - split.
    + intros g d' [= _ <-]. reflexivity.
    + split.
      * intros [= <-]. exists token, payload, u. repeat split; auto.
      * intros [t [p [v [[= <-] [Hd [_ [Hv [_ ->]]]]]]]].
        rewrite Hdec in Hd. injection Hd as <-.
        rewrite Eu in Hv. injection Hv as <-. reflexivity.
  - split.
    + intros g d' [= _ <-]. reflexivity.
    + split; [discriminate|].
      intros [t [p [v [[= <-] [Hd [_ [Hv [Hact _]]]]]]]].
      rewrite Hdec in Hd. injection Hd as <-.
      rewrite Eu in Hv. injection Hv as <-. congruence.
Qed.

(** X14: the role [authenticate] attaches is the name of the role the user
    has in the database now, not the role claim of the token: when the user's
    role has a non-empty name, [requireRole n] after [authenticate] lets the
    request through exactly when that name is [n]. *)
Theorem authenticate_then_requireRole (d : Db)
    (authorization : option string) (now : Z) (ru : RequestUser)
    (u : User.t) (r : Role.t) (n : string) :
  authenticate authorization now d = (Fulfilled (Pass ru), d) ->
  userById (ru_id ru) d = Some u ->
  itsRole (includeRole d u) = Some r ->
  Role.name r <> "" ->
  ru_role ru = Some (Role.name r)
  /\ (requireRole n (Some ru) d = (Fulfilled Next, d) <-> Role.name r = n).
Proof.
  intros Hpass Hu Hr Hname.
  apply authenticate_passes_iff in Hpass
    as [token [payload [v [_ [_ [_ [Hv [_ Hru]]]]]]]].
  assert (Hsame : v = u).
  { pose proof (userById_id _ _ _ Hv) as Hid.
    rewrite Hru in Hu. cbn [attached ru_id row includeRole] in Hu.
    rewrite Hid, Hv in Hu. now injection Hu. }
  subst v.
  assert (Hrole : ru_role ru = Some (Role.name r)).
  { rewrite Hru. cbn [attached ru_role]. rewrite Hr. unfold roleOr.
    apply String.eqb_neq in Hname. now rewrite Hname. }
  split; [exact Hrole|].
  unfold requireRole, tryCatch. rewrite Hrole.
  apply String.eqb_neq in Hname. rewrite Hname.
  destruct (Role.name r =? n)%string eqn:E; cbn [negb resolve].
  - apply String.eqb_eq in E. split; [intros _; exact E | reflexivity].
  - apply String.eqb_neq in E. split; [discriminate | contradiction].
Qed.

(** X15: [optionalAuthenticate] attaches a user exactly when [authenticate]
    would let the request through, and then the same user; in every other
    case it continues without a user. It never changes the database. *)
Theorem optionalAuthenticate_agrees (d : Db) (authorization : option string)
    (now : Z) :
  optionalAuthenticate authorization now d
  = (Fulfilled match fst (authenticate authorization now d) with
               | Fulfilled (Pass u) => Some u
               | _ => None
               end, d).
Proof.
  unfold optionalAuthenticate, authenticate, tryCatch.
  destruct (bearerToken authorization) as [token|]; [|reflexivity].
  destruct (verifyToken token now) as [e|payload]; [reflexivity|].
  unfold await, query.
  destruct (userById (Claims.userId (claims payload)) d) as [u|];
    cbn [option_map]; [|reflexivity].
  cbn [row includeRole]. destruct (User.isActive u); reflexivity.
Qed.

(** X16: the access token a successful login returns authenticates as that
    user until its expiry second, when the token package reads it back. *)
Theorem login_then_authenticate (d : Db) (e : string) (p : jsstring)
    (now now' : Z) (resp : AuthResponse) (d' : Db) :
  userIdsUnique d ->
  AuthService.login (mkLoginInput e p) now d = (Fulfilled resp, d') ->
  jwt_decode (auth_accessToken resp)
  = Some (mkJwtPayload
            (Claims.mk (view_id (auth_user resp)) (view_email (auth_user resp))
                       (Some (view_role (auth_user resp))))
            (Some (seconds now))
            (Some (seconds now + ACCESS_TOKEN_EXPIRES_IN))) ->
  seconds now' < seconds now + ACCESS_TOKEN_EXPIRES_IN ->
  exists ru,
    authenticate (Some ("Bearer " ++ auth_accessToken resp)) now' d'
    = (Fulfilled (Pass ru), d')
    /\ ru_id ru = view_id (auth_user resp)
    /\ ru_email ru = e.
Proof.
  intros Huniq H Hdec Hfresh.
  destruct (login_success _ _ _ _ _ _ H) as [u [Hu [Hact [_ [Hresp Hd']]]]].
  assert (Hid : view_id (auth_user resp) = User.id u) by now rewrite Hresp.
  pose proof (userByEmail_row_of_id _ _ _ Huniq Hu) as Hrow.
  assert (Hu' : userById (User.id u) d'
                = Some (withRefreshToken (Some (auth_refreshToken resp)) u)).
  { rewrite Hd'. unfold userById. cbn [user].
    rewrite (find_map_key User.id).
    - fold (userById (User.id u) d). rewrite Hrow. cbn [option_map].
      now rewrite Z.eqb_refl.
    - intros x. destruct (User.id x =? User.id u); reflexivity. }
  eexists. split.
  - apply authenticate_passes_iff.
    exists (auth_accessToken resp). eexists. eexists.
    split; [apply bearerToken_of_header|].
    split; [exact Hdec|]. split.
    + intros x [= <-]. exact Hfresh.
    + cbn [claims Claims.userId]. rewrite Hid.
      split; [exact Hu'|]. split; [exact Hact | reflexivity].
  - cbn [attached ru_id ru_email row includeRole withRefreshToken User.id
         User.email].
    split; [now rewrite Hid | now apply userByEmail_email in Hu].
Qed.

End Authenticate.

Lemma authenticate_then_requireRole_witness :
  let header := Some ("Bearer " ++ "1.1700000000.1700000900.4.usera@x.com") in
  let ru := mkRequestUser 1 "a@x.com" (Some "admin") (Some 1) in
  ru_role ru = Some "admin"
  /\ (requireRole "admin" (Some ru) promotedDb = (Fulfilled Next, promotedDb)
      <-> "admin" = "admin").
Proof.
  intros header ru.
  apply (authenticate_then_requireRole (jwt := PlainCodec.jwt)
           (texts := plainTexts) promotedDb header (openedAt + 5000) ru
           (User.mk 1 "a@x.com" "salt$Str0ng!Pw" None (Some 1) true
                    (Some sessionToken) None None)
           (Role.mk 1 "admin" (Some "Administrator role with full access")
                    true)
           "admin").
  - vm_compute. reflexivity.
  - vm_compute. reflexivity.
  - vm_compute. reflexivity.
  - discriminate.
Defined.

Lemma login_then_authenticate_witness :
  let logged :=
    AuthService.login (jwt := PlainCodec.jwt) (cfg := defaultJwtConfig)
      (argon2 := PlainHash.argon2)
      (mkLoginInput "a@x.com" (units "Str0ng!Pw")) (openedAt + 5000)
      sessionDb in
  exists ru,
    authenticate (jwt := PlainCodec.jwt) (texts := plainTexts)
      (Some ("Bearer " ++ "1.1700000005.1700000905.4.usera@x.com"))
      (openedAt + 9000) (snd logged)
    = (Fulfilled (Pass ru), snd logged)
    /\ ru_id ru = 1
    /\ ru_email ru = "a@x.com".
Proof.
  intros logged.
  apply (login_then_authenticate (jwt := PlainCodec.jwt)
           (cfg := defaultJwtConfig) (argon2 := PlainHash.argon2)
           (texts := plainTexts)
           sessionDb "a@x.com" (units "Str0ng!Pw") (openedAt + 5000)
           (openedAt + 9000)
           {| auth_user := mkUserView 1 "a@x.com" None "user";
              auth_accessToken := "1.1700000005.1700000905.4.usera@x.com";
              auth_refreshToken := "1.1700000005.1700604805.4.usera@x.com" |}
           (snd logged)).
  - exact sessionDb_ids_unique.
  - vm_compute. reflexivity.
  - vm_compute. reflexivity.
  - vm_compute. reflexivity.
Defined.

(** ** Roles *)

(** X17: the name of a soft-deleted role stays taken: after [deleteRole] on a
    role other than "admin" and "user", [createRole] with that role's name is
    rejected with status 409 and changes nothing. *)
Theorem deleted_role_name_stays_taken (d : Db) (id : Z) (r : Role.t)
    (data : CreateRoleInput) :
  roleById id d = Some r ->
  Role.name r <> ROLE_NAMES.ADMIN -> Role.name r <> ROLE_NAMES.USER ->
  cr_name data = Role.name r ->
  exists d',
    RoleService.deleteRole id d = (Fulfilled (deactivated r), d')
    /\ RoleService.createRole data d'
       = (Rejected (HttpError "Role with this name already exists"
                              HTTP_STATUS.CONFLICT), d').
Proof.
  intros Hr Ha Hu Hname.
  exists (rolesUpdated id deactivated d). split.
  - apply deleteRole_run; [exact Hr | now apply not_system_role].
  - unfold RoleService.createRole, await, RoleRepository.findByName, query.
    assert (Hfound : exists x,
               roleByName (cr_name data) (rolesUpdated id deactivated d)
               = Some x).
    { unfold roleByName, rolesUpdated. cbn [role].
      rewrite (find_map_stable
                 (fun x => (Role.name x =? cr_name data)%string)).
      - apply find_some in Hr as [Hin _].
        destruct (find_hit (fun x => (Role.name x =? cr_name data)%string)
                    (role d) r Hin) as [y Hy].
        + rewrite Hname. apply String.eqb_refl.
        + rewrite Hy. eexists. reflexivity.
      - intros x. destruct (Role.id x =? id); reflexivity. }
    destruct Hfound as [x Hx]. rewrite Hx. reflexivity.
Qed.

Lemma deleted_role_name_stays_taken_witness :
  exists d',
    RoleService.deleteRole 2 misnumberedDb
    = (Fulfilled (deactivated (Role.mk 2 "editor" None true)), d')
    /\ RoleService.createRole (mkCreateRoleInput "editor" None None) d'
       = (Rejected (HttpError "Role with this name already exists"
                              HTTP_STATUS.CONFLICT), d').
Proof.
  apply (deleted_role_name_stays_taken misnumberedDb 2
           (Role.mk 2 "editor" None true)
           (mkCreateRoleInput "editor" None None));
    try discriminate; vm_compute; reflexivity.
Defined.

Lemma In_insertBy {A} (key : A -> string) (x a : A) (l : list A) :
  In x (insertBy key a l) <-> x = a \/ In x l.
Proof.
  induction l as [|y l IH]; cbn [insertBy].
  - cbn. intuition.
  - destruct (String.leb (key a) (key y)); cbn [In]; [intuition|].
    rewrite IH. intuition.
Qed.

Lemma In_orderBy {A} (key : A -> string) (x : A) (l : list A) :
  In x (orderBy key l) <-> In x l.
Proof.
  unfold orderBy. induction l as [|a l IH]; cbn [fold_right]; [reflexivity|].
  rewrite In_insertBy, IH. cbn [In]. intuition.
Qed.

(** X18: after [deleteRole] on a role other than "admin" and "user",
    [getAllRoles] lists exactly the roles it listed before except the deleted
    one, while [getRoleById] still returns the deleted role, now inactive. *)
Theorem deleted_role_hidden_from_listing (d : Db) (id : Z) (r : Role.t) :
  roleById id d = Some r ->
  Role.name r <> ROLE_NAMES.ADMIN -> Role.name r <> ROLE_NAMES.USER ->
  exists d' before after,
    RoleService.deleteRole id d = (Fulfilled (deactivated r), d')
    /\ RoleService.getAllRoles d = (Fulfilled before, d)
    /\ RoleService.getAllRoles d' = (Fulfilled after, d')
    /\ (forall x, In x after <-> In x before /\ Role.id x <> id)
    /\ RoleService.getRoleById id d' = (Fulfilled (deactivated r), d').
Proof.
  intros Hr Ha Hu.
  exists (rolesUpdated id deactivated d). do 2 eexists.
  split; [apply deleteRole_run; [exact Hr | now apply not_system_role]|].
  split; [reflexivity|]. split; [reflexivity|]. split.
  - intros x. rewrite !In_orderBy, !filter_In.
    unfold rolesUpdated. cbn [role]. rewrite in_map_iff. split.
    + intros [[y [Hy Hin]] Hact].
      destruct (Role.id y =? id) eqn:E.
      * subst x. discriminate.
      * subst x. apply Z.eqb_neq in E. repeat split; auto.
    + intros [[Hin Hact] Hid]. split; [|exact Hact].
      exists x. split; [|exact Hin].
      apply Z.eqb_neq in Hid. now rewrite Hid.
  - unfold RoleService.getRoleById, await, RoleRepository.findById, query.
    unfold roleById at 1, rolesUpdated. cbn [role].
    rewrite roleById_after_delete, Hr. cbn [option_map].
    apply roleById_id in Hr. now rewrite Hr, Z.eqb_refl.
Qed.

Lemma deleted_role_hidden_from_listing_witness :
  exists d' before after,
    RoleService.deleteRole 2 misnumberedDb
    = (Fulfilled (deactivated (Role.mk 2 "editor" None true)), d')
    /\ RoleService.getAllRoles misnumberedDb = (Fulfilled before, misnumberedDb)
    /\ RoleService.getAllRoles d' = (Fulfilled after, d')
    /\ (forall x, In x after <-> In x before /\ Role.id x <> 2)
    /\ RoleService.getRoleById 2 d'
       = (Fulfilled (deactivated (Role.mk 2 "editor" None true)), d').
Proof.
  apply (deleted_role_hidden_from_listing misnumberedDb 2
           (Role.mk 2 "editor" None true));
    try discriminate; vm_compute; reflexivity.
Defined.

(** X19: the guard on system roles is in [deleteRole] only. [updateRole] with
    [isActive: false] and nothing else succeeds on every existing role,
    "admin" and "user" included, and leaves exactly the database a soft
    delete of that role leaves. *)
Theorem updateRole_deactivates_any_role (d : Db) (id : Z) (r : Role.t) :
  roleById id d = Some r ->
  RoleService.updateRole id (mkUpdateRoleInput None None (Some false) None) d
  = (Fulfilled (deactivated r), rolesUpdated id deactivated d)
  /\ RoleRepository.delete id d
     = (Fulfilled (deactivated r), rolesUpdated id deactivated d).
Proof.
  intros Hr. split.
  - unfold RoleService.updateRole, RoleService.getRoleById,
      RoleRepository.findById, RoleRepository.update, await, query.
    cbn [ur_name ur_permissionIds ur_isActive ur_description resolve
         RoleRepository.roleNameTaken].
    rewrite Hr. cbn [resolve isSome andb]. rewrite Hr. cbn [isSome andb].
    unfold updateRoleRow. rewrite Hr. reflexivity.
  - unfold RoleRepository.delete. now apply updateRoleRow_found.
Qed.

Lemma updateRole_deactivates_any_role_witness :
  RoleService.updateRole 1 (mkUpdateRoleInput None None (Some false) None)
    seededDb
  = (Fulfilled
       (deactivated
          (Role.mk 1 "admin" (Some "Administrator role with full access")
                   true)),
     rolesUpdated 1 deactivated seededDb)
  /\ RoleRepository.delete 1 seededDb
     = (Fulfilled
          (deactivated
             (Role.mk 1 "admin" (Some "Administrator role with full access")
                      true)),
        rolesUpdated 1 deactivated seededDb).
Proof.
  apply (updateRole_deactivates_any_role seededDb 1
           (Role.mk 1 "admin" (Some "Administrator role with full access")
                    true)).
  vm_compute. reflexivity.
Defined.

(** ** Replacing the permissions of a role *)

Lemma filter_filter_implied {A} (f g : A -> bool) (l : list A) :
  (forall x, f x = true -> g x = true) ->
  filter f (filter g l) = filter f l.
Proof.
  intros H. induction l as [|a l IH]; cbn [filter]; [reflexivity|].
  destruct (g a) eqn:Eg; cbn [filter].
  - destruct (f a); [now rewrite IH | exact IH].
  - destruct (f a) eqn:Ef; [|exact IH].
    rewrite (H a Ef) in Eg. discriminate.
Qed.

Lemma filter_none {A} (f : A -> bool) (l : list A) :
  (forall x, In x l -> f x = false) -> filter f l = [].
Proof.
  induction l as [|a l IH]; intros H; cbn [filter]; [reflexivity|].
  rewrite (H a (or_introl eq_refl)). apply IH. intros x Hx. apply H.
  now right.
Qed.

Lemma filter_all {A} (f : A -> bool) (l : list A) :
  (forall x, In x l -> f x = true) -> filter f l = l.
Proof.
  induction l as [|a l IH]; intros H; cbn [filter]; [reflexivity|].
  rewrite (H a (or_introl eq_refl)). f_equal. apply IH. intros x Hx.
  apply H. now right.
Qed.

Lemma joinRowsOf_after_delete (id j : Z) (d : Db) :
  joinRowsOf j (joinRowsDeleted id d)
  = if j =? id then [] else joinRowsOf j d.
Proof.
  unfold joinRowsOf, joinRowsDeleted. cbn [rolePermission].
  destruct (j =? id) eqn:E.
  - apply Z.eqb_eq in E. subst j. apply filter_none. intros x Hx.
    apply filter_In in Hx as [_ Hx].
    now destruct (RolePermission.roleId x =? id).
  - apply filter_filter_implied. intros x Hx.
    apply Z.eqb_eq in Hx. rewrite Hx, E. reflexivity.
Qed.

Lemma no_join_row_after_delete (id p : Z) (d : Db) :
  hasJoinRow id p (joinRowsDeleted id d) = false.
Proof.
  unfold hasJoinRow, joinRowsDeleted. cbn [rolePermission].
  destruct (existsb _ _) eqn:E; [|reflexivity].
  apply existsb_exists in E as [x [Hx Hrow]].
  apply filter_In in Hx as [_ Hx].
  apply andb_true_iff in Hrow as [Hrow _]. rewrite Hrow in Hx. discriminate.
Qed.

Lemma grantedNames_no_rows (id : Z) (d : Db) :
  joinRowsOf id d = [] -> grantedNames id d = [].
Proof.
  unfold joinRowsOf, grantedNames.
  induction (rolePermission d) as [|rp l IH]; cbn [filter flat_map];
    [reflexivity|].
  destruct (RolePermission.roleId rp =? id); [discriminate|].
  intros H. cbn [app]. now apply IH.
Qed.

(** What the service does before it reaches the repository, when only the
    permission ids are given. *)
Lemma updateRole_permissions_only (d : Db) (id : Z) (r : Role.t)
    (pids : list Z) :
  roleById id d = Some r ->
  RoleService.updateRole id (mkUpdateRoleInput None None None (Some pids)) d
  = RoleRepository.update id (mkUpdateRoleInput None None None (Some pids)) d.
Proof.
  intros Hr.
  unfold RoleService.updateRole, RoleService.getRoleById,
    RoleRepository.findById, await, query.
  rewrite Hr. reflexivity.
Qed.

(** X20: [updateRole] with a list of permission ids that all exist and are
    distinct replaces the role's permission set wholesale: afterwards the
    join rows of the role are exactly one row per listed id, in the order of
    the list (none for the empty list), and the join rows of every other role,
    the permissions and the users are unchanged. *)
Theorem updateRole_replaces_permissions (d : Db) (id : Z) (r : Role.t)
    (pids : list Z) :
  roleById id d = Some r ->
  forallb (fun p => isSome (permissionById p d)) pids = true ->
  distinct pids = true ->
  exists r' d',
    RoleService.updateRole id (mkUpdateRoleInput None None None (Some pids)) d
    = (Fulfilled r', d')
    /\ joinRowsOf id d' = map (RolePermission.mk id) pids
    /\ (forall j, j <> id -> joinRowsOf j d' = joinRowsOf j d)
    /\ permission d' = permission d
    /\ user d' = user d.
Proof.
  intros Hr Hall Hdist.
  rewrite (updateRole_permissions_only d id r pids Hr).
  unfold RoleRepository.update.
  cbn [ur_name ur_permissionIds ur_isActive ur_description
       RoleRepository.roleNameTaken].
  change (deleteJoinRows id) with (execute (joinRowsDeleted id)).
  destruct (0 <? length pids)%nat eqn:Elen.
  - unfold await at 1. unfold await at 1. unfold execute.
    unfold createJoinRows.
    change (roleById id (joinRowsDeleted id d)) with (roleById id d).
    rewrite Hr.
    change (forallb (fun p => isSome (permissionById p (joinRowsDeleted id d)))
                    pids)
      with (forallb (fun p => isSome (permissionById p d)) pids).
    rewrite Hall, Hdist. cbn [isSome negb orb].
    replace (existsb (fun p => hasJoinRow id p (joinRowsDeleted id d)) pids)
      with false.
    2:{ symmetry. destruct (existsb _ pids) eqn:E; [|reflexivity].
        apply existsb_exists in E as [p [_ Hp]].
        now rewrite no_join_row_after_delete in Hp. }
    unfold await, query.
    set (d2 := mkDb _ _ _ _ _ _ _).
    change (RoleRepository.roleNameTaken id None d2) with false.
    rewrite andb_false_r. unfold updateRoleRow.
    change (roleById id d2) with (roleById id d). rewrite Hr.
    do 2 eexists. split; [reflexivity|].
    subst d2. cbn [permission user]. repeat split.
    + unfold joinRowsOf. cbn [rolePermission]. rewrite filter_app.
      fold (joinRowsOf id (joinRowsDeleted id d)).
      rewrite joinRowsOf_after_delete, Z.eqb_refl. cbn [app].
      apply filter_all. intros x Hx. apply in_map_iff in Hx as [p [<- _]].
      apply Z.eqb_refl.
    + intros j Hj. unfold joinRowsOf at 1. cbn [rolePermission].
      rewrite filter_app. fold (joinRowsOf j (joinRowsDeleted id d)).
      rewrite joinRowsOf_after_delete.
      apply Z.eqb_neq in Hj. rewrite Hj.
      rewrite filter_none; [apply app_nil_r|].
      intros x Hx. apply in_map_iff in Hx as [p [<- _]].
      cbn [RolePermission.roleId]. rewrite Z.eqb_sym. exact Hj.
  - unfold await at 1. unfold await at 1. unfold execute. cbn [resolve].
    unfold await, query.
    change (RoleRepository.roleNameTaken id None (joinRowsDeleted id d))
      with false.
    rewrite andb_false_r. unfold updateRoleRow.
    change (roleById id (joinRowsDeleted id d)) with (roleById id d).
    rewrite Hr. do 2 eexists. split; [reflexivity|].
    cbn [permission user]. repeat split.
    + destruct pids as [|p pids]; [|discriminate].
      unfold joinRowsOf. cbn [rolePermission map].
      fold (joinRowsOf id (joinRowsDeleted id d)).
      now rewrite joinRowsOf_after_delete, Z.eqb_refl.
    + intros j Hj. unfold joinRowsOf at 1. cbn [rolePermission].
      fold (joinRowsOf j (joinRowsDeleted id d)).
      rewrite joinRowsOf_after_delete.
      apply Z.eqb_neq in Hj. now rewrite Hj.
Qed.

(** X21: the replacement is not atomic. When the list holds an id of no
    permission, [updateRole] is rejected by the foreign key (P2003), but the
    old join rows of the role are already deleted: the role is left granting
    nothing. *)
Theorem updateRole_failure_drops_permissions (d : Db) (id : Z) (r : Role.t)
    (pids : list Z) :
  roleById id d = Some r ->
  forallb (fun p => isSome (permissionById p d)) pids = false ->
  RoleService.updateRole id (mkUpdateRoleInput None None None (Some pids)) d
  = (Rejected (PrismaError PRISMA_ERROR_CODES.FOREIGN_KEY_CONSTRAINT),
     joinRowsDeleted id d)
  /\ joinRowsOf id (joinRowsDeleted id d) = []
  /\ grantedNames id (joinRowsDeleted id d) = []
  /\ role (joinRowsDeleted id d) = role d.
Proof.
  intros Hr Hbad.
  assert (Hrows : joinRowsOf id (joinRowsDeleted id d) = [])
    by now rewrite joinRowsOf_after_delete, Z.eqb_refl.
  split; [|split; [exact Hrows | split; [|reflexivity]]].
  - rewrite (updateRole_permissions_only d id r pids Hr).
    unfold RoleRepository.update.
    cbn [ur_name ur_permissionIds ur_isActive ur_description
         RoleRepository.roleNameTaken].
    change (deleteJoinRows id) with (execute (joinRowsDeleted id)).
    destruct pids as [|p pids]; [discriminate|].
    cbn [length Nat.ltb Nat.leb].
    unfold await at 1. unfold await at 1. unfold execute.
    unfold createJoinRows.
    change (forallb (fun q => isSome (permissionById q (joinRowsDeleted id d)))
                    (p :: pids))
      with (forallb (fun q => isSome (permissionById q d)) (p :: pids)).
    rewrite Hbad. cbn [negb]. rewrite orb_true_r. reflexivity.
  - now apply grantedNames_no_rows.
Qed.

Lemma updateRole_replaces_permissions_witness :
  exists r' d',
    RoleService.updateRole 2
      (mkUpdateRoleInput None None None (Some [2; 1])) seededDb
    = (Fulfilled r', d')
    /\ joinRowsOf 2 d' = map (RolePermission.mk 2) [2; 1]
    /\ (forall j, j <> 2 -> joinRowsOf j d' = joinRowsOf j seededDb)
    /\ permission d' = permission seededDb
    /\ user d' = user seededDb.
Proof.
  apply (updateRole_replaces_permissions seededDb 2
           (Role.mk 2 "user" (Some "Standard user role with basic permissions")
                    true) [2; 1]);
    vm_compute; reflexivity.
Defined.

Lemma updateRole_failure_drops_permissions_witness :
  RoleService.updateRole 1
    (mkUpdateRoleInput None None None (Some [5; 99])) seededDb
  = (Rejected (PrismaError PRISMA_ERROR_CODES.FOREIGN_KEY_CONSTRAINT),
     joinRowsDeleted 1 seededDb)
  /\ joinRowsOf 1 (joinRowsDeleted 1 seededDb) = []
  /\ grantedNames 1 (joinRowsDeleted 1 seededDb) = []
  /\ role (joinRowsDeleted 1 seededDb) = role seededDb.
Proof.
  apply (updateRole_failure_drops_permissions seededDb 1
           (Role.mk 1 "admin" (Some "Administrator role with full access")
                    true) [5; 99]);
    vm_compute; reflexivity.
Defined.

(** ** Revoking a permission *)

Lemma userHasPermission_no_active_name (d : Db) (u : Z) (p : string) :
  (forall q, In q (permission d) -> Permission.name q = p ->
             Permission.isActive q = false) ->
  RoleService.userHasPermission u p d = (Fulfilled false, d).
Proof.
  intros Hperm. unfold RoleService.userHasPermission, await, query.
  destruct (userById u d) as [usr|]; [|reflexivity]. cbn [option_map].
  destruct (itsRole (includeRole d usr)) as [r|]; [|reflexivity].
  rewrite hasPermission_literal. do 2 f_equal.
  destruct (existsb _ _) eqn:E; [|reflexivity].
  apply existsb_exists in E as [n [Hn Heq]]. apply String.eqb_eq in Heq.
  subst n. unfold grantedNames in Hn. apply in_flat_map in Hn as [rp [_ Hn]].
  destruct (RolePermission.roleId rp =? Role.id r); [|contradiction].
  destruct (permissionById (RolePermission.permissionId rp) d) as [q|] eqn:Eq;
    [|contradiction].
  destruct (Permission.isActive q) eqn:Ea; [|contradiction].
  destruct Hn as [Hn | []].
  apply find_some in Eq as [Hin _].
  rewrite (Hperm q Hin Hn) in Ea. discriminate.
Qed.

(** X22: soft-deleting a permission revokes it from every role at once.
    After [PermissionRepository.delete] on a permission whose name no other
    id carries, [userHasPermission] answers false for that name, for every
    user, although the join rows are all still there. *)
Theorem permission_delete_revokes (d : Db) (pid : Z) (q : Permission.t) :
  permissionById pid d = Some q ->
  (forall q', In q' (permission d) ->
              Permission.name q' = Permission.name q ->
              Permission.id q' = pid) ->
  PermissionRepository.delete pid d
  = (Fulfilled (revoked q), permissionsUpdated pid revoked d)
  /\ rolePermission (permissionsUpdated pid revoked d) = rolePermission d
  /\ forall u,
       RoleService.userHasPermission u (Permission.name q)
         (permissionsUpdated pid revoked d)
       = (Fulfilled false, permissionsUpdated pid revoked d).
Proof.
  intros Hq Honly. split; [|split; [reflexivity|]].
  - unfold PermissionRepository.delete, updatePermissionRow. now rewrite Hq.
  - intros u. apply userHasPermission_no_active_name. intros x Hx Hname.
    unfold permissionsUpdated in Hx. cbn [permission] in Hx.
    apply in_map_iff in Hx as [y [<- Hy]].
    destruct (Permission.id y =? pid) eqn:E; [reflexivity|].
    rewrite (Honly y Hy Hname), Z.eqb_refl in E. discriminate.
Qed.

Lemma permission_delete_revokes_witness :
  PermissionRepository.delete 5 adminScenarioDb
  = (Fulfilled (revoked (Permission.mk 5 "users.manage"
                           (Some "Permission: users.manage") true)),
     permissionsUpdated 5 revoked adminScenarioDb)
  /\ rolePermission (permissionsUpdated 5 revoked adminScenarioDb)
     = rolePermission adminScenarioDb
  /\ forall u,
       RoleService.userHasPermission u "users.manage"
         (permissionsUpdated 5 revoked adminScenarioDb)
       = (Fulfilled false, permissionsUpdated 5 revoked adminScenarioDb).
Proof.
  apply (permission_delete_revokes adminScenarioDb 5
           (Permission.mk 5 "users.manage" (Some "Permission: users.manage")
                          true)).
  - vm_compute. reflexivity.
  - intros q' Hin Hname. vm_compute in Hin.
    repeat (destruct Hin as [<- | Hin];
            [first [reflexivity | discriminate Hname]|]).
    contradiction.
Defined.

(** ** Seeding roles and permissions *)

Lemma extends_refl (d : Db) : extends d d.
Proof.
  repeat split; exists []; now rewrite app_nil_r.
Qed.

Lemma extends_trans (d1 d2 d3 : Db) :
  extends d3 d2 -> extends d2 d1 -> extends d3 d1.
Proof.
  intros [U3 [[r3 R3] [[p3 P3] [j3 J3]]]] [U2 [[r2 R2] [[p2 P2] [j2 J2]]]].
  repeat split.
  - congruence.
  - exists (r2 ++ r3)%list. rewrite R3, R2. now rewrite app_assoc.
  - exists (p2 ++ p3)%list. rewrite P3, P2. now rewrite app_assoc.
  - exists (j2 ++ j3)%list. rewrite J3, J2. now rewrite app_assoc.
Qed.

Lemma find_app_keeps {A} (f : A -> bool) (l l' : list A) :
  isSome (find f l) = true -> isSome (find f (l ++ l')) = true.
Proof.
  rewrite find_app. now destruct (find f l).
Qed.

Lemma extends_keeps_names (d' d : Db) :
  extends d' d ->
  (forall m, isSome (permissionByName m d) = true ->
             isSome (permissionByName m d') = true)
  /\ (forall m, isSome (roleByName m d) = true ->
                isSome (roleByName m d') = true).
Proof.
  intros [_ [[rs R] [[ps P] _]]]. split; intros m Hm.
  - unfold permissionByName. rewrite P. now apply find_app_keeps.
  - unfold roleByName. rewrite R. now apply find_app_keeps.
Qed.

Lemma insert_extends (p : CreatePermissionInput) (d : Db) :
  extends (PermissionRepository.insert p d) d
  /\ role (PermissionRepository.insert p d) = role d
  /\ isSome (permissionByName (cp_name p) (PermissionRepository.insert p d))
     = true.
Proof.
  repeat split.
  - exists []. cbn [role PermissionRepository.insert]. now rewrite app_nil_r.
  - eexists. reflexivity.
  - exists []. cbn [rolePermission PermissionRepository.insert].
    now rewrite app_nil_r.
  - unfold permissionByName. cbn [permission PermissionRepository.insert].
    rewrite find_app.
    destruct (find _ (permission d)); [reflexivity|].
    cbn [find Permission.name]. now rewrite String.eqb_refl.
Qed.

Lemma insertNew_spec (ps : list CreatePermissionInput) :
  forall d n d',
    PermissionRepository.insertNew ps d = (n, d') ->
    extends d' d
    /\ role d' = role d
    /\ forall p, In p ps -> isSome (permissionByName (cp_name p) d') = true.
Proof.
  induction ps as [|p ps IH]; intros d n d' H; cbn [PermissionRepository.insertNew] in H.
  - injection H as _ <-. split; [apply extends_refl|].
    split; [reflexivity | intros p []].
  - destruct (isSome (permissionByName (cp_name p) d)) eqn:E.
    + destruct (IH _ _ _ H) as [Hext [Hrole Hall]].
      split; [exact Hext|]. split; [exact Hrole|].
      intros q [<- | Hq]; [|now apply Hall].
      now apply (proj1 (extends_keeps_names _ _ Hext)).
    + destruct (PermissionRepository.insertNew ps (PermissionRepository.insert p d))
        as [m d2] eqn:E2.
      injection H as _ <-.
      destruct (IH _ _ _ E2) as [Hext [Hrole Hall]].
      destruct (insert_extends p d) as [Hext0 [Hrole0 Hnew]].
      split; [now apply (extends_trans _ _ _ Hext Hext0)|].
      split; [congruence|].
      intros q [<- | Hq]; [|now apply Hall].
      now apply (proj1 (extends_keeps_names _ _ Hext)).
Qed.

Lemma insertNew_nothing (ps : list CreatePermissionInput) (d : Db) :
  (forall p, In p ps -> isSome (permissionByName (cp_name p) d) = true) ->
  PermissionRepository.insertNew ps d = (0, d).
Proof.
  induction ps as [|p ps IH]; intros H; cbn [PermissionRepository.insertNew];
    [reflexivity|].
  rewrite (H p (or_introl eq_refl)). apply IH. intros q Hq. apply H.
  now right.
Qed.

Lemma ensureRole_present (n desc : string) (names : list string)
    (pm : list (string * Z)) (d : Db) :
  isSome (roleByName n d) = true ->
  ensureRole n desc names pm d = (Fulfilled tt, d).
Proof.
  intros H. unfold ensureRole, await, RoleRepository.findByName, query.
  now destruct (roleByName n d).
Qed.

Lemma ensureRole_spec (n desc : string) (names : list string)
    (pm : list (string * Z)) (d d2 : Db) :
  ensureRole n desc names pm d = (Fulfilled tt, d2) ->
  extends d2 d
  /\ permission d2 = permission d
  /\ isSome (roleByName n d2) = true.
Proof.
  unfold ensureRole, await, RoleRepository.findByName, query.
  destruct (roleByName n d) as [r|] eqn:Er.
  - intros [= <-]. split; [apply extends_refl|].
    split; [reflexivity | now rewrite Er].
  - unfold RoleRepository.create. cbn [cr_name cr_permissionIds cr_description].
    rewrite Er. cbn [isSome].
    destruct (negb (forallb _ _)); [discriminate|].
    destruct (negb (distinct _)); [discriminate|].
    cbn [resolve]. intros [= <-]. repeat split.
    + eexists. reflexivity.
    + exists []. cbn [permission]. now rewrite app_nil_r.
    + eexists. reflexivity.
    + unfold roleByName. cbn [role]. rewrite find_app.
      fold (roleByName n d). rewrite Er.
      cbn [find Role.name]. now rewrite String.eqb_refl.
Qed.

Lemma initialize_steps (d : Db) :
  RoleService.initializeDefaultRolesAndPermissions d
  = (let d1 := snd (PermissionRepository.insertNew (permissionsToCreate d) d) in
     (ensureRole ROLE_NAMES.ADMIN "Administrator role with full access"
                 DEFAULT_ROLE_PERMISSIONS.ADMIN (permissionMapOf d1) ;;
      ensureRole ROLE_NAMES.USER "Standard user role with basic permissions"
                 DEFAULT_ROLE_PERMISSIONS.USER (permissionMapOf d1)) d1).
Proof.
  unfold RoleService.initializeDefaultRolesAndPermissions.
  unfold await at 1. unfold PermissionRepository.findAll at 1, query at 1.
  fold (permissionsToCreate d).
  unfold await at 1.
  assert (Hstep :
    (if (0 <? length (permissionsToCreate d))%nat
     then PermissionRepository.createMany (permissionsToCreate d) ;; resolve tt
     else resolve tt) d
    = (Fulfilled tt,
       snd (PermissionRepository.insertNew (permissionsToCreate d) d))).
  { destruct (permissionsToCreate d) as [|p ps] eqn:E.
    - reflexivity.
    - cbn [length Nat.ltb Nat.leb].
      unfold await, PermissionRepository.createMany.
      now destruct (PermissionRepository.insertNew (p :: ps) d). }
  rewrite Hstep. cbv zeta.
  unfold await at 1. unfold PermissionRepository.findAll at 1, query at 1.
  reflexivity.
Qed.

Lemma standard_names_present (d : Db) (n : string) :
  In n PERMISSIONS.values ->
  isSome (permissionByName n
            (snd (PermissionRepository.insertNew (permissionsToCreate d) d)))
  = true.
Proof.
  intros Hn.
  destruct (PermissionRepository.insertNew (permissionsToCreate d) d)
    as [k d1] eqn:E.
  destruct (insertNew_spec _ _ _ _ E) as [Hext [_ Hall]]. cbn [snd].
  destruct (existsb (String.eqb n)
              (map Permission.name
                   (orderBy Permission.name
                            (filter Permission.isActive (permission d)))))
    eqn:Ex.
  - apply (proj1 (extends_keeps_names _ _ Hext)).
    apply existsb_exists in Ex as [m [Hm Heq]].
    apply String.eqb_eq in Heq. subst m.
    apply in_map_iff in Hm as [x [Hname Hx]].
    apply In_orderBy in Hx. apply filter_In in Hx as [Hx _].
    destruct (find_hit (fun q => (Permission.name q =? n)%string)
                (permission d) x Hx) as [y Hy].
    + rewrite Hname. apply String.eqb_refl.
    + unfold permissionByName. now rewrite Hy.
  - apply (Hall (mkCreatePermissionInput n (Some ("Permission: " ++ n)))).
    unfold permissionsToCreate.
    apply (in_map (fun name =>
                     mkCreatePermissionInput name
                       (Some ("Permission: " ++ name)))).
    apply filter_In.
    split; [exact Hn | now rewrite Ex].
Qed.

(** X23: [initializeDefaultRolesAndPermissions] is idempotent: when a run has
    succeeded, running it again on the database it left succeeds and changes
    nothing. *)
Theorem initialize_idempotent (d d' : Db) :
  RoleService.initializeDefaultRolesAndPermissions d = (Fulfilled tt, d') ->
  RoleService.initializeDefaultRolesAndPermissions d' = (Fulfilled tt, d').
Proof.
  intros H. rewrite initialize_steps in H. cbv zeta in H.
  set (d1 := snd (PermissionRepository.insertNew (permissionsToCreate d) d))
    in *.
  unfold await in H.
  destruct (ensureRole ROLE_NAMES.ADMIN _ _ _ d1) as [[[]|e] d2] eqn:Ea;
    [|discriminate].
  destruct (ensureRole_spec _ _ _ _ _ _ Ea) as [Hext2 [Hperm2 Hadmin]].
  destruct (ensureRole_spec _ _ _ _ _ _ H) as [Hext3 [Hperm3 Huser]].
  assert (Hnames : forall p, In p (permissionsToCreate d') ->
                             isSome (permissionByName (cp_name p) d') = true).
  { intros p Hp. unfold permissionsToCreate in Hp.
    apply in_map_iff in Hp as [n [<- Hn]]. apply filter_In in Hn as [Hn _].
    cbn [cp_name]. unfold permissionByName. rewrite Hperm3, Hperm2.
    exact (standard_names_present d n Hn). }
  rewrite initialize_steps. cbv zeta.
  rewrite (insertNew_nothing _ _ Hnames). cbn [snd].
  unfold await.
  rewrite ensureRole_present.
  - now rewrite ensureRole_present.
  - now apply (proj2 (extends_keeps_names _ _ Hext3)).
Qed.

(** X24: a successful [initializeDefaultRolesAndPermissions] only appends.
    The users are unchanged, every role, permission and join row that existed
    is still there unmodified and in place (so the permission set of an
    existing "admin" or "user" role is not reset), and afterwards the roles
    "admin" and "user" and a permission for each of the thirteen standard
    names exist. *)
Theorem initialize_only_appends (d d' : Db) :
  RoleService.initializeDefaultRolesAndPermissions d = (Fulfilled tt, d') ->
  extends d' d
  /\ isSome (roleByName ROLE_NAMES.ADMIN d') = true
  /\ isSome (roleByName ROLE_NAMES.USER d') = true
  /\ forall n, In n PERMISSIONS.values ->
               isSome (permissionByName n d') = true.
Proof.
  intros H. rewrite initialize_steps in H. cbv zeta in H.
  destruct (PermissionRepository.insertNew (permissionsToCreate d) d)
    as [k d1] eqn:E1.
  pose proof (standard_names_present d) as Hstd. rewrite E1 in Hstd.
  cbn [snd] in *.
  destruct (insertNew_spec _ _ _ _ E1) as [Hext1 _].
  unfold await in H.
  destruct (ensureRole ROLE_NAMES.ADMIN _ _ _ d1) as [[[]|e] d2] eqn:Ea;
    [|discriminate].
  destruct (ensureRole_spec _ _ _ _ _ _ Ea) as [Hext2 [Hperm2 Hadmin]].
  destruct (ensureRole_spec _ _ _ _ _ _ H) as [Hext3 [Hperm3 Huser]].
  repeat split.
  - destruct Hext3 as [U3 _], Hext2 as [U2 _], Hext1 as [U1 _]. congruence.
  - apply (extends_trans _ _ _ Hext3 (extends_trans _ _ _ Hext2 Hext1)).
  - apply (extends_trans _ _ _ Hext3 (extends_trans _ _ _ Hext2 Hext1)).
  - apply (extends_trans _ _ _ Hext3 (extends_trans _ _ _ Hext2 Hext1)).
  - now apply (proj2 (extends_keeps_names _ _ Hext3)).
  - exact Huser.
  - intros n Hn. unfold permissionByName. rewrite Hperm3, Hperm2.
    exact (Hstd n Hn).
Qed.

Lemma initialize_idempotent_witness :
  RoleService.initializeDefaultRolesAndPermissions seededDb
  = (Fulfilled tt, seededDb).
Proof.
  apply (initialize_idempotent emptyDb seededDb). vm_compute. reflexivity.
Defined.

Lemma initialize_only_appends_witness :
  extends misnumberedDb
    (run (RoleService.createRole (mkCreateRoleInput "admin" None None) ;;
          RoleService.createRole (mkCreateRoleInput "editor" None None))
         emptyDb)
  /\ isSome (roleByName ROLE_NAMES.ADMIN misnumberedDb) = true
  /\ isSome (roleByName ROLE_NAMES.USER misnumberedDb) = true
  /\ forall n, In n PERMISSIONS.values ->
               isSome (permissionByName n misnumberedDb) = true.
Proof.
  apply initialize_only_appends. vm_compute. reflexivity.
Defined.

(** ** Issuing and verifying tokens *)

Section TokenRoundTrip.
Context {jwt : JsonWebToken} {cfg : JwtConfig}.

(** X25: when the token package reads back what it signed, each token of
    [generateTokens] verifies to its claims, with the issue second and the
    expiry second, at every time before its expiry second, and fails with
    "Token expired" from that second on: the access token after
    [ACCESS_TOKEN_EXPIRES_IN] seconds, the refresh token after
    [REFRESH_TOKEN_EXPIRES_IN]. *)
Theorem tokens_round_trip (c : Claims.t) (now now' : Z) :
  let issued ttl :=
    mkJwtPayload c (Some (seconds now)) (Some (seconds now + ttl)) in
  let tokens := generateTokens c now in
  jwt_decode (jwt_encode (issued ACCESS_TOKEN_EXPIRES_IN))
  = Some (issued ACCESS_TOKEN_EXPIRES_IN) ->
  jwt_decode (jwt_encode (issued REFRESH_TOKEN_EXPIRES_IN))
  = Some (issued REFRESH_TOKEN_EXPIRES_IN) ->
  verifyToken (Tokens.accessToken tokens) now'
  = (if seconds now + ACCESS_TOKEN_EXPIRES_IN <=? seconds now'
     then inl (PlainError "Token expired")
     else inr (issued ACCESS_TOKEN_EXPIRES_IN))
  /\ verifyToken (Tokens.refreshToken tokens) now'
     = (if seconds now + REFRESH_TOKEN_EXPIRES_IN <=? seconds now'
        then inl (PlainError "Token expired")
        else inr (issued REFRESH_TOKEN_EXPIRES_IN)).
Proof.
  intros issued tokens Ha Hr.
  unfold tokens, generateTokens, generateAccessToken, generateRefreshToken,
    jwt_sign, verifyToken, jwt_verify.
  cbn [Tokens.accessToken Tokens.refreshToken].
  fold (issued ACCESS_TOKEN_EXPIRES_IN). fold (issued REFRESH_TOKEN_EXPIRES_IN).
  rewrite Ha, Hr. cbn [exp issued].
  split.
  - destruct (seconds now + ACCESS_TOKEN_EXPIRES_IN <=? seconds now');
      reflexivity.
  - destruct (seconds now + REFRESH_TOKEN_EXPIRES_IN <=? seconds now');
      reflexivity.
Qed.

End TokenRoundTrip.

Lemma tokens_round_trip_witness :
  let c := Claims.mk 1 "a@x.com" (Some "user") in
  let tokens :=
    generateTokens (jwt := PlainCodec.jwt) (cfg := defaultJwtConfig) c
                   openedAt in
  verifyToken (jwt := PlainCodec.jwt) (Tokens.accessToken tokens)
              (openedAt + 900000)
  = inl (PlainError "Token expired")
  /\ verifyToken (jwt := PlainCodec.jwt) (Tokens.refreshToken tokens)
                 (openedAt + 900000)
     = inr (mkJwtPayload c (Some 1700000000) (Some 1700604800)).
Proof.
  intros c tokens.
  apply (tokens_round_trip (jwt := PlainCodec.jwt) (cfg := defaultJwtConfig)
           c openedAt (openedAt + 900000));
    vm_compute; reflexivity.
Defined.

(** ** The controller *)

Section Controller.
Context {jwt : JsonWebToken} {cfg : JwtConfig} {argon2 : Argon2}
        {texts : LibraryTexts}.

(** X27: on a database that has no role with id 2, a registration with a new
    address and a strong password is answered with status 500, carrying the
    text of the Prisma foreign-key error, and creates no user. *)
Theorem controller_register_without_role_2 (d : Db) (e : string)
    (pw : jsstring) (name : string) (salt : string) (now : Z) :
  roleById 2 d = None ->
  e <> "" -> isBlank e = false ->
  isValid (validatePasswordStrength8 pw) = true ->
  userByEmail e d = None ->
  AuthController.register e pw name salt now d
  = (Fulfilled
       (failure HTTP_STATUS.INTERNAL_SERVER_ERROR HTTP_MESSAGES.INTERNAL_ERROR
          (prismaMessage PRISMA_ERROR_CODES.FOREIGN_KEY_CONSTRAINT)), d).
Proof.
  intros Hrole He Hb Hvalid Hnew.
  unfold AuthController.register, tryCatch.
  apply String.eqb_neq in He. rewrite He.
  rewrite (valid_password_not_empty _ Hvalid). cbn [orb].
  unfold await at 1. unfold AuthService.register.
  cbn [reg_email reg_password reg_name]. rewrite He, Hb, Hvalid.
  cbn [orb negb].
  unfold await at 1. unfold AuthRepository.emailExists, query.
  rewrite Hnew. cbn [isSome].
  unfold await at 1. unfold AuthRepository.create.
  cbn [cu_email cu_roleId AuthRepository.defaultRoleId].
  rewrite Hnew, Hrole. reflexivity.
Qed.

End Controller.

Lemma controller_register_without_role_2_witness :
  AuthController.register (jwt := PlainCodec.jwt) (cfg := defaultJwtConfig)
    (argon2 := PlainHash.argon2) (texts := plainTexts)
    "a@x.com" (units "Str0ng!Pw") "" "salt" openedAt emptyDb
  = (Fulfilled
       (failure HTTP_STATUS.INTERNAL_SERVER_ERROR HTTP_MESSAGES.INTERNAL_ERROR
          "Prisma error P2003"), emptyDb).
Proof.
  apply (controller_register_without_role_2 (jwt := PlainCodec.jwt)
           (cfg := defaultJwtConfig) (argon2 := PlainHash.argon2)
           (texts := plainTexts)
           emptyDb "a@x.com" (units "Str0ng!Pw") "" "salt" openedAt);
    try discriminate; vm_compute; reflexivity.
Defined.
